(** * parliament.core.models: name and identifier resolution

    A shallow embedding of [parliament/core/models.py]: the cross-reference
    table behind party aliases, the politician key/value info rows, the riding
    lookup with its correction table, the three-stage [get_by_name] and the
    lookups by ourcommons.ca identifiers.

    Conventions.
    - A table is the list of its rows in storage order; a query set is the
      sub-list selected by [filter], so [qs[0]] is the head of that list.
    - A model instance that is passed around is represented by its primary
      key (Django compares instances by primary key); foreign keys hold the
      key of the row they point to.
    - Python 2 byte strings are [string]; [unicode(n)] of an integer is its
      decimal writing.
    - An exception is a value of [exn]; writes made before an exception is
      raised stay in the store (the code opens no transaction). *)

From Stdlib Require Import String Ascii List ZArith Bool Lia DecimalString
  DecimalPos.
Import ListNotations.
Local Open Scope string_scope.
Local Open Scope Z_scope.

(** ** Python built-ins used by the module *)

Module Py.

(** [string.whitespace] of Python 2: space, tab, newline, vertical tab,
    form feed, carriage return. *)
Definition isspace (c : ascii) : bool :=
  let n := nat_of_ascii c in
  (Nat.eqb n 32 || (Nat.leb 9 n && Nat.leb n 13))%bool.

Definition isupper (c : ascii) : bool :=
  let n := nat_of_ascii c in (Nat.leb 65 n && Nat.leb n 90)%bool.

Definition islower (c : ascii) : bool :=
  let n := nat_of_ascii c in (Nat.leb 97 n && Nat.leb n 122)%bool.

Definition isdigit (c : ascii) : bool :=
  let n := nat_of_ascii c in (Nat.leb 48 n && Nat.leb n 57)%bool.

(** [\w] of the [re] module without flags: letters, digits, underscore. *)
Definition isword (c : ascii) : bool :=
  (isupper c || islower c || isdigit c || Nat.eqb (nat_of_ascii c) 95)%bool.

Definition lower_char (c : ascii) : ascii :=
  if isupper c then ascii_of_nat (nat_of_ascii c + 32) else c.

Fixpoint lstrip_chars (l : list ascii) : list ascii :=
  match l with
  | c :: t => if isspace c then lstrip_chars t else l
  | [] => []
  end.

(** [s.strip()] of a byte string: the six ASCII whitespace bytes are
    stripped.  On a text string Python strips every Unicode space as well
    (U+00A0 among them); the model does not. *)
Definition strip (s : string) : string :=
  string_of_list_ascii
    (rev (lstrip_chars (rev (lstrip_chars (list_ascii_of_string s))))).

(** [s.lower()] of a byte string: the letters A to Z are folded.  On a text
    string Python folds accented capitals as well; the model does not, so
    it agrees with the code on ASCII names. *)
Definition lower (s : string) : string :=
  string_of_list_ascii (map lower_char (list_ascii_of_string s)).

(** [s.endswith(suffix)] *)
Definition endswith (s suffix : string) : bool :=
  let n := String.length s in
  let k := String.length suffix in
  (Nat.leb k n && String.eqb (substring (n - k) k s) suffix)%bool.

(** [unicode(n)] for an integer. *)
Definition unicode (n : Z) : string := NilZero.string_of_int (Z.to_int n).

(** Truth value of a string: empty is false. *)
Definition truthy (s : string) : bool := negb (String.eqb s "").

End Py.

(** ** Exceptions and the store monad *)

Inductive exn : Type :=
| Politician_DoesNotExist
| Politician_MultipleObjectsReturned
| PoliticianInfo_DoesNotExist
| PoliticianInfo_MultipleObjectsReturned
| Party_DoesNotExist
| Riding_DoesNotExist
| Riding_MultipleObjectsReturned
| ValueError
| TypeError
| HTTPError
| ConnectionError
| XMLSyntaxError
| Exception (msg : string).

Inductive result (A : Type) : Type :=
| Ok (a : A)
| Raise (e : exn).
Arguments Ok {A} a.
Arguments Raise {A} e.

(** ** Rows *)

Module InternalXref.
Record t : Type := Build
  { id : Z;
    text_value : string;
    int_value : option Z;
    target_id : Z;
    schema : string }.
End InternalXref.

Module PoliticianInfo.
Record t : Type := Build
  { id : Z;
    politician : Z;
    schema : string;
    value : string }.
End PoliticianInfo.

Module Politician.
Record t : Type := Build
  { id : Z;
    name : string;
    name_given : string;
    name_family : string;
    slug : string }.
End Politician.

Module Riding.
Record t : Type := Build
  { id : Z;
    name_en : string;
    name_fr : string;
    province : string;
    slug : string }.
End Riding.

Module ElectedMember.
Record t : Type := Build
  { id : Z;
    sessions : list string;
    politician : Z;
    riding : Z;
    party : Z }.
End ElectedMember.

(** What [requests.get] answers for a URL: the status, the URL reached after
    redirects, and the body as [lxml.etree.fromstring] reads it ([None] when
    it is not well-formed XML; otherwise the text found under each path). *)
Module Response.
Record t : Type := Build
  { status_code : Z;
    url : string;
    content : option (list (string * string)) }.
End Response.

(** The persistent store, with the log of the HTTP requests issued. *)
Record World : Type := mkWorld
  { xrefs : list InternalXref.t;
    infos : list PoliticianInfo.t;
    politicians : list Politician.t;
    ridings : list Riding.t;
    members : list ElectedMember.t;
    requested : list string }.

Definition M (A : Type) : Type := World -> result A * World.

Definition ret {A} (a : A) : M A := fun w => (Ok a, w).
Definition raise {A} (e : exn) : M A := fun w => (Raise e, w).
Definition bind {A B} (m : M A) (k : A -> M B) : M B :=
  fun w => match m w with
           | (Ok a, w') => k a w'
           | (Raise e, w') => (Raise e, w')
           end.

Declare Scope store_scope.
Delimit Scope store_scope with store.
Notation "x <- m ;; k" := (bind m (fun x => k))
  (at level 100, m at next level, right associativity) : store_scope.
Notation "' p <- m ;; k" := (bind m (fun x => let 'p := x in k))
  (at level 100, p pattern, m at next level, right associativity) : store_scope.
Notation "m ;;; k" := (bind m (fun _ => k))
  (at level 100, right associativity) : store_scope.
Local Open Scope store_scope.

(** The next free primary key of a table. *)
Definition next_id (ids : list Z) : Z := 1 + fold_right Z.max 0 ids.

(** ** InternalXref and party names *)

Definition party_names_rows (key : string) (w : World) : list InternalXref.t :=
  filter (fun x => String.eqb (InternalXref.schema x) "party_names"
                   && String.eqb (InternalXref.text_value x) key)%bool
         (xrefs w).

(** [InternalXref(schema=.., target_id=.., text_value=..).save()] *)
Definition InternalXref_create (schema : string) (target : Z) (text : string)
  : M unit :=
  fun w =>
    let row := InternalXref.Build (next_id (map InternalXref.id (xrefs w)))
                                  text None target schema in
    (Ok tt, mkWorld (xrefs w ++ [row]) (infos w) (politicians w) (ridings w)
                    (members w) (requested w)).

(** [PartyManager.get_by_name], up to the final fetch of the party row: the
    primary key the name points to. *)
Definition PartyManager_get_by_name (name : string) : M Z :=
  fun w =>
    match party_names_rows (Py.lower (Py.strip name)) w with
    | [] => (Raise Party_DoesNotExist, w)
    | [x] => (Ok (InternalXref.target_id x), w)
    | _ :: _ :: _ =>
        (Raise (Exception "More than one party matched"), w)
    end.

(** [Party.add_alternate_name] *)
Definition Party_add_alternate_name (self : Z) (name : string) : M unit :=
  fun w =>
    let name := Py.lower (Py.strip name) in
    match party_names_rows name w with
    | [] => InternalXref_create "party_names" self name w
    | x0 :: _ =>
        if negb (InternalXref.target_id x0 =? self)
        then (Raise (Exception "Name already points to a different party"), w)
        else (Ok tt, w)
    end.

(** [Party.delete], the part that touches the cross-reference table. *)
Definition Party_delete_names (self : Z) : M unit :=
  fun w =>
    (Ok tt,
     mkWorld (filter (fun x => negb (String.eqb (InternalXref.schema x) "party_names"
                                     && (InternalXref.target_id x =? self)))
                     (xrefs w))
             (infos w) (politicians w) (ridings w) (members w) (requested w)).

(** ** Regular expressions of the module *)

Module Re.

Definition newline : ascii := ascii_of_nat 10.

Fixpoint span (f : ascii -> bool) (l : list ascii) : list ascii * list ascii :=
  match l with
  | c :: t => if f c then let (a, b) := span f t in (c :: a, b) else ([], l)
  | [] => ([], [])
  end.

(** [$]: the end of the string, or just before a final newline. *)
Definition at_end (l : list ascii) : bool :=
  match l with
  | [] => true
  | [c] => Ascii.eqb c newline
  | _ => false
  end.

Definition word_or_hyphen (c : ascii) : bool :=
  (Py.isword c || Ascii.eqb c "-"%char)%bool.

(** [\s([A-Z][\w-]+)$] anchored at the head of [l]. *)
Definition lastname_here (l : list ascii) : option (list ascii) :=
  match l with
  | ws :: c :: t =>
      if (Py.isspace ws && Py.isupper c)%bool then
        let (body, tail) := span word_or_hyphen t in
        match body with
        | _ :: _ => if at_end tail then Some (c :: body) else None
        | [] => None
        end
      else None
  | _ => None
  end.

(** [\((\d+)\)$] anchored at the head of [l]. *)
Definition person_id_here (l : list ascii) : option (list ascii) :=
  match l with
  | "("%char :: t =>
      let (ds, tail) := span Py.isdigit t in
      match ds, tail with
      | _ :: _, ")"%char :: tail' => if at_end tail' then Some ds else None
      | _, _ => None
      end
  | _ => None
  end.

(** [re.search]: the leftmost position at which the pattern matches. *)
Fixpoint search (here : list ascii -> option (list ascii)) (l : list ascii)
  : option (list ascii) :=
  match here l with
  | Some g => Some g
  | None => match l with
            | _ :: t => search here t
            | [] => None
            end
  end.

(** [re.search(r'\s([A-Z][\w-]+)$', s)], group 1. *)
Definition search_lastname (s : string) : option string :=
  option_map string_of_list_ascii (search lastname_here (list_ascii_of_string s)).

(** [int(digits)] *)
Definition int_of_digits (ds : list ascii) : Z :=
  fold_left (fun acc c => 10 * acc + (Z.of_nat (nat_of_ascii c) - 48)) ds 0.

(** [re.search(r'\((\d+)\)$', s)], group 1 read as an integer. *)
Definition search_person_id (s : string) : option Z :=
  option_map int_of_digits (search person_id_here (list_ascii_of_string s)).

End Re.

(** ** Politician info rows *)

Definition set_infos (w : World) (rows : list PoliticianInfo.t) : World :=
  mkWorld (xrefs w) rows (politicians w) (ridings w) (members w) (requested w).

Definition set_politicians (w : World) (rows : list Politician.t) : World :=
  mkWorld (xrefs w) (infos w) rows (ridings w) (members w) (requested w).

Definition log_request (w : World) (url : string) : World :=
  mkWorld (xrefs w) (infos w) (politicians w) (ridings w) (members w)
          (requested w ++ [url]).

(** [self.politicianinfo_set.filter(schema=key)] *)
Definition politicianinfo_set (self : Z) (key : string) (w : World)
  : list PoliticianInfo.t :=
  filter (fun i => (PoliticianInfo.politician i =? self)
                   && String.eqb (PoliticianInfo.schema i) key)%bool
         (infos w).

(** [PoliticianInfo.objects.filter(schema=key, value=value)] *)
Definition info_by_value (key value : string) (w : World)
  : list PoliticianInfo.t :=
  filter (fun i => String.eqb (PoliticianInfo.schema i) key
                   && String.eqb (PoliticianInfo.value i) value)%bool
         (infos w).

(** A new [PoliticianInfo] row, saved. *)
Definition PoliticianInfo_create (pol : Z) (key value : string) : M unit :=
  fun w =>
    let row := PoliticianInfo.Build (next_id (map PoliticianInfo.id (infos w)))
                                    pol key value in
    (Ok tt, set_infos w (infos w ++ [row])).

(** [info.value = value; info.save()] for a row fetched from the table. *)
Definition PoliticianInfo_update (info : PoliticianInfo.t) (value : string)
  : M unit :=
  fun w =>
    (Ok tt,
     set_infos w
       (map (fun i => if PoliticianInfo.id i =? PoliticianInfo.id info
                      then PoliticianInfo.Build (PoliticianInfo.id info)
                             (PoliticianInfo.politician info)
                             (PoliticianInfo.schema info) value
                      else i)
            (infos w))).

(** [self.politicianinfo_set.filter(schema=key).delete()] *)
Definition del_info (self : Z) (key : string) : M unit :=
  fun w =>
    (Ok tt,
     set_infos w
       (filter (fun i => negb ((PoliticianInfo.politician i =? self)
                               && String.eqb (PoliticianInfo.schema i) key))
               (infos w))).

(** [Politician.set_info]; [value] is the text [unicode(value)]. *)
Definition set_info (self : Z) (key value : string) (overwrite : bool)
  : M unit :=
  fun w =>
    match politicianinfo_set self key w with
    | [info] =>
        if negb overwrite then (Raise ValueError, w)
        else PoliticianInfo_update info value w
    | [] => PoliticianInfo_create self key value w
    | _ :: _ :: _ =>
        (del_info self key ;;; PoliticianInfo_create self key value) w
    end.

(** [Politician.set_info_multivalued]: [get_or_create] on the three columns. *)
Definition set_info_multivalued (self : Z) (key value : string) : M unit :=
  fun w =>
    match filter (fun i => PoliticianInfo.politician i =? self)
                 (info_by_value key value w) with
    | [_] => (Ok tt, w)
    | [] => PoliticianInfo_create self key value w
    | _ :: _ :: _ => (Raise PoliticianInfo_MultipleObjectsReturned, w)
    end.

(** [Politician.alternate_names] *)
Definition alternate_names (self : Z) (w : World) : list string :=
  map PoliticianInfo.value (politicianinfo_set self "alternate_name" w).

(** [Politician.info_multivalued], read at one key. *)
Definition info_multivalued (self : Z) (key : string) (w : World)
  : list string :=
  map PoliticianInfo.value (politicianinfo_set self key w).

(** [self.get_queryset().get(id=pk)] on the politician table. *)
Definition Politician_get (pk : Z) : M Z :=
  fun w =>
    match filter (fun p => Politician.id p =? pk) (politicians w) with
    | [p] => (Ok (Politician.id p), w)
    | [] => (Raise Politician_DoesNotExist, w)
    | _ :: _ :: _ => (Raise Politician_MultipleObjectsReturned, w)
    end.

(** [django.db.models.Model.save] on the politician table for an instance
    that carries a primary key: the row under that key is replaced, or the
    instance is inserted when there is none. *)
Definition Model_save (self : Politician.t) : M Z :=
  fun w =>
    let pk := Politician.id self in
    if existsb (fun p => Politician.id p =? pk) (politicians w)
    then (Ok pk,
          set_politicians w
            (map (fun p => if Politician.id p =? pk then self else p)
                 (politicians w)))
    else (Ok pk, set_politicians w (politicians w ++ [self])).

(** The same for an instance built without a primary key: the table gives it
    the next free one. *)
Definition Model_save_new (name name_given name_family slug : string) : M Z :=
  fun w =>
    let pk := next_id (map Politician.id (politicians w)) in
    (Ok pk,
     set_politicians w
       (politicians w ++ [Politician.Build pk name name_given name_family slug])).

(** ** RidingManager *)

Definition FIX_RIDING : list (string * string) :=
  [ ("richmond-arthabasca", "richmond-arthabaska");
    ("richemond-arthabaska", "richmond-arthabaska");
    ("battle-river", "westlock-st-paul");
    ("vancouver-est", "vancouver-east");
    ("calgary-ouest", "calgary-west");
    ("kitchener-wilmot-wellesley-woolwich", "kitchener-conestoga");
    ("carleton-orleans", "ottawa-orleans");
    ("frazer-valley-west", "fraser-valley-west");
    ("laval-ouest", "laval-west");
    ("medecine-hat", "medicine-hat");
    ("lac-st-jean", "lac-saint-jean");
    ("vancouver-north", "north-vancouver");
    ("laval-est", "laval-east");
    ("ottawa-ouest-nepean", "ottawa-west-nepean");
    ("cap-breton-highlands-canso", "cape-breton-highlands-canso");
    ("winnipeg-centre-sud", "winnipeg-south-centre");
    ("renfrew-nippissing-pembroke", "renfrew-nipissing-pembroke");
    ("the-battleford-meadow-lake", "the-battlefords-meadow-lake");
    ("esquimalt-de-fuca", "esquimalt-juan-de-fuca");
    ("sint-hubert", "saint-hubert") ].

(** [d[key]] guarded by [key in d]. *)
Fixpoint dict_get (d : list (string * string)) (key : string) : option string :=
  match d with
  | (k, v) :: t => if String.eqb k key then Some v else dict_get t key
  | [] => None
  end.

(** [self.get_queryset().get(slug=slug)] on the riding table. *)
Definition Riding_get (slug : string) : M Riding.t :=
  fun w =>
    match filter (fun r => String.eqb (Riding.slug r) slug) (ridings w) with
    | [r] => (Ok r, w)
    | [] => (Raise Riding_DoesNotExist, w)
    | _ :: _ :: _ => (Raise Riding_MultipleObjectsReturned, w)
    end.

(** ** The managers

    [parsetools.normalizeName] and [parsetools.slugify] live in another file
    of the repository and the remote directory is outside it: the three are
    the variables of this section. *)

Section Managers.

Variable normalizeName : string -> string.
Variable slugify : string -> string.

(** [requests.get(url)]: [None] when no response arrives. *)
Variable http_get : string -> option Response.t.

(** [RidingManager.get_by_name] *)
Definition RidingManager_get_by_name (name : string) : M Riding.t :=
  let slug := slugify name in
  let slug := match dict_get FIX_RIDING slug with
              | Some fixed => fixed
              | None => slug
              end in
  Riding_get slug.

(** [Politician.add_alternate_name] *)
Definition add_alternate_name (self : Z) (name : string) : M unit :=
  fun w =>
    let normname := normalizeName name in
    if negb (existsb (String.eqb normname) (alternate_names self w))
    then set_info_multivalued self "alternate_name" normname w
    else (Ok tt, w).

(** [Politician.save] for an instance that carries a primary key. *)
Definition Politician_save (self : Politician.t) : M Z :=
  pk <- Model_save self ;;
  add_alternate_name pk (Politician.name self) ;;;
  ret pk.

(** [Politician.save] for an instance built without a primary key. *)
Definition Politician_save_new (name name_given name_family slug : string)
  : M Z :=
  pk <- Model_save_new name name_given name_family slug ;;
  add_alternate_name pk name ;;;
  ret pk.

(** [PoliticianManager.filter_by_name] *)
Definition filter_by_name (name : string) (w : World) : list Z :=
  map PoliticianInfo.politician
      (info_by_value "alternate_name" (normalizeName name) w).

(** The memberships of one candidate that pass every filter supplied. *)
Definition matching_members (pol : Z) (session : option string)
           (riding party : option Z) (w : World) : list ElectedMember.t :=
  let members := filter (fun m => ElectedMember.politician m =? pol)
                        (members w) in
  let members := match riding with
                 | Some r => filter (fun m => ElectedMember.riding m =? r) members
                 | None => members
                 end in
  let members := match session with
                 | Some s => filter (fun m => existsb (String.eqb s)
                                                      (ElectedMember.sessions m))
                                    members
                 | None => members
                 end in
  match party with
  | Some p => filter (fun m => ElectedMember.party m =? p) members
  | None => members
  end.

(** The loop [for p in poss] of [get_by_name], with [result] as
    accumulator. *)
Fixpoint disambiguate (poss : list PoliticianInfo.t) (found : option Z)
         (session : option string) (riding party : option Z) (w : World)
  : result (option Z) :=
  match poss with
  | [] => Ok found
  | p :: rest =>
      match matching_members (PoliticianInfo.politician p)
                             session riding party w with
      | m0 :: _ =>
          match found with
          | Some _ => Raise Politician_MultipleObjectsReturned
          | None => disambiguate rest (Some (ElectedMember.politician m0))
                                 session riding party w
          end
      | [] => disambiguate rest found session riding party w
      end
  end.

(** The query of the family-name stage:
    [filter(name_family=lastname, electedmember__sessions=session).distinct()],
    then [filter(electedmember__riding=riding)] when a riding is given.
    The two [filter] calls each ask for some membership of the politician;
    it need not be the same one. *)
Definition family_name_query (lastname session : string) (riding : option Z)
           (w : World) : list Politician.t :=
  let pols :=
    filter (fun p =>
              String.eqb (Politician.name_family p) lastname
              && existsb (fun m => (ElectedMember.politician m =? Politician.id p)
                                   && existsb (String.eqb session)
                                              (ElectedMember.sessions m))
                         (members w))%bool
           (politicians w) in
  match riding with
  | Some r =>
      filter (fun p => existsb (fun m => (ElectedMember.politician m =? Politician.id p)
                                         && (ElectedMember.riding m =? r))%bool
                               (members w))
             pols
  | None => pols
  end.

(** The last part of [get_by_name]: from [if session and not strictMatch]
    to the final [raise]. *)
Definition family_name_stage (name : string) (session : option string)
           (riding : option Z) (saveAlternate strictMatch : bool) : M Z :=
  match session with
  | Some s =>
      if negb strictMatch then
        match Re.search_lastname (Py.strip name) with
        | Some lastname =>
            fun w =>
              match family_name_query lastname s riding w with
              | _ :: _ :: _ =>
                  match riding with
                  | Some _ =>
                      (Raise (Exception "DATA ERROR: There appear to be two politicians with the same last name elected to the same riding from the same session"), w)
                  | None => (Raise Politician_DoesNotExist, w)
                  end
              | [pol] =>
                  ((if saveAlternate
                    then add_alternate_name (Politician.id pol) name
                    else ret tt) ;;;
                   ret (Politician.id pol)) w
              | [] => (Raise Politician_DoesNotExist, w)
              end
        | None => raise Politician_DoesNotExist
        end
      else raise Politician_DoesNotExist
  | None => raise Politician_DoesNotExist
  end.

Definition is_some {A} (o : option A) : bool :=
  match o with Some _ => true | None => false end.

(** [PoliticianManager.get_by_name] *)
Definition get_by_name (name : string) (session : option string)
           (riding election party : option Z)
           (saveAlternate strictMatch : bool) : M Z :=
  fun w =>
    let poss := info_by_value "alternate_name" (normalizeName name) w in
    let last_resort :=
      family_name_stage name session riding saveAlternate strictMatch w in
    match poss with
    | p0 :: others =>
        if (is_some session || is_some riding || is_some party)%bool then
          match disambiguate poss None session riding party w with
          | Raise e => (Raise e, w)
          | Ok (Some pol) => (Ok pol, w)
          | Ok None => last_resort
          end
        else if is_some election then
          (Raise (Exception "Election not implemented yet in Politician get_by_name"), w)
        else
          match others with
          | _ :: _ => (Raise Politician_MultipleObjectsReturned, w)
          | [] => (Ok (PoliticianInfo.politician p0), w)
          end
    | [] => last_resort
    end.

(** ** Lookups by ourcommons.ca identifiers *)

Definition POL_AFFIL_ID_LOOKUP_URL (parlid : Z) : string :=
  "https://www.ourcommons.ca/Parliamentarians/en/members/profileredirect?affiliationId="
    ++ Py.unicode parlid.

Definition POL_PERSON_ID_LOOKUP_URL (parlid : Z) : string :=
  "https://www.ourcommons.ca/Members/en/openparliamentdotca-lookup("
    ++ Py.unicode parlid ++ ")".

(** [requests.get(url)], logged. *)
Definition requests_get (url : string) : M Response.t :=
  fun w =>
    match http_get url with
    | Some resp => (Ok resp, log_request w url)
    | None => (Raise ConnectionError, log_request w url)
    end.

(** [resp.raise_for_status()]: statuses 400 to 599 raise. *)
Definition raise_for_status (resp : Response.t) : M unit :=
  if (400 <=? Response.status_code resp) && (Response.status_code resp <? 600)
  then raise HTTPError
  else ret tt.

(** [try: ... except exc: raise replacement] *)
Definition reraise {A} (is_exc : exn -> bool) (replacement : exn) (m : M A)
  : M A :=
  fun w => match m w with
           | (Raise e, w') =>
               if is_exc e then (Raise replacement, w') else (Raise e, w')
           | ok => ok
           end.

Definition is_HTTPError (e : exn) : bool :=
  match e with HTTPError => true | _ => false end.

Definition is_Riding_DoesNotExist (e : exn) : bool :=
  match e with Riding_DoesNotExist => true | _ => false end.

(** [xml_doc.findtext(path)] *)
Fixpoint findtext (doc : list (string * string)) (path : string)
  : option string :=
  match doc with
  | (k, v) :: t => if String.eqb k path then Some v else findtext t path
  | [] => None
  end.

(** [PoliticianManager._get_pol_from_ourcommons_url].  A field missing
    from the document makes the code concatenate or slugify [None], a
    Python error for which [TypeError] stands. *)
Definition _get_pol_from_ourcommons_url (url : string)
           (session riding_name : option string) : M (Z * Z) :=
  initial_resp <- reraise is_HTTPError Politician_DoesNotExist
                    (resp <- requests_get url ;;
                     raise_for_status resp ;;;
                     ret resp) ;;
  let xml_url := Response.url initial_resp in
  match Re.search_person_id xml_url with
  | None =>
      if Py.endswith xml_url "Members/en"
      then raise Politician_DoesNotExist
      else raise (Exception "Apparent change in ourcommons URL scheme?")
  | Some parl_mp_id =>
      let xml_url := xml_url ++ "/xml" in
      xml_resp <- requests_get xml_url ;;
      raise_for_status xml_resp ;;;
      match Response.content xml_resp with
      | None => raise XMLSyntaxError
      | Some xml_doc =>
          match findtext xml_doc "MemberOfParliamentRole/PersonOfficialFirstName",
                findtext xml_doc "MemberOfParliamentRole/PersonOfficialLastName",
                findtext xml_doc "MemberOfParliamentRole/ConstituencyName" with
          | Some first, Some last, Some polriding =>
              let polname := first ++ " " ++ last in
              riding <- reraise is_Riding_DoesNotExist Politician_DoesNotExist
                          (RidingManager_get_by_name polriding) ;;
              (match riding_name with
               | Some rn =>
                   if Py.truthy rn then
                     expected <- RidingManager_get_by_name rn ;;
                     if negb (Riding.id riding =? Riding.id expected)
                     then raise (Exception "Pol get_by_id sanity check failed")
                     else ret tt
                   else ret tt
               | None => ret tt
               end) ;;;
              pol <- get_by_name polname session (Some (Riding.id riding))
                                 None None true false ;;
              ret (pol, parl_mp_id)
          | _, _, _ => raise TypeError
          end
      end
  end.

(** [PoliticianInfo.sr_objects.get(schema=key, value=value)] *)
Definition PoliticianInfo_get (key value : string) : M PoliticianInfo.t :=
  fun w =>
    match info_by_value key value w with
    | [info] => (Ok info, w)
    | [] => (Raise PoliticianInfo_DoesNotExist, w)
    | _ :: _ :: _ => (Raise PoliticianInfo_MultipleObjectsReturned, w)
    end.

(** [PoliticianManager.get_by_parl_mp_id] *)
Definition get_by_parl_mp_id (parlid : Z) (session riding_name : option string)
  : M Z :=
  fun w =>
    match PoliticianInfo_get "parl_mp_id" (Py.unicode parlid) w with
    | (Ok info, w') => (Ok (PoliticianInfo.politician info), w')
    | (Raise PoliticianInfo_DoesNotExist, w') =>
        ('(pol, x_mp_id) <- _get_pol_from_ourcommons_url
                              (POL_PERSON_ID_LOOKUP_URL parlid)
                              session riding_name ;;
         if negb (parlid =? x_mp_id)
         then raise (Exception "get_by_parl_mp_id: Get for ID found another ID")
         else
           set_info pol "parl_mp_id" (Py.unicode parlid) false ;;;
           Politician_get pol) w'
    | (Raise e, w') => (Raise e, w')
    end.

(** [PoliticianManager.get_by_parl_affil_id] *)
Definition get_by_parl_affil_id (parlid : Z)
           (session riding_name : option string) : M Z :=
  fun w =>
    match PoliticianInfo_get "parl_affil_id" (Py.unicode parlid) w with
    | (Ok info, w') => (Ok (PoliticianInfo.politician info), w')
    | (Raise PoliticianInfo_DoesNotExist, w') =>
        ('(pol, parl_mp_id) <- _get_pol_from_ourcommons_url
                                 (POL_AFFIL_ID_LOOKUP_URL parlid)
                                 session riding_name ;;
         (fun w1 =>
            match PoliticianInfo_get "parl_mp_id" (Py.unicode parl_mp_id) w1 with
            | (Ok mpid_info, w2) =>
                if negb (PoliticianInfo.politician mpid_info =? pol)
                then (Raise (Exception "get_by_parl_affil_id: mp_id already used"), w2)
                else (Ok tt, w2)
            | (Raise PoliticianInfo_DoesNotExist, w2) =>
                set_info pol "parl_mp_id" (Py.unicode parl_mp_id) false w2
            | (Raise e, w2) => (Raise e, w2)
            end) ;;;
         set_info_multivalued pol "parl_affil_id" (Py.unicode parlid) ;;;
         Politician_get pol) w'
    | (Raise e, w') => (Raise e, w')
    end.

End Managers.

(** ** Further methods of the module *)

Module PyStr.

(** [s.isdigit()] of a byte string: not empty and digits only. *)
Definition isdigit (s : string) : bool :=
  match list_ascii_of_string s with
  | [] => false
  | l => forallb Py.isdigit l
  end.

(** [int(s)] for a string of digits. *)
Definition int (s : string) : Z := Re.int_of_digits (list_ascii_of_string s).

End PyStr.

Module Party.
Record t : Type := Build
  { id : Z;
    name_en : string;
    name_fr : string;
    short_name_en : string;
    short_name_fr : string;
    slug : string }.
End Party.

Module Session.
Record t : Type := Build
  { id : string;
    name : string;
    start : Z;
    end_ : option Z;
    parliamentnum : option Z;
    sessnum : option Z }.
End Session.

Definition set_ridings (w : World) (rows : list Riding.t) : World :=
  mkWorld (xrefs w) (infos w) (politicians w) rows (members w) (requested w).

(** [self.get(slug=slug)] on the politician table. *)
Definition Politician_get_by_slug (slug : string) : M Z :=
  fun w =>
    match filter (fun p => String.eqb (Politician.slug p) slug) (politicians w) with
    | [p] => (Ok (Politician.id p), w)
    | [] => (Raise Politician_DoesNotExist, w)
    | _ :: _ :: _ => (Raise Politician_MultipleObjectsReturned, w)
    end.

(** [PoliticianManager.get_by_slug_or_id] *)
Definition get_by_slug_or_id (slug_or_id : string) : M Z :=
  if PyStr.isdigit slug_or_id
  then Politician_get (PyStr.int slug_or_id)
  else Politician_get_by_slug slug_or_id.

(** The first lines of [Party.save]: blank names take their defaults. *)
Definition Party_fill_names (self : Party.t) : Party.t :=
  let name_fr := if negb (Py.truthy (Party.name_fr self))
                 then Party.name_en self else Party.name_fr self in
  let short_name_en := if negb (Py.truthy (Party.short_name_en self))
                       then Party.name_en self else Party.short_name_en self in
  let short_name_fr := if negb (Py.truthy (Party.short_name_fr self))
                       then name_fr else Party.short_name_fr self in
  Party.Build (Party.id self) (Party.name_en self) name_fr
              short_name_en short_name_fr (Party.slug self).

(** [Party.save] for an instance that carries a primary key, as seen from
    the cross-reference table (the party table is not part of the store);
    [_saveAlternate] is the flag read by [getattr].  The instance is returned
    with its names filled in. *)
Definition Party_save (self : Party.t) (_saveAlternate : bool) : M Party.t :=
  let self := Party_fill_names self in
  if _saveAlternate then
    Party_add_alternate_name (Party.id self) (Party.name_en self) ;;;
    Party_add_alternate_name (Party.id self) (Party.name_fr self) ;;;
    ret self
  else ret self.

(** [self.get_queryset().get(pk=pk)] on a table of sessions. *)
Definition Session_get (sessions : list Session.t) (pk : string)
  : result Session.t :=
  match filter (fun s => String.eqb (Session.id s) pk) sessions with
  | [s] => Ok s
  | [] => Raise (Exception "Session.DoesNotExist")
  | _ :: _ :: _ => Raise (Exception "Session.MultipleObjectsReturned")
  end.

(** [re.search(r'^(\d\d)\D+(\d)\D', string)]: groups 1 and 2. *)
Definition session_groups (l : list ascii) : option (string * string) :=
  match l with
  | a :: b :: t =>
      if (Py.isdigit a && Py.isdigit b)%bool then
        let (gap, rest) := Re.span (fun c => negb (Py.isdigit c)) t in
        match gap, rest with
        | _ :: _, c :: d :: _ =>
            if (Py.isdigit c && negb (Py.isdigit d))%bool
            then Some (String a (String b EmptyString), String c EmptyString)
            else None
        | _, _ => None
        end
      else None
  | _ => None
  end.

(** [SessionManager.get_from_string] *)
Definition get_from_string (sessions : list Session.t) (s : string)
  : result Session.t :=
  match session_groups (list_ascii_of_string s) with
  | None => Raise ValueError
  | Some (parl, sess) => Session_get sessions (parl ++ "-" ++ sess)
  end.

Section MoreManagers.

Variable normalizeName : string -> string.
Variable slugify : string -> string.

(** [django.template.defaultfilters.slugify], used by [add_slug]. *)
Variable django_slugify : string -> string.

(** [Riding.save] for an instance that carries a primary key.  The slug
    column is declared unique: the table refuses a slug that another row
    holds, which Django reports as an [IntegrityError]. *)
Definition Riding_save (self : Riding.t) : M Riding.t :=
  fun w =>
    let self := if negb (Py.truthy (Riding.slug self))
                then Riding.Build (Riding.id self) (Riding.name_en self)
                                  (Riding.name_fr self) (Riding.province self)
                                  (slugify (Riding.name_en self))
                else self in
    if existsb (fun r => negb (Riding.id r =? Riding.id self)
                         && String.eqb (Riding.slug r) (Riding.slug self))%bool
               (ridings w)
    then (Raise (Exception "IntegrityError"), w)
    else if existsb (fun r => Riding.id r =? Riding.id self) (ridings w)
    then (Ok self,
          set_ridings w
            (map (fun r => if Riding.id r =? Riding.id self then self else r)
                 (ridings w)))
    else (Ok self, set_ridings w (ridings w ++ [self])).

(** [Riding.save] for an instance built without a primary key. *)
Definition Riding_save_new (name_en name_fr province slug : string)
  : M Riding.t :=
  fun w =>
    let slug := if negb (Py.truthy slug) then slugify name_en else slug in
    let self := Riding.Build (next_id (map Riding.id (ridings w)))
                             name_en name_fr province slug in
    if existsb (fun r => String.eqb (Riding.slug r) slug) (ridings w)
    then (Raise (Exception "IntegrityError"), w)
    else (Ok self, set_ridings w (ridings w ++ [self])).

(** [Politician.add_slug]: [Some true] and [Some false] for the two values
    returned, [None] when the method falls off its end after saving. *)
Definition add_slug (self : Politician.t) : M (option bool) :=
  if Py.truthy (Politician.slug self) then ret (Some true)
  else
    let slug := django_slugify (Politician.name self) in
    fun w =>
      if existsb (fun p => String.eqb (Politician.slug p) slug) (politicians w)
      then (Ok (Some false), w)
      else
        (Politician_save normalizeName
           (Politician.Build (Politician.id self) (Politician.name self)
                             (Politician.name_given self)
                             (Politician.name_family self) slug) ;;;
         ret None) w.

End MoreManagers.

(** ** Stand-ins for [parsetools]

    Used where a statement needs a concrete normalizer to run on. *)

Module Parsetools.

Definition isalpha (c : ascii) : bool := (Py.isupper c || Py.islower c)%bool.

(** Runs of [sep] shrink to one [sep]. *)
Fixpoint squeeze (sep : ascii) (l : list ascii) : list ascii :=
  match l with
  | a :: t =>
      match t with
      | b :: _ => if (Ascii.eqb a sep && Ascii.eqb b sep)%bool
                  then squeeze sep t
                  else a :: squeeze sep t
      | [] => [a]
      end
  | [] => []
  end.

(** Modelled from the spec: [parsetools.slugify] is not under src/.  The
    spec says the name is normalized to a slug, and the keys of
    [FIX_RIDING] show the shape of one: lower-case letters in groups joined
    by single hyphens.  Letters are lower-cased, every other byte becomes a
    hyphen, and runs of hyphens shrink to one. *)
Definition slugify (s : string) : string :=
  string_of_list_ascii
    (squeeze "-"%char
       (map (fun c => if isalpha c then Py.lower_char c else "-"%char)
            (list_ascii_of_string (Py.strip s)))).

(** Modelled from the spec: [parsetools.normalizeName] is not under src/.
    Of the spec's "lower-cases, strips diacritics/punctuation noise,
    collapses whitespace" the stand-in lower-cases, turns each run of
    whitespace into one space and strips both ends. *)
Definition normalizeName (s : string) : string :=
  Py.strip
    (string_of_list_ascii
       (squeeze " "%char
          (map (fun c => if Py.isspace c then " "%char else Py.lower_char c)
               (list_ascii_of_string s)))).

End Parsetools.


(** ** Stores and a remote directory to run the code on *)

Module Scenario.

Definition empty : World := mkWorld [] [] [] [] [] [].

(** Two politicians named John Smith, elected to different ridings in the
    same session, and a third Smith elected to the riding of the first. *)
Definition smiths : World :=
  mkWorld
    []
    [ PoliticianInfo.Build 1 1 "alternate_name" "john smith";
      PoliticianInfo.Build 2 2 "alternate_name" "john smith";
      PoliticianInfo.Build 3 3 "alternate_name" "jane smith" ]
    [ Politician.Build 1 "John Smith" "John" "Smith" "john-smith";
      Politician.Build 2 "John Smith" "John" "Smith" "";
      Politician.Build 3 "Jane Smith" "Jane" "Smith" "jane-smith" ]
    [ Riding.Build 10 "Richmond—Arthabaska" "Richmond—Arthabaska" "QC"
                   "richmond-arthabaska";
      Riding.Build 20 "Medicine Hat" "Medicine Hat" "AB" "medicine-hat" ]
    [ ElectedMember.Build 1 ["41-1"] 1 10 7;
      ElectedMember.Build 2 ["41-1"] 2 20 7;
      ElectedMember.Build 3 ["41-1"] 3 10 8 ]
    [].

(** The same store after politician 1 was given two person-ID rows. *)
Definition smiths_two_ids : World :=
  set_infos smiths
    (infos smiths
     ++ [ PoliticianInfo.Build 4 1 "parl_mp_id" "5";
          PoliticianInfo.Build 5 1 "parl_mp_id" "6" ])%list.

(** The same store after politician 1 was given one person-ID row. *)
Definition smiths_one_id : World :=
  set_infos smiths
    (infos smiths ++ [ PoliticianInfo.Build 4 1 "parl_mp_id" "5" ])%list.

Definition profile_7 : string :=
  "https://www.ourcommons.ca/Members/en/john-smith(7)".

(** A directory that knows person 7, John Smith of Richmond-Arthabaska. *)
Definition directory (url : string) : option Response.t :=
  if String.eqb url
       "https://www.ourcommons.ca/Members/en/openparliamentdotca-lookup(7)"
  then Some (Response.Build 200 profile_7 None)
  else if String.eqb url (profile_7 ++ "/xml")
  then Some (Response.Build 200 (profile_7 ++ "/xml")
               (Some [ ("MemberOfParliamentRole/PersonOfficialFirstName", "John");
                       ("MemberOfParliamentRole/PersonOfficialLastName", "Smith");
                       ("MemberOfParliamentRole/ConstituencyName",
                        "Richmond-Arthabasca") ]))
  else Some (Response.Build 404 url None).

(** The empty store after party 1 registered a name. *)
Definition liberal : World :=
  snd (Party_add_alternate_name 1 " Liberal " empty).

End Scenario.

(** ** Predicates on stores *)

(** Within [party_names] a name points to at most one target. *)
Definition xref_unique (w : World) : Prop :=
  forall key, (length (party_names_rows key w) <= 1)%nat.

Definition party_key (name : string) : string := Py.lower (Py.strip name).

(** [p] is a stored politician with family name [lastname] and a membership
    in session [s] for riding [r]. *)
Definition elected_with_family_name (p : Politician.t) (lastname s : string)
           (r : Z) (w : World) : Prop :=
  In p (politicians w)
  /\ Politician.name_family p = lastname
  /\ exists m, In m (members w)
               /\ ElectedMember.politician m = Politician.id p
               /\ In s (ElectedMember.sessions m)
               /\ ElectedMember.riding m = r.

(** From [w] to [w'] the info table only gained alternate names; the
    politician and cross-reference tables are the same. *)
Definition only_alternates_added (w w' : World) : Prop :=
  exists extra,
    infos w' = (infos w ++ extra)%list
    /\ Forall (fun i => PoliticianInfo.schema i = "alternate_name") extra
    /\ politicians w' = politicians w
    /\ xrefs w' = xrefs w.

Definition writes_alternates_only {A} (m : M A) : Prop :=
  forall w, only_alternates_added w (snd (m w)).

Section Invariants.

Variable normalizeName : string -> string.

(** The rows that store [v] as an alternate name of [pol]. *)
Definition alternate_rows (pol : Z) (v : string) (w : World)
  : list PoliticianInfo.t :=
  filter (fun i => PoliticianInfo.politician i =? pol)
         (info_by_value "alternate_name" v w).

(** What holds of the store [w'] after [save] returned [pk] for an
    instance named [name], the store being [w] before. *)
Definition saved_invariant (name : string) (pk : Z) (w w' : World) : Prop :=
  In (normalizeName name) (alternate_names pk w')
  /\ In pk (filter_by_name normalizeName name w')
  /\ (forall sa sm,
         get_by_name normalizeName name None None None None sa sm w'
         = (Ok pk, w')
         \/ get_by_name normalizeName name None None None None sa sm w'
            = (Raise Politician_MultipleObjectsReturned, w'))
  /\ length (alternate_rows pk (normalizeName name) w')
     = Nat.max 1 (length (alternate_rows pk (normalizeName name) w)).

End Invariants.

(** ** Further predicates on stores *)

(** Primary keys of the info table are pairwise distinct. *)
Definition info_ids_unique (w : World) : Prop :=
  NoDup (map PoliticianInfo.id (infos w)).

(** No politician stores the same alternate name in two rows. *)
Definition alternates_unique (w : World) : Prop :=
  forall pol v, (length (alternate_rows pol v w) <= 1)%nat.

(** Two stored politicians with the same non-blank slug have the same key. *)
Definition slugs_unique (w : World) : Prop :=
  forall p q,
    In p (politicians w) -> In q (politicians w) ->
    Politician.slug p = Politician.slug q ->
    Politician.slug p <> "" ->
    Politician.id p = Politician.id q.

(** The rows that store value [v] under [key] for politician [pol]. *)
Definition value_rows (pol : Z) (key v : string) (w : World)
  : list PoliticianInfo.t :=
  filter (fun i => PoliticianInfo.politician i =? pol) (info_by_value key v w).

(** The test of [politicianinfo_set]. *)
Definition owns (pol : Z) (key : string) (i : PoliticianInfo.t) : bool :=
  ((PoliticianInfo.politician i =? pol)
   && String.eqb (PoliticianInfo.schema i) key)%bool.

(** The number written by the digits [d], read from the left with [acc] as
    the value of the digits already read. *)
Fixpoint uint_value (d : Decimal.uint) (acc : Z) : Z :=
  match d with
  | Decimal.Nil => acc
  | Decimal.D0 d => uint_value d (10 * acc)
  | Decimal.D1 d => uint_value d (10 * acc + 1)
  | Decimal.D2 d => uint_value d (10 * acc + 2)
  | Decimal.D3 d => uint_value d (10 * acc + 3)
  | Decimal.D4 d => uint_value d (10 * acc + 4)
  | Decimal.D5 d => uint_value d (10 * acc + 5)
  | Decimal.D6 d => uint_value d (10 * acc + 6)
  | Decimal.D7 d => uint_value d (10 * acc + 7)
  | Decimal.D8 d => uint_value d (10 * acc + 8)
  | Decimal.D9 d => uint_value d (10 * acc + 9)
  end.

(** One step of [Re.int_of_digits]. *)
Definition digit_step (acc : Z) (c : ascii) : Z :=
  10 * acc + (Z.of_nat (nat_of_ascii c) - 48).


(** A computation that issues no request. *)
Definition keeps_log {A} (m : M A) : Prop :=
  forall w, requested (snd (m w)) = requested w.

(** ** The context of a resolution, read on the tables *)

(** Some row of the info table stores [v] as an alternate name of [pol]. *)
Definition holds_alternate (pol : Z) (v : string) (w : World) : Prop :=
  exists i, In i (infos w)
            /\ PoliticianInfo.politician i = pol
            /\ PoliticianInfo.schema i = "alternate_name"
            /\ PoliticianInfo.value i = v.

(** Membership [m] passes every filter supplied: its riding is the one asked
    for, the session asked for is among its sessions, its party is the one
    asked for. *)
Definition passes_context (m : ElectedMember.t) (session : option string)
           (riding party : option Z) : Prop :=
  (forall r, riding = Some r -> ElectedMember.riding m = r)
  /\ (forall s, session = Some s -> In s (ElectedMember.sessions m))
  /\ (forall p, party = Some p -> ElectedMember.party m = p).

(** Politician [pol] has a membership row that passes every filter
    supplied. *)
Definition has_passing_membership (pol : Z) (session : option string)
           (riding party : option Z) (w : World) : Prop :=
  exists m, In m (members w)
            /\ ElectedMember.politician m = pol
            /\ passes_context m session riding party.

(** [p] is a stored politician with family name [lastname], a membership in
    session [s] and, when a riding is asked for, a membership for that
    riding.  The two memberships need not be the same row. *)
Definition family_match (p : Politician.t) (lastname s : string)
           (riding : option Z) (w : World) : Prop :=
  In p (politicians w)
  /\ Politician.name_family p = lastname
  /\ (exists m, In m (members w)
                /\ ElectedMember.politician m = Politician.id p
                /\ In s (ElectedMember.sessions m))
  /\ (forall r, riding = Some r ->
                exists m, In m (members w)
                          /\ ElectedMember.politician m = Politician.id p
                          /\ ElectedMember.riding m = r).

(** Every politician has at most one person-ID row. *)
Definition person_ids_single (w : World) : Prop :=
  forall pol, (length (politicianinfo_set pol "parl_mp_id" w) <= 1)%nat.

(** The row [PoliticianInfo_create] appends to the info table of [w]. *)
Definition new_info (pol : Z) (key value : string) (w : World)
  : PoliticianInfo.t :=
  PoliticianInfo.Build (next_id (map PoliticianInfo.id (infos w)))
                       pol key value.

(** ** Further stores to run the code on *)

Module Scenario2.

(** A party with a blank French name and blank short names. *)
Definition grits : Party.t := Party.Build 1 " Liberal " "" "" "" "lib".

(** A second party whose French name is the English name of the first. *)
Definition rivals : Party.t := Party.Build 2 "Grit" "LIBERAL" "" "" "grit".

(** The store of the three Smiths after person ID 7 was recorded for
    politician 3. *)
Definition smiths_id_elsewhere : World :=
  set_infos Scenario.smiths
    (infos Scenario.smiths
     ++ [ PoliticianInfo.Build 4 3 "parl_mp_id" "7" ])%list.

(** A directory that knows affiliation 55: it redirects to the profile of
    person 7. *)
Definition directory_affil (url : string) : option Response.t :=
  if String.eqb url
       "https://www.ourcommons.ca/Parliamentarians/en/members/profileredirect?affiliationId=55"
  then Some (Response.Build 200 Scenario.profile_7 None)
  else Scenario.directory url.

Definition sessions : list Session.t :=
  [ Session.Build "41-1" "41st Parliament, 1st Session" 734291 (Some 735121)
                  (Some 41) (Some 1);
    Session.Build "41-2" "41st Parliament, 2nd Session" 735157 None
                  (Some 41) (Some 2) ].

(** Three politicians named John Smith: the first and the third sat in
    session 41-1, the second in session 40-3 only. *)
Definition three_johns : World :=
  mkWorld
    []
    [ PoliticianInfo.Build 1 1 "alternate_name" "john smith";
      PoliticianInfo.Build 2 2 "alternate_name" "john smith";
      PoliticianInfo.Build 3 4 "alternate_name" "john smith" ]
    [ Politician.Build 1 "John Smith" "John" "Smith" "john-smith";
      Politician.Build 2 "John Smith" "John" "Smith" "";
      Politician.Build 4 "John Smith" "John" "Smith" "" ]
    [ Riding.Build 10 "Richmond—Arthabaska" "Richmond—Arthabaska" "QC"
                   "richmond-arthabaska";
      Riding.Build 20 "Medicine Hat" "Medicine Hat" "AB" "medicine-hat";
      Riding.Build 30 "Calgary West" "Calgary-Ouest" "AB" "calgary-west" ]
    [ ElectedMember.Build 1 ["41-1"] 1 10 7;
      ElectedMember.Build 2 ["40-3"] 2 20 7;
      ElectedMember.Build 3 ["41-1"] 4 30 8 ]
    [].

(** Jane Smith sat for riding 10 in session 41-1 and for riding 20 in
    session 40-3: she changed ridings between the two sessions. *)
Definition moved_riding : World :=
  mkWorld
    []
    [ PoliticianInfo.Build 1 3 "alternate_name" "jane smith" ]
    [ Politician.Build 3 "Jane Smith" "Jane" "Smith" "jane-smith" ]
    [ Riding.Build 10 "Richmond—Arthabaska" "Richmond—Arthabaska" "QC"
                   "richmond-arthabaska";
      Riding.Build 20 "Medicine Hat" "Medicine Hat" "AB" "medicine-hat" ]
    [ ElectedMember.Build 1 ["41-1"] 3 10 8;
      ElectedMember.Build 2 ["40-3"] 3 20 8 ]
    [].

End Scenario2.

(** * Properties *)

Local Open Scope list_scope.

(** ** The string functions on examples *)

Example search_lastname_two_words :
  Re.search_lastname "Tom Mulcair" = Some "Mulcair".
Proof. reflexivity. Qed.

Example search_lastname_hyphen :
  Re.search_lastname "Mr. Jean-Guy  Saint-Pierre" = Some "Saint-Pierre".
Proof. reflexivity. Qed.

Example search_lastname_lowercase :
  Re.search_lastname "tom mulcair" = None.
Proof. reflexivity. Qed.

Example search_lastname_single_word :
  Re.search_lastname "Mulcair" = None.
Proof. reflexivity. Qed.

Example search_person_id_profile :
  Re.search_person_id "https://www.ourcommons.ca/Members/en/tom-mulcair(1234)"
  = Some 1234.
Proof. reflexivity. Qed.

Example search_person_id_landing :
  Re.search_person_id "https://www.ourcommons.ca/Members/en" = None.
Proof. reflexivity. Qed.

Example unicode_1234 : Py.unicode 1234 = "1234".
Proof. reflexivity. Qed.

Example slugify_canonical :
  Parsetools.slugify "Richmond—Arthabaska" = "richmond-arthabaska".
Proof. reflexivity. Qed.

Example slugify_listed_misspelling :
  Parsetools.slugify "Richmond-Arthabasca" = "richmond-arthabasca".
Proof. reflexivity. Qed.

Example normalizeName_spacing :
  Parsetools.normalizeName "Thomas Mulcair"
  = Parsetools.normalizeName "thomas   mulcair".
Proof. reflexivity. Qed.

(** ** Lists and the store monad *)

Lemma two_distinct_members {A} (l : list A) (x y : A) :
  x <> y -> In x l -> In y l -> exists a b t, l = a :: b :: t.
Proof.
  intros Hxy Hx Hy.
  destruct l as [|a [|b t]].
  - contradiction.
  - simpl in Hx, Hy. destruct Hx as [<-|[]]. destruct Hy as [<-|[]].
    contradiction.
  - eauto.
Qed.

Lemma filter_nil_iff {A} (f : A -> bool) (l : list A) :
  filter f l = [] <-> forall x, In x l -> f x = false.
Proof.
  split.
  - intros H x Hx. destruct (f x) eqn:E; [|reflexivity].
    assert (In x (filter f l)) by (apply filter_In; auto).
    rewrite H in H0. contradiction.
  - intros H. induction l as [|a l IH]; [reflexivity|].
    simpl. rewrite H by (left; reflexivity).
    apply IH. intros x Hx. apply H. right. exact Hx.
Qed.

Lemma filter_snoc {A} (f : A -> bool) (l : list A) (x : A) :
  filter f (l ++ [x]) = filter f l ++ (if f x then [x] else []).
Proof. rewrite filter_app. simpl. destruct (f x); reflexivity. Qed.

Lemma existsb_eqb_In (s : string) (l : list string) :
  existsb (String.eqb s) l = true <-> In s l.
Proof.
  rewrite existsb_exists. split.
  - intros [x [Hx E]]. apply String.eqb_eq in E. subst. exact Hx.
  - intros H. exists s. split; [exact H | apply String.eqb_refl].
Qed.

(** ** The cross-reference table *)

Lemma party_names_rows_create (key : string) (self : Z) (name : string) (w : World) :
  party_names_rows key (snd (InternalXref_create "party_names" self name w))
  = party_names_rows key w
    ++ (if String.eqb name key
        then [InternalXref.Build (next_id (map InternalXref.id (xrefs w)))
                                 name None self "party_names"]
        else []).
Proof.
  unfold party_names_rows, InternalXref_create. simpl.
  rewrite filter_snoc. simpl. reflexivity.
Qed.

Lemma xref_unique_empty :
  xref_unique (mkWorld [] [] [] [] [] []).
Proof. intros key. simpl. lia. Qed.

Lemma Party_add_alternate_name_unique (self : Z) (name : string) (w : World) :
  xref_unique w -> xref_unique (snd (Party_add_alternate_name self name w)).
Proof.
  intros Hw key. unfold Party_add_alternate_name.
  destruct (party_names_rows (Py.lower (Py.strip name)) w) as [|x0 rest] eqn:E.
  - rewrite party_names_rows_create.
    destruct (String.eqb_spec (Py.lower (Py.strip name)) key) as [Heq|Hne].
    + rewrite <- Heq, E. simpl. lia.
    + rewrite app_nil_r. apply Hw.
  - destruct (negb (InternalXref.target_id x0 =? self)); simpl; apply Hw.
Qed.

Lemma Party_add_alternate_name_ok_rows (self : Z) (name : string) (w w1 : World) :
  xref_unique w ->
  Party_add_alternate_name self name w = (Ok tt, w1) ->
  exists x, party_names_rows (party_key name) w1 = [x]
            /\ InternalXref.target_id x = self.
Proof.
  intros Hw. unfold Party_add_alternate_name, party_key.
  destruct (party_names_rows (Py.lower (Py.strip name)) w) as [|x0 rest] eqn:E.
  - intros H.
    assert (Hw1 : w1 = snd (InternalXref_create "party_names" self
                               (Py.lower (Py.strip name)) w))
      by (rewrite H; reflexivity).
    rewrite Hw1, party_names_rows_create, E, String.eqb_refl. simpl. eauto.
  - destruct (InternalXref.target_id x0 =? self) eqn:T; simpl; [|discriminate].
    intros H. inversion H; subst w1.
    specialize (Hw (Py.lower (Py.strip name))). rewrite E in Hw.
    destruct rest; [|simpl in Hw; lia].
    exists x0. split; [exact E | apply Z.eqb_eq; exact T].
Qed.


(** ** Alternate names and the candidates of [get_by_name] *)

Lemma alternate_names_row (pol : Z) (v : string) (w : World) :
  In v (alternate_names pol w) <->
  exists i, In i (info_by_value "alternate_name" v w)
            /\ PoliticianInfo.politician i = pol.
Proof.
  unfold alternate_names, politicianinfo_set, info_by_value. split.
  - intros H. apply in_map_iff in H. destruct H as [i [Hv Hi]].
    apply filter_In in Hi. destruct Hi as [Hi Hc].
    apply andb_true_iff in Hc. destruct Hc as [Hp Hs].
    exists i. split; [|apply Z.eqb_eq; exact Hp].
    apply filter_In. split; [exact Hi|].
    rewrite Hs, Hv. apply String.eqb_refl.
  - intros [i [Hi Hp]]. apply filter_In in Hi. destruct Hi as [Hi Hc].
    apply andb_true_iff in Hc. destruct Hc as [Hs Hv].
    apply String.eqb_eq in Hv. apply in_map_iff. exists i. split; [exact Hv|].
    apply filter_In. split; [exact Hi|].
    rewrite Hs. subst pol. rewrite Z.eqb_refl. reflexivity.
Qed.

Lemma matching_members_politician (pol : Z) (session : option string)
      (riding party : option Z) (w : World) (m : ElectedMember.t) :
  In m (matching_members pol session riding party w) ->
  ElectedMember.politician m = pol.
Proof.
  unfold matching_members. intros H.
  assert (Hin : In m (filter (fun m => ElectedMember.politician m =? pol)
                             (members w))).
  { destruct party; destruct session; destruct riding;
      repeat match type of H with
             | In _ (filter _ (filter _ _)) =>
                 apply filter_In in H; destruct H as [H _]
             end; exact H. }
  apply filter_In in Hin. apply Z.eqb_eq. apply Hin.
Qed.

Section Resolution.

Variable normalizeName : string -> string.

(** C6.  When the normalized name is an alternate name of two distinct
    politicians, [get_by_name(name)] raises
    [Politician.MultipleObjectsReturned] and leaves the store as it is. *)
Theorem get_by_name_ambiguous_without_context :
  forall (name : string) (saveAlternate strictMatch : bool)
         (w : World) (A B : Z),
    A <> B ->
    In (normalizeName name) (alternate_names A w) ->
    In (normalizeName name) (alternate_names B w) ->
    get_by_name normalizeName name None None None None
                saveAlternate strictMatch w
    = (Raise Politician_MultipleObjectsReturned, w).
Proof.
  intros name sa sm w A B HAB HA HB.
  apply alternate_names_row in HA. destruct HA as [i [Hi HiA]].
  apply alternate_names_row in HB. destruct HB as [j [Hj HjB]].
  assert (Hij : i <> j) by (intros ->; congruence).
  unfold info_by_value in Hi, Hj.
  destruct (two_distinct_members _ _ _ Hij Hi Hj) as [a [b [t E]]].
  unfold get_by_name, info_by_value. rewrite E. reflexivity.
Qed.

End Resolution.

(** ** Writing info rows *)

Lemma filter_filter_negb {A} (f : A -> bool) (l : list A) :
  filter f (filter (fun x => negb (f x)) l) = [].
Proof.
  apply filter_nil_iff. intros x Hx. apply filter_In in Hx.
  destruct Hx as [_ Hx]. destruct (f x); [discriminate | reflexivity].
Qed.

Lemma filter_idem {A} (f : A -> bool) (l : list A) :
  filter f (filter f l) = filter f l.
Proof.
  induction l as [|a l IH]; [reflexivity|]. simpl.
  destruct (f a) eqn:E; simpl; rewrite ?E, IH; reflexivity.
Qed.

(** [set_info] on a politician holding two or more rows under the key:
    whatever [overwrite] says, the rows are deleted and one row with the new
    value is appended. *)
Lemma set_info_replaces_many (self : Z) (key value : string) (overwrite : bool)
      (w : World) :
  (2 <= length (politicianinfo_set self key w))%nat ->
  exists w',
    set_info self key value overwrite w = (Ok tt, w')
    /\ info_multivalued self key w' = [value]
    /\ filter (fun i => negb ((PoliticianInfo.politician i =? self)
                              && String.eqb (PoliticianInfo.schema i) key))
              (infos w')
       = filter (fun i => negb ((PoliticianInfo.politician i =? self)
                                && String.eqb (PoliticianInfo.schema i) key))
                (infos w)
    /\ politicians w' = politicians w.
Proof.
  unfold set_info.
  destruct (politicianinfo_set self key w) as [|i [|j rest]] eqn:E; simpl;
    try lia.
  intros _. eexists. split; [reflexivity|].
  unfold info_multivalued, politicianinfo_set. simpl.
  rewrite !filter_snoc. simpl.
  rewrite Z.eqb_refl, String.eqb_refl. simpl.
  rewrite (filter_filter_negb
             (fun i => (PoliticianInfo.politician i =? self)
                       && String.eqb (PoliticianInfo.schema i) key)%bool).
  rewrite filter_idem, app_nil_r. repeat split.
Qed.

(** C10.  With [overwrite=False], [set_info] raises [ValueError] exactly when
    the politician holds one row under the key.  When it holds two or more,
    no error is raised: those rows are deleted, one row with the new value
    takes their place, and every other row of the table is kept. *)
Theorem set_info_multiple_rows_replaced :
  forall (self : Z) (key value : string) (w : World),
    (length (politicianinfo_set self key w) = 1%nat
     <-> fst (set_info self key value false w) = Raise ValueError)
    /\ ((2 <= length (politicianinfo_set self key w))%nat ->
        exists w',
          set_info self key value false w = (Ok tt, w')
          /\ info_multivalued self key w' = [value]
          /\ filter (fun i => negb ((PoliticianInfo.politician i =? self)
                                    && String.eqb (PoliticianInfo.schema i) key))
                    (infos w')
             = filter (fun i => negb ((PoliticianInfo.politician i =? self)
                                      && String.eqb (PoliticianInfo.schema i) key))
                      (infos w)).
Proof.
  intros self key value w. split.
  - unfold set_info.
    destruct (politicianinfo_set self key w) as [|i [|j rest]]; simpl;
      split; intros H; try discriminate; try reflexivity; try lia.
  - intros Hmany.
    destruct (set_info_replaces_many self key value false w Hmany)
      as [w' [Hrun [Hval [Hrest _]]]].
    exists w'. repeat split; assumption.
Qed.

Local Arguments Nat.max : simpl never.

Section Saving.

Variable normalizeName : string -> string.

Lemma alternate_rows_nil (pol : Z) (v : string) (w : World) :
  existsb (String.eqb v) (alternate_names pol w) = false ->
  alternate_rows pol v w = [].
Proof.
  intros H. unfold alternate_rows. apply filter_nil_iff. intros i Hi.
  destruct (PoliticianInfo.politician i =? pol) eqn:E; [|reflexivity].
  apply Z.eqb_eq in E.
  assert (Hin : In v (alternate_names pol w))
    by (apply alternate_names_row; eauto).
  apply existsb_eqb_In in Hin. congruence.
Qed.

Lemma alternate_rows_length (pol : Z) (v : string) (w : World) :
  In v (alternate_names pol w) <-> (1 <= length (alternate_rows pol v w))%nat.
Proof.
  rewrite alternate_names_row. unfold alternate_rows. split.
  - intros [i [Hi Hp]].
    assert (Hin : In i (filter (fun i => PoliticianInfo.politician i =? pol)
                               (info_by_value "alternate_name" v w)))
      by (apply filter_In; split; [exact Hi | apply Z.eqb_eq; exact Hp]).
    destruct (filter _ _); [contradiction | simpl; lia].
  - intros H.
    destruct (filter (fun i => PoliticianInfo.politician i =? pol)
                     (info_by_value "alternate_name" v w)) as [|i rest] eqn:E;
      [simpl in H; lia|].
    assert (Hin : In i (filter (fun i => PoliticianInfo.politician i =? pol)
                               (info_by_value "alternate_name" v w)))
      by (rewrite E; left; reflexivity).
    apply filter_In in Hin. destruct Hin as [Hi Hp].
    exists i. split; [exact Hi | apply Z.eqb_eq; exact Hp].
Qed.

(** [add_alternate_name] always succeeds; afterwards the normalized name is
    stored, in one more row if it was not stored and in the same rows
    otherwise; the other tables are not touched. *)
Lemma add_alternate_name_stores (self : Z) (name : string) (w : World) :
  exists w',
    add_alternate_name normalizeName self name w = (Ok tt, w')
    /\ In (normalizeName name) (alternate_names self w')
    /\ length (alternate_rows self (normalizeName name) w')
       = Nat.max 1 (length (alternate_rows self (normalizeName name) w))
    /\ politicians w' = politicians w
    /\ xrefs w' = xrefs w
    /\ requested w' = requested w.
Proof.
  unfold add_alternate_name.
  destruct (existsb (String.eqb (normalizeName name)) (alternate_names self w))
    eqn:E; simpl.
  - exists w. apply existsb_eqb_In in E.
    split; [reflexivity|]. split; [exact E|].
    apply alternate_rows_length in E.
    split; [lia|]. repeat split.
  - pose proof (alternate_rows_nil _ _ _ E) as Hnil.
    unfold set_info_multivalued. unfold alternate_rows in Hnil. rewrite Hnil.
    eexists. split; [reflexivity|].
    assert (Hrows : alternate_rows self (normalizeName name)
                      (snd (PoliticianInfo_create self "alternate_name"
                              (normalizeName name) w))
                    = [PoliticianInfo.Build
                         (next_id (map PoliticianInfo.id (infos w)))
                         self "alternate_name" (normalizeName name)]).
    { unfold alternate_rows, info_by_value. simpl.
      rewrite filter_snoc. simpl. rewrite String.eqb_refl.
      rewrite filter_app. simpl. rewrite Z.eqb_refl.
      unfold info_by_value in Hnil. rewrite Hnil. reflexivity. }
    simpl in Hrows. split.
    + apply alternate_rows_length. simpl. rewrite Hrows. simpl. lia.
    + unfold alternate_rows at 2. rewrite Hnil. simpl. rewrite Hrows.
      repeat split.
Qed.

Lemma get_by_name_finds (name : string) (sa sm : bool) (w : World) (pk : Z) :
  In (normalizeName name) (alternate_names pk w) ->
  get_by_name normalizeName name None None None None sa sm w = (Ok pk, w)
  \/ get_by_name normalizeName name None None None None sa sm w
     = (Raise Politician_MultipleObjectsReturned, w).
Proof.
  intros H. apply alternate_names_row in H. destruct H as [i [Hi Hp]].
  unfold get_by_name.
  destruct (info_by_value "alternate_name" (normalizeName name) w)
    as [|p0 [|p1 rest]]; simpl.
  - contradiction.
  - left. destruct Hi as [<-|[]]. rewrite Hp. reflexivity.
  - right. reflexivity.
Qed.

Lemma saved_invariant_intro (name : string) (pk : Z) (w w' : World) :
  In (normalizeName name) (alternate_names pk w') ->
  length (alternate_rows pk (normalizeName name) w')
  = Nat.max 1 (length (alternate_rows pk (normalizeName name) w)) ->
  saved_invariant normalizeName name pk w w'.
Proof.
  intros Hin Hlen. split; [exact Hin|]. split.
  - apply alternate_names_row in Hin. destruct Hin as [i [Hi Hp]].
    unfold filter_by_name. apply in_map_iff. exists i. split; assumption.
  - split; [|exact Hlen]. intros sa sm. apply get_by_name_finds. exact Hin.
Qed.

(** C9.  [Politician.save] always succeeds, for an instance with a primary
    key and for a new one.  Afterwards the normalized display name is among
    the politician's alternate names, the politician is among the results
    of [filter_by_name] for its display name, [get_by_name] on that name
    without context returns it unless another politician shares the name,
    and the name is stored in one more row only if it was not stored at
    all. *)
Theorem Politician_save_keeps_name_findable :
  forall (w : World),
    (forall self : Politician.t,
        exists w',
          Politician_save normalizeName self w = (Ok (Politician.id self), w')
          /\ saved_invariant normalizeName (Politician.name self) (Politician.id self) w w')
    /\ (forall name name_given name_family slug : string,
           exists pk w',
             Politician_save_new normalizeName name name_given name_family
                                 slug w = (Ok pk, w')
             /\ saved_invariant normalizeName name pk w w').
Proof.
  intros w. split.
  - intros self. unfold Politician_save, bind, Model_save.
    destruct (existsb (fun p => Politician.id p =? Politician.id self)
                      (politicians w)).
    + destruct (add_alternate_name_stores (Politician.id self)
                  (Politician.name self)
                  (set_politicians w
                     (map (fun p => if Politician.id p =? Politician.id self
                                    then self else p) (politicians w))))
        as [w' [Hrun [Hin [Hlen _]]]].
      exists w'. rewrite Hrun. split; [reflexivity|].
      apply saved_invariant_intro; assumption.
    + destruct (add_alternate_name_stores (Politician.id self)
                  (Politician.name self)
                  (set_politicians w (politicians w ++ [self])))
        as [w' [Hrun [Hin [Hlen _]]]].
      exists w'. rewrite Hrun. split; [reflexivity|].
      apply saved_invariant_intro; assumption.
  - intros name name_given name_family slug.
    unfold Politician_save_new, bind, Model_save_new.
    destruct (add_alternate_name_stores
                (next_id (map Politician.id (politicians w))) name
                (set_politicians w
                   (politicians w
                    ++ [Politician.Build
                          (next_id (map Politician.id (politicians w)))
                          name name_given name_family slug])))
      as [w' [Hrun [Hin [Hlen _]]]].
    exists (next_id (map Politician.id (politicians w))), w'.
    rewrite Hrun. split; [reflexivity|].
    apply saved_invariant_intro; assumption.
Qed.

End Saving.

(** ** The family-name stage *)

Section FamilyName.

Variable normalizeName : string -> string.

Lemma get_by_name_falls_through (name s : string)
      (riding election party : option Z) (sa sm : bool) (w : World) :
  disambiguate (info_by_value "alternate_name" (normalizeName name) w)
               None (Some s) riding party w = Ok None ->
  get_by_name normalizeName name (Some s) riding election party sa sm w
  = family_name_stage normalizeName name (Some s) riding sa sm w.
Proof.
  intros H. unfold get_by_name.
  destruct (info_by_value "alternate_name" (normalizeName name) w);
    [reflexivity|].
  simpl is_some. simpl orb. cbv iota. rewrite H. reflexivity.
Qed.

(** Without a session, or with [strictMatch], nothing is tried after the
    alternate names. *)
Lemma family_name_stage_gated (name : string) (session : option string)
      (riding : option Z) (sa sm : bool) (w : World) :
  session = None \/ sm = true ->
  family_name_stage normalizeName name session riding sa sm w
  = (Raise Politician_DoesNotExist, w).
Proof.
  intros [->| ->]; [reflexivity|]. destruct session; reflexivity.
Qed.

End FamilyName.

(** ** The riding correction table *)

Lemma FIX_RIDING_lacks_arthabatca :
  dict_get FIX_RIDING "richmond-arthabatca" = None.
Proof. reflexivity. Qed.

(** Whatever [slugify] is, a name it turns into [richmond-arthabatca] is
    looked up under that very slug. *)
Lemma RidingManager_get_by_name_arthabatca (slugify : string -> string)
      (name : string) (w : World) :
  slugify name = "richmond-arthabatca" ->
  RidingManager_get_by_name slugify name w = Riding_get "richmond-arthabatca" w.
Proof.
  intros H. unfold RidingManager_get_by_name. rewrite H. reflexivity.
Qed.

(** C3, as the code has it.  When the riding table holds one riding with
    slug [richmond-arthabaska], and [slugify] gives the slugs of the two
    spellings, [get_by_name] returns that riding for "Richmond—Arthabaska"
    and for the misspelling "Richmond-Arthabasca" listed in [FIX_RIDING]. *)
Theorem RidingManager_get_by_name_listed_misspelling :
  forall (slugify : string -> string) (w : World) (r : Riding.t),
    slugify "Richmond—Arthabaska" = "richmond-arthabaska" ->
    slugify "Richmond-Arthabasca" = "richmond-arthabasca" ->
    Riding_get "richmond-arthabaska" w = (Ok r, w) ->
    RidingManager_get_by_name slugify "Richmond—Arthabaska" w = (Ok r, w)
    /\ RidingManager_get_by_name slugify "Richmond-Arthabasca" w = (Ok r, w).
Proof.
  intros slugify w r H1 H2 Hget. unfold RidingManager_get_by_name.
  rewrite H1, H2. simpl. split; exact Hget.
Qed.

(** C3 as written fails: "Richmond-Arthabatca" is not a key of [FIX_RIDING],
    so in a store that holds the canonical riding the call raises
    [Riding.DoesNotExist] while the canonical spelling is found. *)
Lemma RidingManager_get_by_name_arthabatca_not_found :
  RidingManager_get_by_name Parsetools.slugify "Richmond—Arthabaska"
                            Scenario.smiths
  = (Ok (Riding.Build 10 "Richmond—Arthabaska" "Richmond—Arthabaska" "QC"
                      "richmond-arthabaska"),
     Scenario.smiths)
  /\ RidingManager_get_by_name Parsetools.slugify "Richmond-Arthabatca"
                               Scenario.smiths
     = (Raise Riding_DoesNotExist, Scenario.smiths)
  /\ ~ (exists r,
           RidingManager_get_by_name Parsetools.slugify "Richmond—Arthabaska"
                                     Scenario.smiths = (Ok r, Scenario.smiths)
           /\ RidingManager_get_by_name Parsetools.slugify "Richmond-Arthabatca"
                                        Scenario.smiths = (Ok r, Scenario.smiths)).
Proof.
  split; [reflexivity|]. split; [reflexivity|].
  intros [r [_ H]]. vm_compute in H. discriminate.
Qed.

(** ** What a resolution may write *)

Lemma only_alternates_added_refl (w : World) : only_alternates_added w w.
Proof.
  exists []. rewrite app_nil_r. repeat split. constructor.
Qed.

Lemma only_alternates_added_same_tables (w w' : World) :
  infos w' = infos w -> politicians w' = politicians w -> xrefs w' = xrefs w ->
  only_alternates_added w w'.
Proof.
  intros Hi Hp Hx. exists []. rewrite app_nil_r. repeat split; try assumption.
  constructor.
Qed.

Lemma only_alternates_added_trans (w1 w2 w3 : World) :
  only_alternates_added w1 w2 -> only_alternates_added w2 w3 ->
  only_alternates_added w1 w3.
Proof.
  intros [e1 [H1 [F1 [P1 X1]]]] [e2 [H2 [F2 [P2 X2]]]].
  exists (e1 ++ e2). rewrite H2, H1, app_assoc.
  repeat split; try congruence.
  apply Forall_app. split; assumption.
Qed.

Lemma only_alternates_added_by_value (w w' : World) (key v : string) :
  only_alternates_added w w' -> key <> "alternate_name" ->
  info_by_value key v w' = info_by_value key v w.
Proof.
  intros [extra [Hi [Hall _]]] Hkey. unfold info_by_value.
  rewrite Hi, filter_app.
  rewrite (proj2 (filter_nil_iff _ extra)); [apply app_nil_r|].
  intros i Hin. rewrite Forall_forall in Hall. rewrite (Hall i Hin).
  destruct (String.eqb_spec "alternate_name" key); [congruence | reflexivity].
Qed.

Lemma only_alternates_added_set (w w' : World) (pol : Z) (key : string) :
  only_alternates_added w w' -> key <> "alternate_name" ->
  politicianinfo_set pol key w' = politicianinfo_set pol key w.
Proof.
  intros [extra [Hi [Hall _]]] Hkey. unfold politicianinfo_set.
  rewrite Hi, filter_app.
  rewrite (proj2 (filter_nil_iff _ extra)); [apply app_nil_r|].
  intros i Hin. rewrite Forall_forall in Hall. rewrite (Hall i Hin).
  destruct (String.eqb_spec "alternate_name" key); [congruence|].
  apply andb_false_r.
Qed.

Lemma writes_ret {A} (a : A) : writes_alternates_only (ret a).
Proof. intros w. apply only_alternates_added_refl. Qed.

Lemma writes_raise {A} (e : exn) : writes_alternates_only (@raise A e).
Proof. intros w. apply only_alternates_added_refl. Qed.

Lemma writes_bind {A B} (m : M A) (k : A -> M B) :
  writes_alternates_only m -> (forall a, writes_alternates_only (k a)) ->
  writes_alternates_only (bind m k).
Proof.
  intros Hm Hk w. unfold bind. specialize (Hm w).
  destruct (m w) as [[a|e] w1]; simpl in *.
  - eapply only_alternates_added_trans; [exact Hm | apply Hk].
  - exact Hm.
Qed.

Lemma writes_reraise {A} (is_exc : exn -> bool) (e : exn) (m : M A) :
  writes_alternates_only m -> writes_alternates_only (reraise is_exc e m).
Proof.
  intros Hm w. unfold reraise. specialize (Hm w).
  destruct (m w) as [[a|e'] w1]; simpl in *; [exact Hm|].
  destruct (is_exc e'); exact Hm.
Qed.

Lemma writes_raise_for_status (resp : Response.t) :
  writes_alternates_only (raise_for_status resp).
Proof.
  unfold raise_for_status.
  destruct ((400 <=? Response.status_code resp)
            && (Response.status_code resp <? 600))%bool;
    [apply writes_raise | apply writes_ret].
Qed.

Create HintDb writes.
#[local] Hint Resolve only_alternates_added_refl : writes.

Section Writes.

Variable normalizeName : string -> string.
Variable slugify : string -> string.
Variable http_get : string -> option Response.t.

Lemma writes_requests_get (url : string) :
  writes_alternates_only (requests_get http_get url).
Proof.
  intros w. unfold requests_get.
  destruct (http_get url); apply only_alternates_added_same_tables;
    reflexivity.
Qed.

Lemma writes_RidingManager_get_by_name (name : string) :
  writes_alternates_only (RidingManager_get_by_name slugify name).
Proof.
  intros w. unfold RidingManager_get_by_name, Riding_get.
  destruct (filter _ (ridings w)) as [|r [|r' rest]]; simpl;
    auto with writes.
Qed.

Lemma writes_add_alternate_name (self : Z) (name : string) :
  writes_alternates_only (add_alternate_name normalizeName self name).
Proof.
  intros w. unfold add_alternate_name, set_info_multivalued.
  destruct (negb _); [|auto with writes].
  destruct (filter _ (info_by_value _ _ w)) as [|i [|j rest]]; simpl;
    auto with writes.
  eexists. split; [reflexivity|]. repeat split.
  constructor; [reflexivity | constructor].
Qed.

Lemma writes_family_name_stage (name : string) (session : option string)
      (riding : option Z) (sa sm : bool) :
  writes_alternates_only
    (family_name_stage normalizeName name session riding sa sm).
Proof.
  unfold family_name_stage.
  destruct session as [s|]; [|apply writes_raise].
  destruct (negb sm); [|apply writes_raise].
  destruct (Re.search_lastname (Py.strip name)) as [lastname|];
    [|apply writes_raise].
  intros w.
  destruct (family_name_query lastname s riding w) as [|pol [|pol' rest]].
  - auto with writes.
  - apply writes_bind; [|intros; apply writes_ret].
    destruct sa; [apply writes_add_alternate_name | apply writes_ret].
  - destruct riding; auto with writes.
Qed.

Lemma writes_get_by_name (name : string) (session : option string)
      (riding election party : option Z) (sa sm : bool) :
  writes_alternates_only
    (get_by_name normalizeName name session riding election party sa sm).
Proof.
  intros w. unfold get_by_name.
  pose proof (writes_family_name_stage name session riding sa sm w) as Hlast.
  destruct (info_by_value "alternate_name" (normalizeName name) w)
    as [|p0 others]; [exact Hlast|].
  destruct (is_some session || is_some riding || is_some party)%bool.
  - destruct (disambiguate _ _ _ _ _ _) as [[pol|]|e]; simpl;
      auto with writes.
  - destruct (is_some election); [auto with writes|].
    destruct others; simpl; auto with writes.
Qed.

Lemma writes_get_pol_from_ourcommons_url (url : string)
      (session riding_name : option string) :
  writes_alternates_only
    (_get_pol_from_ourcommons_url normalizeName slugify http_get
                                  url session riding_name).
Proof.
  unfold _get_pol_from_ourcommons_url.
  apply writes_bind.
  { apply writes_reraise. apply writes_bind; [apply writes_requests_get|].
    intros resp. apply writes_bind; [apply writes_raise_for_status|].
    intros _. apply writes_ret. }
  intros initial_resp.
  destruct (Re.search_person_id (Response.url initial_resp)) as [parl_mp_id|].
  2:{ destruct (Py.endswith _ _); apply writes_raise. }
  apply writes_bind; [apply writes_requests_get|]. intros xml_resp.
  apply writes_bind; [apply writes_raise_for_status|]. intros _.
  destruct (Response.content xml_resp) as [xml_doc|]; [|apply writes_raise].
  destruct (findtext xml_doc _) as [first|]; [|apply writes_raise].
  destruct (findtext xml_doc _) as [last|]; [|apply writes_raise].
  destruct (findtext xml_doc _) as [polriding|]; [|apply writes_raise].
  apply writes_bind.
  { apply writes_reraise. apply writes_RidingManager_get_by_name. }
  intros riding. apply writes_bind.
  { destruct riding_name as [rn|]; [|apply writes_ret].
    destruct (Py.truthy rn); [|apply writes_ret].
    apply writes_bind; [apply writes_RidingManager_get_by_name|].
    intros expected. destruct (negb _); [apply writes_raise | apply writes_ret]. }
  intros _. apply writes_bind; [apply writes_get_by_name|].
  intros pol. apply writes_ret.
Qed.

End Writes.

(** ** Lookups by external identifier *)

Section ExternalIds.

Variable normalizeName : string -> string.
Variable slugify : string -> string.
Variable http_get : string -> option Response.t.

Lemma get_pol_http_error (url : string) (session riding_name : option string)
      (w : World) (resp : Response.t) :
  http_get url = Some resp ->
  400 <= Response.status_code resp < 600 ->
  _get_pol_from_ourcommons_url normalizeName slugify http_get
                               url session riding_name w
  = (Raise Politician_DoesNotExist, log_request w url).
Proof.
  intros Hget [Hlo Hhi].
  unfold _get_pol_from_ourcommons_url, bind, reraise, requests_get,
    raise_for_status.
  rewrite Hget.
  apply Z.leb_le in Hlo. apply Z.ltb_lt in Hhi. rewrite Hlo, Hhi.
  reflexivity.
Qed.

(** C8.  When no row answers the identifier and the first request to the
    directory comes back with a status from 400 to 599, the lookup by
    person ID and the lookup by affiliation ID both raise
    [Politician.DoesNotExist]; the store they leave differs from the one
    they found by that single logged request. *)
Theorem external_id_http_error_not_found :
  forall (parlid : Z) (session riding_name : option string) (w : World),
    (forall resp,
        info_by_value "parl_mp_id" (Py.unicode parlid) w = [] ->
        http_get (POL_PERSON_ID_LOOKUP_URL parlid) = Some resp ->
        400 <= Response.status_code resp < 600 ->
        get_by_parl_mp_id normalizeName slugify http_get
                          parlid session riding_name w
        = (Raise Politician_DoesNotExist,
           log_request w (POL_PERSON_ID_LOOKUP_URL parlid)))
    /\ (forall resp,
           info_by_value "parl_affil_id" (Py.unicode parlid) w = [] ->
           http_get (POL_AFFIL_ID_LOOKUP_URL parlid) = Some resp ->
           400 <= Response.status_code resp < 600 ->
           get_by_parl_affil_id normalizeName slugify http_get
                                parlid session riding_name w
           = (Raise Politician_DoesNotExist,
              log_request w (POL_AFFIL_ID_LOOKUP_URL parlid))).
Proof.
  intros parlid session riding_name w. split; intros resp Hmiss Hget Hst.
  - unfold get_by_parl_mp_id, PoliticianInfo_get. rewrite Hmiss.
    unfold bind at 1.
    rewrite (get_pol_http_error _ session riding_name w resp Hget Hst).
    reflexivity.
  - unfold get_by_parl_affil_id, PoliticianInfo_get. rewrite Hmiss.
    unfold bind at 1.
    rewrite (get_pol_http_error _ session riding_name w resp Hget Hst).
    reflexivity.
Qed.

Lemma schema_parl_mp_id_not_alternate : "parl_mp_id" <> "alternate_name".
Proof. discriminate. Qed.

Lemma politicianinfo_set_create (q pol : Z) (key key' v : string) (w : World) :
  politicianinfo_set q key (snd (PoliticianInfo_create pol key' v w))
  = politicianinfo_set q key w
    ++ (if ((pol =? q) && String.eqb key' key)%bool
        then [new_info pol key' v w] else []).
Proof.
  unfold politicianinfo_set, PoliticianInfo_create, new_info. simpl.
  rewrite filter_snoc. reflexivity.
Qed.

Lemma person_ids_single_grows (w w' : World) :
  only_alternates_added w w' -> person_ids_single w -> person_ids_single w'.
Proof.
  intros H Hw pol.
  rewrite (only_alternates_added_set w w' pol _ H
             schema_parl_mp_id_not_alternate).
  apply Hw.
Qed.

(** Under [overwrite=False] a person ID is recorded for a politician who has
    none and refused for a politician who has one; either way every
    politician still has one person-ID row at most. *)
Lemma set_info_person_id (pol : Z) (v : string) (w : World) :
  person_ids_single w ->
  person_ids_single (snd (set_info pol "parl_mp_id" v false w))
  /\ (politicianinfo_set pol "parl_mp_id" w = [] ->
      set_info pol "parl_mp_id" v false w
      = (Ok tt, set_infos w (infos w ++ [new_info pol "parl_mp_id" v w])))
  /\ (politicianinfo_set pol "parl_mp_id" w <> [] ->
      set_info pol "parl_mp_id" v false w = (Raise ValueError, w)).
Proof.
  intros Hw. unfold set_info.
  pose proof (Hw pol) as Hpol.
  destruct (politicianinfo_set pol "parl_mp_id" w) as [|i [|j rest]] eqn:E.
  - split; [|split; [reflexivity | contradiction]].
    intros q. rewrite politicianinfo_set_create.
    destruct (Z.eqb_spec pol q) as [Heq|Hne]; simpl.
    + subst q. rewrite E. simpl. lia.
    + rewrite app_nil_r. apply Hw.
  - simpl. split; [exact Hw|]. split; [discriminate | reflexivity].
  - simpl in Hpol. lia.
Qed.


Lemma Politician_get_store (pk : Z) (w : World) :
  snd (Politician_get pk w) = w.
Proof.
  unfold Politician_get.
  destruct (filter _ (politicians w)) as [|p [|p' rest]]; reflexivity.
Qed.



Lemma set_info_multivalued_affil_id (pol : Z) (v : string) (w : World) :
  person_ids_single w ->
  person_ids_single (snd (set_info_multivalued pol "parl_affil_id" v w)).
Proof.
  intros Hw. unfold set_info_multivalued.
  destruct (filter _ (info_by_value "parl_affil_id" v w)) as [|i [|j rest]];
    try exact Hw.
  intros q. rewrite politicianinfo_set_create.
  change (String.eqb "parl_affil_id" "parl_mp_id") with false.
  rewrite andb_false_r, app_nil_r. apply Hw.
Qed.

(** The lookup by affiliation ID keeps the invariant too. *)
Lemma get_by_parl_affil_id_person_ids_single (parlid : Z)
      (session riding_name : option string) (w : World) :
  person_ids_single w ->
  person_ids_single
    (snd (get_by_parl_affil_id normalizeName slugify http_get
                               parlid session riding_name w)).
Proof.
  intros Hw. unfold get_by_parl_affil_id, PoliticianInfo_get.
  destruct (info_by_value "parl_affil_id" (Py.unicode parlid) w)
    as [|i [|j rest]]; try exact Hw.
  unfold bind at 1.
  pose proof (writes_get_pol_from_ourcommons_url normalizeName slugify
                http_get (POL_AFFIL_ID_LOOKUP_URL parlid)
                session riding_name w) as Hgrow.
  destruct (_get_pol_from_ourcommons_url normalizeName slugify http_get
              (POL_AFFIL_ID_LOOKUP_URL parlid) session riding_name w)
    as [[[pol mp]|e] w1]; simpl in Hgrow;
    [|exact (person_ids_single_grows _ _ Hgrow Hw)].
  pose proof (person_ids_single_grows _ _ Hgrow Hw) as Hw1.
  assert (Hstep :
            person_ids_single
              (snd (match info_by_value "parl_mp_id" (Py.unicode mp) w1 with
                    | [] => set_info pol "parl_mp_id" (Py.unicode mp) false w1
                    | [mpid_info] =>
                        if negb (PoliticianInfo.politician mpid_info =? pol)
                        then (Raise (Exception "get_by_parl_affil_id: mp_id already used"), w1)
                        else (Ok tt, w1)
                    | _ :: _ :: _ =>
                        (Raise PoliticianInfo_MultipleObjectsReturned, w1)
                    end))).
  { destruct (info_by_value "parl_mp_id" (Py.unicode mp) w1) as [|a [|b rest]].
    - apply set_info_person_id. exact Hw1.
    - destruct (negb _); exact Hw1.
    - exact Hw1. }
  unfold bind.
  destruct (info_by_value "parl_mp_id" (Py.unicode mp) w1) as [|a [|b rest]];
    cbv beta iota in Hstep |- *.
  - destruct (set_info pol "parl_mp_id" (Py.unicode mp) false w1)
      as [[[]|e] w2]; simpl in Hstep; [|exact Hstep].
    pose proof (set_info_multivalued_affil_id pol (Py.unicode parlid) w2 Hstep)
      as Hw3.
    destruct (set_info_multivalued pol "parl_affil_id" (Py.unicode parlid) w2)
      as [[[]|e] w3]; simpl in Hw3; [|exact Hw3].
    rewrite Politician_get_store. exact Hw3.
  - destruct (negb (PoliticianInfo.politician a =? pol)); [exact Hw1|].
    pose proof (set_info_multivalued_affil_id pol (Py.unicode parlid) w1 Hw1)
      as Hw3.
    destruct (set_info_multivalued pol "parl_affil_id" (Py.unicode parlid) w1)
      as [[[]|e] w3]; simpl in Hw3; [|exact Hw3].
    rewrite Politician_get_store. exact Hw3.
  - exact Hw1.
Qed.

End ExternalIds.

(** ** The theorems at work on the stores of [Scenario] *)


Lemma get_by_name_ambiguous_without_context_witness :
  get_by_name Parsetools.normalizeName "John Smith" None None None None
              true false Scenario.smiths
  = (Raise Politician_MultipleObjectsReturned, Scenario.smiths).
Proof.
  apply (get_by_name_ambiguous_without_context
           Parsetools.normalizeName "John Smith" true false Scenario.smiths 1 2).
  - lia.
  - vm_compute. left. reflexivity.
  - vm_compute. left. reflexivity.
Defined.

Lemma external_id_http_error_not_found_witness :
  get_by_parl_mp_id Parsetools.normalizeName Parsetools.slugify
                    Scenario.directory 9999 None None Scenario.smiths
  = (Raise Politician_DoesNotExist,
     log_request Scenario.smiths (POL_PERSON_ID_LOOKUP_URL 9999))
  /\ get_by_parl_affil_id Parsetools.normalizeName Parsetools.slugify
                          Scenario.directory 9999 None None Scenario.smiths
     = (Raise Politician_DoesNotExist,
        log_request Scenario.smiths (POL_AFFIL_ID_LOOKUP_URL 9999)).
Proof.
  destruct (external_id_http_error_not_found Parsetools.normalizeName
              Parsetools.slugify Scenario.directory 9999 None None
              Scenario.smiths) as [Hperson Haffil].
  split.
  - apply (Hperson (Response.Build 404 (POL_PERSON_ID_LOOKUP_URL 9999) None));
      [reflexivity | reflexivity | simpl; lia].
  - apply (Haffil (Response.Build 404 (POL_AFFIL_ID_LOOKUP_URL 9999) None));
      [reflexivity | reflexivity | simpl; lia].
Defined.

Lemma set_info_multiple_rows_replaced_witness :
  exists w',
    set_info 1 "parl_mp_id" "7" false Scenario.smiths_two_ids = (Ok tt, w')
    /\ info_multivalued 1 "parl_mp_id" w' = ["7"]
    /\ filter (fun i => negb ((PoliticianInfo.politician i =? 1)
                              && String.eqb (PoliticianInfo.schema i) "parl_mp_id"))
              (infos w')
       = filter (fun i => negb ((PoliticianInfo.politician i =? 1)
                                && String.eqb (PoliticianInfo.schema i) "parl_mp_id"))
                (infos Scenario.smiths_two_ids).
Proof.
  apply (set_info_multiple_rows_replaced 1 "parl_mp_id" "7"
           Scenario.smiths_two_ids).
  simpl. lia.
Defined.

Lemma RidingManager_get_by_name_listed_misspelling_witness :
  RidingManager_get_by_name Parsetools.slugify "Richmond—Arthabaska"
                            Scenario.smiths
  = (Ok (Riding.Build 10 "Richmond—Arthabaska" "Richmond—Arthabaska" "QC"
                      "richmond-arthabaska"),
     Scenario.smiths)
  /\ RidingManager_get_by_name Parsetools.slugify "Richmond-Arthabasca"
                               Scenario.smiths
     = (Ok (Riding.Build 10 "Richmond—Arthabaska" "Richmond—Arthabaska" "QC"
                         "richmond-arthabaska"),
        Scenario.smiths).
Proof.
  apply RidingManager_get_by_name_listed_misspelling; reflexivity.
Defined.

(** * Further properties *)

(** ** Info rows *)

Lemma next_id_above (ids : list Z) (k : Z) : In k ids -> k < next_id ids.
Proof.
  unfold next_id. induction ids as [|a ids IH]; [contradiction|].
  cbn [fold_right]. intros [->|H]; [lia|]. specialize (IH H). lia.
Qed.

Lemma next_id_fresh (ids : list Z) : ~ In (next_id ids) ids.
Proof. intros H. apply next_id_above in H. lia. Qed.

Lemma filter_map_commute {A} (f : A -> bool) (g : A -> A) (l : list A) :
  (forall x, In x l -> f (g x) = f x) ->
  filter f (map g l) = map g (filter f l).
Proof.
  induction l as [|a l IH]; intros H; [reflexivity|]. simpl.
  rewrite H by (left; reflexivity).
  rewrite IH by (intros x Hx; apply H; right; exact Hx).
  destruct (f a); reflexivity.
Qed.

Lemma map_fixed {A} (g : A -> A) (l : list A) :
  (forall x, In x l -> g x = x) -> map g l = l.
Proof.
  induction l as [|a l IH]; intros H; [reflexivity|]. simpl.
  rewrite H by (left; reflexivity).
  rewrite IH by (intros x Hx; apply H; right; exact Hx). reflexivity.
Qed.

Lemma filter_of_filter_nil {A} (f g : A -> bool) (l : list A) :
  filter f l = [] -> filter f (filter g l) = [].
Proof.
  intros H. apply filter_nil_iff. intros x Hx. apply filter_In in Hx.
  apply (proj1 (filter_nil_iff f l) H). apply Hx.
Qed.

Lemma NoDup_map_filter {A B} (h : A -> B) (f : A -> bool) (l : list A) :
  NoDup (map h l) -> NoDup (map h (filter f l)).
Proof.
  induction l as [|a l IH]; intros H; [exact H|]. simpl in *.
  inversion H as [|x xs Hnot Hrest]; subst.
  destruct (f a); [|apply IH; exact Hrest]. simpl. constructor.
  - intros Hin. apply Hnot. apply in_map_iff in Hin.
    destruct Hin as [y [Hy Hin]]. apply filter_In in Hin.
    apply in_map_iff. exists y. split; [exact Hy | apply Hin].
  - apply IH. exact Hrest.
Qed.

Lemma NoDup_map_same_key {A} (h : A -> Z) (l : list A) (x y : A) :
  NoDup (map h l) -> In x l -> In y l -> h x = h y -> x = y.
Proof.
  induction l as [|a l IH]; intros Hnd Hx Hy Hxy; [contradiction|].
  simpl in Hnd. inversion Hnd as [|k ks Hnot Hrest]; subst.
  destruct Hx as [<-|Hx]; destruct Hy as [<-|Hy].
  - reflexivity.
  - exfalso. apply Hnot. rewrite Hxy. apply in_map. exact Hy.
  - exfalso. apply Hnot. rewrite <- Hxy. apply in_map. exact Hx.
  - apply IH; assumption.
Qed.

Lemma NoDup_app_snoc_fresh (l : list Z) (k : Z) :
  NoDup l -> ~ In k l -> NoDup (l ++ [k]).
Proof.
  intros Hnd Hk. induction l as [|a l IH]; simpl.
  - constructor; [intros [] | constructor].
  - inversion Hnd as [|x xs Hnot Hrest]; subst. constructor.
    + intros Hin. apply in_app_or in Hin. destruct Hin as [Hin|[->|[]]].
      * contradiction.
      * apply Hk. left. reflexivity.
    + apply IH; [exact Hrest|]. intros Hin. apply Hk. right. exact Hin.
Qed.

Lemma owns_true (pol : Z) (key : string) (i : PoliticianInfo.t) :
  owns pol key i = true <->
  PoliticianInfo.politician i = pol /\ PoliticianInfo.schema i = key.
Proof.
  unfold owns. rewrite andb_true_iff, Z.eqb_eq, String.eqb_eq. reflexivity.
Qed.

Lemma owns_other (pol pol' : Z) (key key' : string) (i : PoliticianInfo.t) :
  pol' <> pol \/ key' <> key ->
  owns pol' key' i = true -> owns pol key i = false.
Proof.
  intros Hne H. apply owns_true in H. destruct H as [Hp Hk].
  destruct (owns pol key i) eqn:E; [|reflexivity].
  apply owns_true in E. destruct E as [Hp' Hk'].
  destruct Hne as [Hne|Hne]; exfalso; apply Hne; congruence.
Qed.

Lemma filter_owns_after_delete (pol pol' : Z) (key key' : string)
      (l : list PoliticianInfo.t) :
  pol' <> pol \/ key' <> key ->
  filter (owns pol' key') (filter (fun i => negb (owns pol key i)) l)
  = filter (owns pol' key') l.
Proof.
  intros Hne. induction l as [|a l IH]; [reflexivity|]. simpl.
  destruct (owns pol' key' a) eqn:Ea.
  - rewrite (owns_other pol pol' key key' a Hne Ea). simpl.
    rewrite Ea, IH. reflexivity.
  - destruct (negb (owns pol key a)); simpl; rewrite ?Ea; exact IH.
Qed.

Lemma politicianinfo_set_owns (pol : Z) (key : string) (w : World) :
  politicianinfo_set pol key w = filter (owns pol key) (infos w).
Proof. reflexivity. Qed.

(** X1.  On a table with distinct primary keys, a [set_info] that returns
    leaves the politician with exactly one row under the key, holding the new
    value; the rows of every other politician or key are the same as before,
    and primary keys are still distinct. *)
Theorem set_info_single_valued :
  forall (self : Z) (key value : string) (overwrite : bool) (w w' : World),
    info_ids_unique w ->
    set_info self key value overwrite w = (Ok tt, w') ->
    info_multivalued self key w' = [value]
    /\ (forall pol' key',
           pol' <> self \/ key' <> key ->
           politicianinfo_set pol' key' w' = politicianinfo_set pol' key' w)
    /\ info_ids_unique w'.
Proof.
  intros self key value overwrite w w' Hnd Hrun.
  unfold set_info in Hrun. unfold info_multivalued, info_ids_unique in *.
  rewrite !politicianinfo_set_owns in *.
  destruct (filter (owns self key) (infos w)) as [|info [|j rest]] eqn:E.
  - (* no row: one is created *)
    inversion Hrun; subst w'; clear Hrun. simpl.
    rewrite filter_snoc, E. unfold owns at 1. simpl.
    rewrite Z.eqb_refl, String.eqb_refl. simpl.
    split; [reflexivity|]. split.
    + intros pol' key' Hne. rewrite politicianinfo_set_owns. simpl.
      rewrite filter_snoc.
      destruct (owns pol' key' _) eqn:Eo; [|apply app_nil_r].
      apply (owns_other self pol' key key') in Eo; [|exact Hne].
      unfold owns in Eo. simpl in Eo.
      rewrite Z.eqb_refl, String.eqb_refl in Eo. discriminate.
    + rewrite map_app. simpl. apply NoDup_app_snoc_fresh; [exact Hnd|].
      apply next_id_fresh.
  - (* one row: its value is replaced *)
    destruct overwrite; simpl in Hrun; [|discriminate].
    inversion Hrun; subst w'; clear Hrun. simpl.
    assert (Hin : In info (filter (owns self key) (infos w)))
      by (rewrite E; left; reflexivity).
    apply filter_In in Hin. destruct Hin as [Hin Hown].
    assert (Hsame : forall i, In i (infos w) ->
                              PoliticianInfo.id i = PoliticianInfo.id info ->
                              i = info).
    { intros i Hi Hid.
      apply (NoDup_map_same_key PoliticianInfo.id (infos w)); assumption. }
    set (upd := fun i : PoliticianInfo.t =>
                  if PoliticianInfo.id i =? PoliticianInfo.id info
                  then PoliticianInfo.Build (PoliticianInfo.id info)
                         (PoliticianInfo.politician info)
                         (PoliticianInfo.schema info) value
                  else i).
    assert (Hkeep : forall p k i, In i (infos w) ->
                                  owns p k (upd i) = owns p k i).
    { intros p k i Hi. unfold upd.
      destruct (PoliticianInfo.id i =? PoliticianInfo.id info) eqn:Eid;
        [|reflexivity].
      apply Z.eqb_eq in Eid. rewrite (Hsame i Hi Eid). reflexivity. }
    split; [|split].
    + rewrite filter_map_commute by (intros; apply Hkeep; assumption).
      rewrite E. simpl. unfold upd. rewrite Z.eqb_refl. reflexivity.
    + intros pol' key' Hne. rewrite !politicianinfo_set_owns. simpl.
      rewrite filter_map_commute by (intros; apply Hkeep; assumption).
      apply map_fixed. intros i Hi. apply filter_In in Hi.
      destruct Hi as [Hi Ho]. unfold upd.
      destruct (PoliticianInfo.id i =? PoliticianInfo.id info) eqn:Eid;
        [|reflexivity].
      apply Z.eqb_eq in Eid. rewrite (Hsame i Hi Eid) in Ho.
      apply (owns_other self pol' key key') in Ho; [|exact Hne]. congruence.
    + rewrite map_map.
      rewrite (map_ext _ PoliticianInfo.id); [exact Hnd|].
      intros i. unfold upd.
      destruct (PoliticianInfo.id i =? PoliticianInfo.id info) eqn:Eid;
        [|reflexivity].
      apply Z.eqb_eq in Eid. simpl. symmetry. exact Eid.
  - (* several rows: they are deleted and one is created *)
    unfold bind, del_info, PoliticianInfo_create in Hrun. simpl in Hrun.
    inversion Hrun; subst w'; clear Hrun. simpl.
    change (fun i => negb ((PoliticianInfo.politician i =? self)
                           && String.eqb (PoliticianInfo.schema i) key))
      with (fun i => negb (owns self key i)).
    rewrite filter_snoc, filter_filter_negb. unfold owns at 1. simpl.
    rewrite Z.eqb_refl, String.eqb_refl. simpl.
    split; [reflexivity|]. split.
    + intros pol' key' Hne. rewrite !politicianinfo_set_owns. simpl.
      rewrite filter_snoc.
      destruct (owns pol' key' (PoliticianInfo.Build _ self key value)) eqn:Eo.
      { apply (owns_other self pol' key key') in Eo; [|exact Hne].
        unfold owns in Eo. simpl in Eo.
        rewrite Z.eqb_refl, String.eqb_refl in Eo. discriminate. }
      rewrite app_nil_r. apply filter_owns_after_delete. exact Hne.
    + rewrite map_app. simpl. apply NoDup_app_snoc_fresh.
      * apply NoDup_map_filter. exact Hnd.
      * apply next_id_fresh.
Qed.

(** X2.  [set_info_multivalued] behaves as [get_or_create]: when at most one
    row holds the value for the politician, the call succeeds, exactly one
    row holds it afterwards, nothing is written if the row was there, and a
    second call changes nothing; when two or more rows hold it, the call
    raises [MultipleObjectsReturned] and writes nothing. *)
Theorem set_info_multivalued_get_or_create :
  forall (self : Z) (key value : string) (w : World),
    ((length (value_rows self key value w) <= 1)%nat ->
     exists w',
       set_info_multivalued self key value w = (Ok tt, w')
       /\ length (value_rows self key value w') = 1%nat
       /\ (length (value_rows self key value w) = 1%nat -> w' = w)
       /\ set_info_multivalued self key value w' = (Ok tt, w'))
    /\ ((2 <= length (value_rows self key value w))%nat ->
        set_info_multivalued self key value w
        = (Raise PoliticianInfo_MultipleObjectsReturned, w)).
Proof.
  intros self key value w. unfold set_info_multivalued, value_rows.
  destruct (filter (fun i => PoliticianInfo.politician i =? self)
                   (info_by_value key value w)) as [|i [|j rest]] eqn:E;
    simpl; split; intros H; try lia; try reflexivity.
  - eexists. split; [reflexivity|].
    assert (Hrows : filter (fun i => PoliticianInfo.politician i =? self)
                      (info_by_value key value
                         (snd (PoliticianInfo_create self key value w)))
                    = [PoliticianInfo.Build
                         (next_id (map PoliticianInfo.id (infos w)))
                         self key value]).
    { unfold info_by_value in *. simpl. rewrite filter_snoc. simpl.
      rewrite !String.eqb_refl. simpl. rewrite filter_app, E. simpl.
      rewrite Z.eqb_refl. reflexivity. }
    simpl in Hrows. rewrite Hrows. simpl.
    split; [reflexivity|]. split; [lia | reflexivity].
  - exists w. rewrite E. simpl. repeat split.
Qed.

Section MoreSaving.

Variable normalizeName : string -> string.

Lemma add_alternate_name_effect (self : Z) (name : string) (w : World) :
  (In (normalizeName name) (alternate_names self w)
   /\ add_alternate_name normalizeName self name w = (Ok tt, w))
  \/ (alternate_rows self (normalizeName name) w = []
      /\ add_alternate_name normalizeName self name w
         = PoliticianInfo_create self "alternate_name" (normalizeName name) w).
Proof.
  unfold add_alternate_name.
  destruct (existsb (String.eqb (normalizeName name)) (alternate_names self w))
    eqn:E; simpl.
  - left. split; [apply existsb_eqb_In; exact E | reflexivity].
  - right. pose proof (alternate_rows_nil _ _ _ E) as Hnil.
    split; [exact Hnil|]. unfold set_info_multivalued.
    unfold alternate_rows in Hnil. rewrite Hnil. reflexivity.
Qed.

(** X3.  [add_alternate_name] is idempotent: it always returns, and a second
    call with the same name finds the store as the first call left it. *)
Theorem add_alternate_name_idempotent :
  forall (self : Z) (name : string) (w : World),
  exists w1,
    add_alternate_name normalizeName self name w = (Ok tt, w1)
    /\ add_alternate_name normalizeName self name w1 = (Ok tt, w1).
Proof.
  intros self name w.
  destruct (add_alternate_name_stores normalizeName self name w)
    as [w1 [Hrun [Hin _]]].
  exists w1. split; [exact Hrun|].
  destruct (add_alternate_name_effect self name w1) as [[_ H]|[Hnil _]];
    [exact H|].
  apply alternate_rows_length in Hin. rewrite Hnil in Hin. simpl in Hin. lia.
Qed.

Lemma alternate_rows_create (pol self : Z) (v v' : string) (w : World) :
  alternate_rows pol v (snd (PoliticianInfo_create self "alternate_name" v' w))
  = alternate_rows pol v w
    ++ (if (String.eqb v' v && (self =? pol))%bool
        then [PoliticianInfo.Build (next_id (map PoliticianInfo.id (infos w)))
                                   self "alternate_name" v']
        else []).
Proof.
  unfold alternate_rows, info_by_value. simpl.
  rewrite filter_snoc. simpl.
  destruct (String.eqb v' v); simpl; rewrite filter_app; simpl;
    [|reflexivity].
  destruct (self =? pol); reflexivity.
Qed.

Lemma add_alternate_name_unique (self : Z) (name : string) (w : World) :
  alternates_unique w ->
  alternates_unique (snd (add_alternate_name normalizeName self name w)).
Proof.
  intros Hw pol v.
  destruct (add_alternate_name_effect self name w) as [[_ H]|[Hnil H]];
    rewrite H; [apply Hw|].
  rewrite alternate_rows_create.
  destruct (String.eqb_spec (normalizeName name) v) as [Hv|Hv]; simpl.
  - destruct (Z.eqb_spec self pol) as [Hp|Hp].
    + subst. rewrite Hnil. simpl. lia.
    + rewrite app_nil_r. apply Hw.
  - rewrite app_nil_r. apply Hw.
Qed.

(** What [get_by_name] does to the store: nothing, or what
    [add_alternate_name] does for the politician it returns. *)
Lemma get_by_name_store (name : string) (session : option string)
      (riding election party : option Z) (sa sm : bool) (w : World) :
  (snd (get_by_name normalizeName name session riding election party sa sm w)
   = w
   /\ forall pol w',
       get_by_name normalizeName name session riding election party sa sm w
       = (Ok pol, w') -> w' = w)
  \/ exists s lastname p,
      session = Some s /\ sa = true /\ sm = false
      /\ Re.search_lastname (Py.strip name) = Some lastname
      /\ family_name_query lastname s riding w = [p]
      /\ disambiguate (info_by_value "alternate_name" (normalizeName name) w)
                      None session riding party w = Ok None
      /\ get_by_name normalizeName name session riding election party sa sm w
         = (Ok (Politician.id p),
            snd (add_alternate_name normalizeName (Politician.id p) name w)).
Proof.
  assert (Hsame : forall r : result Z,
             snd (r, w) = w
             /\ forall pol w', (r, w) = (Ok pol, w') -> w' = w).
  { intros r. split; [reflexivity|]. intros pol w' H. inversion H. reflexivity. }
  assert (Hlast :
            disambiguate (info_by_value "alternate_name" (normalizeName name) w)
                         None session riding party w = Ok None ->
            (snd (family_name_stage normalizeName name session riding sa sm w)
             = w
             /\ forall pol w',
                 family_name_stage normalizeName name session riding sa sm w
                 = (Ok pol, w') -> w' = w)
            \/ exists s lastname p,
                session = Some s /\ sa = true /\ sm = false
                /\ Re.search_lastname (Py.strip name) = Some lastname
                /\ family_name_query lastname s riding w = [p]
                /\ disambiguate
                     (info_by_value "alternate_name" (normalizeName name) w)
                     None session riding party w = Ok None
                /\ family_name_stage normalizeName name session riding sa sm w
                   = (Ok (Politician.id p),
                      snd (add_alternate_name normalizeName (Politician.id p)
                                              name w))).
  { intros Hloop. unfold family_name_stage.
    destruct session as [s|]; [|left; apply Hsame].
    destruct sm; [left; apply Hsame|].
    change (negb false) with true. cbv beta iota.
    destruct (Re.search_lastname (Py.strip name)) as [lastname|] eqn:Ere;
      [|left; apply Hsame].
    cbv beta iota.
    destruct (family_name_query lastname s riding w) as [|p [|q rest]] eqn:Eq.
    - left. apply Hsame.
    - destruct sa.
      + right. exists s, lastname, p. repeat split; try assumption.
        unfold bind.
        destruct (add_alternate_name_stores normalizeName (Politician.id p)
                    name w) as [w1 [Hrun _]].
        rewrite Hrun. reflexivity.
      + left. apply Hsame.
    - left. destruct riding; apply Hsame. }
  unfold get_by_name.
  destruct (info_by_value "alternate_name" (normalizeName name) w)
    as [|p0 others] eqn:Eposs.
  - apply Hlast. reflexivity.
  - destruct (is_some session || is_some riding || is_some party)%bool.
    + destruct (disambiguate (p0 :: others) None session riding party w)
        as [[pol|]|e] eqn:Eloop; try (left; apply Hsame).
      apply Hlast. reflexivity.
    + left. destruct (is_some election); [apply Hsame|].
      destruct others; apply Hsame.
Qed.

(** X4.  No alternate name is ever stored twice for one politician: if that
    holds of a store, it holds of the store left by [add_alternate_name], by
    [Politician.save] and by [get_by_name], whatever their arguments. *)
Theorem alternates_unique_preserved :
  forall (w : World),
    alternates_unique w ->
    (forall self name,
        alternates_unique (snd (add_alternate_name normalizeName self name w)))
    /\ (forall self,
           alternates_unique (snd (Politician_save normalizeName self w)))
    /\ (forall name session riding election party sa sm,
           alternates_unique
             (snd (get_by_name normalizeName name session riding election
                               party sa sm w))).
Proof.
  intros w Hw. split; [|split].
  - intros self name. apply add_alternate_name_unique. exact Hw.
  - intros self. unfold Politician_save, bind.
    destruct (Model_save self w) as [[pk|e] w0] eqn:Esave.
    + assert (Hw0 : alternates_unique w0).
      { unfold Model_save in Esave.
        destruct (existsb _ (politicians w)); inversion Esave; subst;
          exact Hw. }
      pose proof (add_alternate_name_unique pk (Politician.name self) w0 Hw0)
        as H.
      destruct (add_alternate_name normalizeName pk (Politician.name self) w0)
        as [[u|e] w1]; exact H.
    + unfold Model_save in Esave.
      destruct (existsb _ (politicians w)); discriminate.
  - intros name session riding election party sa sm.
    destruct (get_by_name_store name session riding election party sa sm w)
      as [[H _]|[s [lastname [p [_ [_ [_ [_ [_ [_ H]]]]]]]]]]; rewrite H.
    + exact Hw.
    + apply add_alternate_name_unique. exact Hw.
Qed.

End MoreSaving.

(** ** More on [get_by_name] *)

Lemma disambiguate_origin_members (poss : list PoliticianInfo.t)
      (found : option Z) (session : option string) (riding party : option Z)
      (w : World) (pol : Z) :
  disambiguate poss found session riding party w = Ok (Some pol) ->
  found = Some pol
  \/ exists p, In p poss /\ PoliticianInfo.politician p = pol
               /\ matching_members pol session riding party w <> [].
Proof.
  revert found. induction poss as [|p rest IH]; intros found H; simpl in H.
  - left. congruence.
  - destruct (matching_members (PoliticianInfo.politician p)
                               session riding party w) as [|m0 ms] eqn:E.
    + destruct (IH _ H) as [Hf|[q [Hq Hp]]]; [left; exact Hf|].
      right. exists q. split; [right; exact Hq | exact Hp].
    + destruct found; [discriminate|].
      destruct (IH _ H) as [Hf|[q [Hq Hp]]].
      * right. exists p.
        assert (Hpol : PoliticianInfo.politician p = pol).
        { inversion Hf as [Hm]. symmetry.
          apply (matching_members_politician _ session riding party w).
          rewrite E. left. reflexivity. }
        split; [left; reflexivity|]. split; [exact Hpol|].
        rewrite <- Hpol, E. discriminate.
      * right. exists q. split; [right; exact Hq | exact Hp].
Qed.

Lemma disambiguate_no_survivor (poss : list PoliticianInfo.t)
      (found : option Z) (session : option string) (riding party : option Z)
      (w : World) :
  (forall p, In p poss ->
             matching_members (PoliticianInfo.politician p)
                              session riding party w = []) ->
  disambiguate poss found session riding party w = Ok found.
Proof.
  induction poss as [|p rest IH]; intros H; simpl; [reflexivity|].
  rewrite (H p) by (left; reflexivity).
  apply IH. intros q Hq. apply H. right. exact Hq.
Qed.

Lemma disambiguate_second_match (poss : list PoliticianInfo.t) (x : Z)
      (session : option string) (riding party : option Z) (w : World)
      (q : PoliticianInfo.t) :
  In q poss ->
  matching_members (PoliticianInfo.politician q) session riding party w <> [] ->
  disambiguate poss (Some x) session riding party w
  = Raise Politician_MultipleObjectsReturned.
Proof.
  induction poss as [|p rest IH]; intros Hq Hm; [contradiction|]. simpl.
  destruct (matching_members (PoliticianInfo.politician p)
                             session riding party w) as [|m0 ms] eqn:E;
    [|reflexivity].
  destruct Hq as [->|Hq]; [contradiction|]. apply IH; assumption.
Qed.

Lemma disambiguate_two_matches (l1 l2 l3 : list PoliticianInfo.t)
      (p q : PoliticianInfo.t) (found : option Z) (session : option string)
      (riding party : option Z) (w : World) :
  matching_members (PoliticianInfo.politician p) session riding party w <> [] ->
  matching_members (PoliticianInfo.politician q) session riding party w <> [] ->
  disambiguate (l1 ++ p :: l2 ++ q :: l3) found session riding party w
  = Raise Politician_MultipleObjectsReturned.
Proof.
  intros Hp Hq. revert found.
  induction l1 as [|a l1 IH]; intros found; simpl.
  - destruct (matching_members (PoliticianInfo.politician p)
                               session riding party w) as [|m0 ms];
      [contradiction|].
    destruct found; [reflexivity|].
    apply (disambiguate_second_match _ _ _ _ _ _ q); [|exact Hq].
    apply in_or_app. right. left. reflexivity.
  - destruct (matching_members (PoliticianInfo.politician a)
                               session riding party w) as [|m0 ms];
      [apply IH|].
    destruct found; [reflexivity|].
    apply (disambiguate_second_match _ _ _ _ _ _ p); [|exact Hp].
    apply in_or_app. right. left. reflexivity.
Qed.

(** ** Resolution with context, read on the tables *)

Lemma holds_alternate_row (pol : Z) (v : string) (w : World) :
  holds_alternate pol v w
  <-> exists i, In i (info_by_value "alternate_name" v w)
                /\ PoliticianInfo.politician i = pol.
Proof.
  unfold holds_alternate, info_by_value. split.
  - intros [i [Hi [Hp [Hs Hv]]]]. exists i. split; [|exact Hp].
    apply filter_In. split; [exact Hi|].
    rewrite Hs, Hv, !String.eqb_refl. reflexivity.
  - intros [i [Hi Hp]]. apply filter_In in Hi. destruct Hi as [Hi Hc].
    apply andb_true_iff in Hc. destruct Hc as [Hs Hv].
    apply String.eqb_eq in Hs. apply String.eqb_eq in Hv.
    exists i. repeat split; assumption.
Qed.


Lemma matching_members_In (pol : Z) (session : option string)
      (riding party : option Z) (w : World) (m : ElectedMember.t) :
  In m (matching_members pol session riding party w)
  <-> In m (members w)
      /\ ElectedMember.politician m = pol
      /\ passes_context m session riding party.
Proof.
  unfold matching_members, passes_context.
  destruct riding as [r|]; destruct session as [s|]; destruct party as [p|];
    repeat (rewrite filter_In; cbv beta);
    rewrite ?Z.eqb_eq, ?existsb_eqb_In;
    (split;
     [ intros H; decompose [and] H; clear H;
       repeat split; try assumption;
       intros x Hx;
       first [discriminate | injection Hx as Hx; rewrite <- Hx; assumption]
     | intros [Hm [Hp [Hr [Hs Hq]]]];
       repeat split; try assumption; auto ]).
Qed.

Lemma matching_members_passing (pol : Z) (session : option string)
      (riding party : option Z) (w : World) :
  matching_members pol session riding party w <> []
  <-> has_passing_membership pol session riding party w.
Proof.
  unfold has_passing_membership. split.
  - intros H.
    destruct (matching_members pol session riding party w) as [|m ms] eqn:E;
      [contradiction|].
    exists m. apply matching_members_In. rewrite E. left. reflexivity.
  - intros [m Hm] E. apply matching_members_In in Hm. rewrite E in Hm.
    contradiction.
Qed.

Lemma matching_members_none (pol : Z) (session : option string)
      (riding party : option Z) (w : World) :
  ~ has_passing_membership pol session riding party w ->
  matching_members pol session riding party w = [].
Proof.
  intros H.
  destruct (matching_members pol session riding party w) as [|m ms] eqn:E;
    [reflexivity|].
  exfalso. apply H. apply matching_members_passing. rewrite E. discriminate.
Qed.







Lemma family_name_query_In (p : Politician.t) (lastname s : string)
      (riding : option Z) (w : World) :
  In p (family_name_query lastname s riding w)
  <-> family_match p lastname s riding w.
Proof.
  assert (Hsess :
            In p (filter
                    (fun p =>
                       String.eqb (Politician.name_family p) lastname
                       && existsb
                            (fun m => (ElectedMember.politician m =? Politician.id p)
                                      && existsb (String.eqb s)
                                                 (ElectedMember.sessions m))
                            (members w))%bool
                    (politicians w))
            <-> In p (politicians w)
                /\ Politician.name_family p = lastname
                /\ exists m, In m (members w)
                             /\ ElectedMember.politician m = Politician.id p
                             /\ In s (ElectedMember.sessions m)).
  { rewrite filter_In, andb_true_iff, String.eqb_eq, existsb_exists.
    split.
    - intros [Hp [Hn [m [Hm Hc]]]]. apply andb_true_iff in Hc.
      destruct Hc as [Hpol Hs]. apply Z.eqb_eq in Hpol.
      apply existsb_eqb_In in Hs. eauto 8.
    - intros [Hp [Hn [m [Hm [Hpol Hs]]]]]. split; [exact Hp|].
      split; [exact Hn|]. exists m. split; [exact Hm|].
      apply andb_true_iff. split; [apply Z.eqb_eq; exact Hpol|].
      apply existsb_eqb_In. exact Hs. }
  unfold family_name_query, family_match. destruct riding as [r|].
  - rewrite filter_In, Hsess, existsb_exists. split.
    + intros [[Hp [Hn Hs]] [m [Hm Hc]]]. apply andb_true_iff in Hc.
      destruct Hc as [Hpol Hr]. apply Z.eqb_eq in Hpol. apply Z.eqb_eq in Hr.
      repeat split; try assumption.
      intros r' Hr'. inversion Hr'; subst r'. eauto.
    + intros [Hp [Hn [Hs Hr]]]. destruct (Hr r eq_refl) as [m [Hm [Hpol Hrm]]].
      split; [repeat split; assumption|].
      exists m. split; [exact Hm|].
      apply andb_true_iff. split; apply Z.eqb_eq; assumption.
  - rewrite Hsess. split.
    + intros [Hp [Hn Hs]]. repeat split; try assumption. discriminate.
    + intros [Hp [Hn [Hs _]]]. repeat split; assumption.
Qed.

(** Same-row membership is a special case of [family_match]. *)
Lemma elected_family_match (p : Politician.t) (lastname s : string) (r : Z)
      (w : World) :
  elected_with_family_name p lastname s r w ->
  family_match p lastname s (Some r) w.
Proof.
  intros [Hp [Hn [m [Hm [Hpol [Hs Hr]]]]]].
  repeat split; try assumption; [eauto|].
  intros r' Hr'. inversion Hr'; subst r'. eauto.
Qed.

Section ContextResolution.

Variable normalizeName : string -> string.



(** What a returned politician tells about the path taken: the store is
    untouched and the politician holds the name (with a membership passing
    the filters when context was given), or the family-name query selected
    the politician alone and the store is the one [add_alternate_name]
    leaves when [saveAlternate] is set. *)
Lemma get_by_name_ok_cases (name : string) (session : option string)
      (riding election party : option Z) (sa sm : bool) (w w' : World)
      (pol : Z) :
  get_by_name normalizeName name session riding election party sa sm w
  = (Ok pol, w') ->
  (holds_alternate pol (normalizeName name) w
   /\ w' = w
   /\ ((is_some session || is_some riding || is_some party)%bool = true ->
       has_passing_membership pol session riding party w))
  \/ exists s lastname p,
      session = Some s /\ sm = false
      /\ Re.search_lastname (Py.strip name) = Some lastname
      /\ family_name_query lastname s riding w = [p]
      /\ Politician.id p = pol
      /\ w' = (if sa
               then snd (add_alternate_name normalizeName pol name w)
               else w).
Proof.
  assert (Hlast : family_name_stage normalizeName name session riding sa sm w
                  = (Ok pol, w') ->
                  exists s lastname p,
                    session = Some s /\ sm = false
                    /\ Re.search_lastname (Py.strip name) = Some lastname
                    /\ family_name_query lastname s riding w = [p]
                    /\ Politician.id p = pol
                    /\ w' = (if sa
                             then snd (add_alternate_name normalizeName pol
                                                          name w)
                             else w)).
  { unfold family_name_stage.
    destruct session as [s|]; [|discriminate].
    destruct sm; [discriminate|].
    change (negb false) with true. cbv beta iota.
    destruct (Re.search_lastname (Py.strip name)) as [lastname|] eqn:Ere;
      [|discriminate].
    cbv beta iota.
    destruct (family_name_query lastname s riding w) as [|p [|q rest]] eqn:Eq.
    - discriminate.
    - unfold bind. intros H. exists s, lastname, p.
      destruct sa.
      + destruct (add_alternate_name normalizeName (Politician.id p) name w)
          as [[u|e] w1] eqn:Eadd; inversion H; subst.
        rewrite Eadd. repeat split; try assumption; reflexivity.
      + inversion H; subst. repeat split; try assumption; reflexivity.
    - destruct riding; discriminate. }
  unfold get_by_name.
  destruct (info_by_value "alternate_name" (normalizeName name) w)
    as [|p0 others] eqn:Eposs.
  - intros H. right. apply Hlast. exact H.
  - destruct (is_some session || is_some riding || is_some party)%bool eqn:Ectx.
    + destruct (disambiguate (p0 :: others) None session riding party w)
        as [[found|]|e] eqn:Eloop.
      * intros H. inversion H; subst. left.
        destruct (disambiguate_origin_members _ _ _ _ _ _ _ Eloop)
          as [Hf|[p [Hp [Hpol Hm]]]]; [discriminate|].
        split; [|split; [reflexivity|]].
        -- apply holds_alternate_row. exists p. rewrite Eposs.
           split; assumption.
        -- intros _. apply matching_members_passing. exact Hm.
      * intros H. right. apply Hlast. exact H.
      * discriminate.
    + destruct (is_some election); [discriminate|].
      destruct others; [|discriminate].
      intros H. inversion H; subst. left.
      split; [|split; [reflexivity | discriminate]].
      apply holds_alternate_row. exists p0. rewrite Eposs.
      split; [left; reflexivity | reflexivity].
Qed.



End ContextResolution.

Section FamilyNameOnData.

Variable normalizeName : string -> string.

(** What the family-name stage answers, read on the tables.  No holder of
    the normalized name has a membership passing the filters, a session is
    supplied, [strictMatch] is false and a family name is read off the
    query.  Two distinct politicians matching [family_match] raise the data
    error when a riding is supplied and [DoesNotExist] when none is; no
    politician matching raises [DoesNotExist]; the store is left as it was.
    [family_match] asks for a membership in the session and a membership
    for the riding, as the two chained [filter] calls do. *)
Lemma get_by_name_family_name_outcomes (name s : string)
      (riding election party : option Z) (saveAlternate : bool) (w : World)
      (lastname : string) :
  (forall pol, holds_alternate pol (normalizeName name) w ->
               ~ has_passing_membership pol (Some s) riding party w) ->
  Re.search_lastname (Py.strip name) = Some lastname ->
  (forall (r : Z) (p1 p2 : Politician.t),
      riding = Some r ->
      p1 <> p2 ->
      family_match p1 lastname s riding w ->
      family_match p2 lastname s riding w ->
      exists msg,
        get_by_name normalizeName name (Some s) riding election party
                    saveAlternate false w
        = (Raise (Exception msg), w))
  /\ (forall (p1 p2 : Politician.t),
         riding = None ->
         p1 <> p2 ->
         family_match p1 lastname s riding w ->
         family_match p2 lastname s riding w ->
         get_by_name normalizeName name (Some s) riding election party
                     saveAlternate false w
         = (Raise Politician_DoesNotExist, w))
  /\ ((forall p, ~ family_match p lastname s riding w) ->
      get_by_name normalizeName name (Some s) riding election party
                  saveAlternate false w
      = (Raise Politician_DoesNotExist, w)).
Proof.
  intros Hnone Hre.
  assert (Hloop : disambiguate
                    (info_by_value "alternate_name" (normalizeName name) w)
                    None (Some s) riding party w = Ok None).
  { apply disambiguate_no_survivor. intros p Hp.
    apply matching_members_none. apply Hnone.
    apply holds_alternate_row. exists p. split; [exact Hp | reflexivity]. }
  rewrite (get_by_name_falls_through normalizeName _ _ _ _ _ _ _ _ Hloop).
  unfold family_name_stage. rewrite Hre.
  change (negb false) with true. cbv beta iota.
  split; [|split].
  - intros r p1 p2 Hr Hne H1 H2.
    apply family_name_query_In in H1, H2.
    destruct (two_distinct_members _ _ _ Hne H1 H2) as [a [b [t E]]].
    rewrite E, Hr. eauto.
  - intros p1 p2 Hr Hne H1 H2.
    apply family_name_query_In in H1, H2.
    destruct (two_distinct_members _ _ _ Hne H1 H2) as [a [b [t E]]].
    rewrite E, Hr. reflexivity.
  - intros Hzero.
    destruct (family_name_query lastname s riding w) as [|p rest] eqn:E;
      [reflexivity|].
    exfalso. apply (Hzero p). apply family_name_query_In. rewrite E.
    left. reflexivity.
Qed.

(** Two distinct politicians of the family name, each with one membership
    that is in the session and for the riding, raise the data error. *)
Corollary get_by_name_same_riding_data_error (name s : string) (r : Z)
      (election party : option Z) (saveAlternate : bool) (w : World)
      (lastname : string) (p1 p2 : Politician.t) :
  (forall pol, holds_alternate pol (normalizeName name) w ->
               ~ has_passing_membership pol (Some s) (Some r) party w) ->
  Re.search_lastname (Py.strip name) = Some lastname ->
  p1 <> p2 ->
  elected_with_family_name p1 lastname s r w ->
  elected_with_family_name p2 lastname s r w ->
  exists msg,
    get_by_name normalizeName name (Some s) (Some r) election party
                saveAlternate false w
    = (Raise (Exception msg), w).
Proof.
  intros Hnone Hre Hne H1 H2.
  destruct (get_by_name_family_name_outcomes name s (Some r) election party
              saveAlternate w lastname Hnone Hre) as [Htwo _].
  apply (Htwo r p1 p2 eq_refl Hne); apply elected_family_match; assumption.
Qed.

End FamilyNameOnData.

(** C7.  The family-name stage on a politician who changed ridings.  Jane
    Smith sat for riding 10 in session 41-1 and for riding 20 in session
    40-3.  Nobody is stored under the name asked for, and no politician
    named Smith has a membership in session 41-1 for riding 20: by the claim
    the call for session 41-1 and riding 20 finds no match and raises
    [DoesNotExist].  The two chained [filter] calls are each satisfied by
    one of her memberships, so the call returns her and stores the name
    asked for as one of her alternate names. *)
Theorem get_by_name_family_name_separate_memberships :
  (forall p, ~ elected_with_family_name p "Smith" "41-1" 20
                                        Scenario2.moved_riding)
  /\ (forall pol, ~ holds_alternate pol (Parsetools.normalizeName "Mr. Smith")
                                    Scenario2.moved_riding)
  /\ Re.search_lastname (Py.strip "Mr. Smith") = Some "Smith"
  /\ fst (get_by_name Parsetools.normalizeName "Mr. Smith" (Some "41-1")
                      (Some 20) None None true false Scenario2.moved_riding)
     = Ok 3
  /\ alternate_names 3
       (snd (get_by_name Parsetools.normalizeName "Mr. Smith" (Some "41-1")
                         (Some 20) None None true false
                         Scenario2.moved_riding))
     = ["jane smith"; "mr. smith"].
Proof.
  split; [|split; [|repeat split]].
  - intros p [_ [_ [m [Hm [_ [Hs Hr]]]]]].
    simpl in Hm. destruct Hm as [Hm|[Hm|[]]]; subst m; simpl in Hs, Hr.
    + discriminate.
    + destruct Hs as [Hs|[]]. discriminate.
  - intros pol [i [Hi [_ [_ Hv]]]].
    simpl in Hi. destruct Hi as [Hi|[]]. subst i. discriminate.
Qed.

Section MoreResolution.

Variable normalizeName : string -> string.

(** X5.  Whatever [get_by_name] returns was found in one of two ways.
    Either the politician holds the normalized name as alternate name, the
    store is untouched and, when context was given, a membership of the
    politician passes every filter supplied; or a session was given,
    [strictMatch] is false and the politician is the only one stored with
    the last word of the name as family name, a membership in the session
    and, when a riding is given, a membership for the riding. *)
Theorem get_by_name_sound :
  forall (name : string) (session : option string)
         (riding election party : option Z) (saveAlternate strictMatch : bool)
         (w w' : World) (pol : Z),
    get_by_name normalizeName name session riding election party
                saveAlternate strictMatch w = (Ok pol, w') ->
    (holds_alternate pol (normalizeName name) w
     /\ w' = w
     /\ ((is_some session || is_some riding || is_some party)%bool = true ->
         has_passing_membership pol session riding party w))
    \/ exists s lastname p,
        session = Some s /\ strictMatch = false
        /\ Re.search_lastname (Py.strip name) = Some lastname
        /\ Politician.id p = pol
        /\ family_match p lastname s riding w
        /\ (forall q, family_match q lastname s riding w -> q = p).
Proof.
  intros name session riding election party sa sm w w' pol Hrun.
  destruct (get_by_name_ok_cases normalizeName _ _ _ _ _ _ _ _ _ _ Hrun)
    as [H|[s [lastname [p [Hs [Hsm [Hre [Hq [Hid _]]]]]]]]];
    [left; exact H|].
  right. exists s, lastname, p.
  split; [exact Hs|]. split; [exact Hsm|]. split; [exact Hre|].
  split; [exact Hid|]. split.
  - apply family_name_query_In. rewrite Hq. left. reflexivity.
  - intros q Hqm. apply family_name_query_In in Hqm. rewrite Hq in Hqm.
    destruct Hqm as [Heq|[]]. symmetry. exact Heq.
Qed.

(** X6.  [get_by_name] changes the store only when it returns a politician
    found by family name with [saveAlternate] set: with [saveAlternate]
    false, with [strictMatch] true, without a session, or when it raises,
    the store is left exactly as it was. *)
Theorem get_by_name_store_unchanged :
  forall (name : string) (session : option string)
         (riding election party : option Z) (saveAlternate strictMatch : bool)
         (w : World),
    saveAlternate = false \/ strictMatch = true \/ session = None
    \/ (exists e, fst (get_by_name normalizeName name session riding election
                                   party saveAlternate strictMatch w)
                  = Raise e) ->
    snd (get_by_name normalizeName name session riding election party
                     saveAlternate strictMatch w) = w.
Proof.
  intros name session riding election party sa sm w H.
  destruct (get_by_name_store normalizeName name session riding election party
                              sa sm w)
    as [[Hw _]|[s [lastname [p [Hs [Hsa [Hsm [_ [_ [_ Hrun]]]]]]]]]];
    [exact Hw|].
  destruct H as [H|[H|[H|[e H]]]]; try congruence.
  rewrite Hrun in H. discriminate.
Qed.

(** X7.  Self-healing through the family-name stage.  When nobody holds the
    normalized name, a session is given and the family-name query for the
    last word of the name selects one politician, [get_by_name] returns that
    politician and stores the name; from then on [get_by_name] on the same
    name with no context returns the politician from the alternate names
    alone. *)
Theorem get_by_name_self_healing :
  forall (name s : string) (riding election party : option Z) (w : World)
         (lastname : string) (p : Politician.t),
    info_by_value "alternate_name" (normalizeName name) w = [] ->
    Re.search_lastname (Py.strip name) = Some lastname ->
    family_name_query lastname s riding w = [p] ->
    exists w',
      get_by_name normalizeName name (Some s) riding election party
                  true false w = (Ok (Politician.id p), w')
      /\ In (normalizeName name) (alternate_names (Politician.id p) w')
      /\ forall sa sm,
          get_by_name normalizeName name None None None None sa sm w'
          = (Ok (Politician.id p), w').
Proof.
  intros name s riding election party w lastname p Hposs Hre Hq.
  assert (Hrun : get_by_name normalizeName name (Some s) riding election party
                             true false w
                 = (Ok (Politician.id p),
                    snd (PoliticianInfo_create (Politician.id p)
                           "alternate_name" (normalizeName name) w))).
  { unfold get_by_name. rewrite Hposs. unfold family_name_stage.
    rewrite Hre. change (negb false) with true. cbv beta iota.
    rewrite Hq. unfold bind.
    destruct (add_alternate_name_effect normalizeName (Politician.id p) name w)
      as [[Hin _]|[_ Hadd]].
    - apply alternate_names_row in Hin. destruct Hin as [i [Hi _]].
      rewrite Hposs in Hi. contradiction.
    - rewrite Hadd. reflexivity. }
  eexists. split; [exact Hrun|].
  assert (Hrows : info_by_value "alternate_name" (normalizeName name)
                    (snd (PoliticianInfo_create (Politician.id p)
                            "alternate_name" (normalizeName name) w))
                  = [PoliticianInfo.Build
                       (next_id (map PoliticianInfo.id (infos w)))
                       (Politician.id p) "alternate_name" (normalizeName name)]).
  { unfold info_by_value in *. simpl. rewrite filter_snoc, Hposs. simpl.
    rewrite String.eqb_refl. reflexivity. }
  split.
  - apply alternate_names_row. eexists. rewrite Hrows.
    split; [left; reflexivity | reflexivity].
  - intros sa sm. unfold get_by_name. rewrite Hrows. reflexivity.
Qed.

(** X8.  With context given, two alternate-name rows whose politicians each
    have a membership passing the filters make [get_by_name] raise
    [MultipleObjectsReturned].  The rows may belong to two politicians or to
    one politician who holds the name twice. *)
Theorem get_by_name_context_ambiguous :
  forall (name : string) (session : option string)
         (riding election party : option Z) (saveAlternate strictMatch : bool)
         (w : World) (l1 l2 l3 : list PoliticianInfo.t)
         (p q : PoliticianInfo.t),
    (is_some session || is_some riding || is_some party)%bool = true ->
    info_by_value "alternate_name" (normalizeName name) w
    = l1 ++ p :: l2 ++ q :: l3 ->
    matching_members (PoliticianInfo.politician p) session riding party w
    <> [] ->
    matching_members (PoliticianInfo.politician q) session riding party w
    <> [] ->
    get_by_name normalizeName name session riding election party
                saveAlternate strictMatch w
    = (Raise Politician_MultipleObjectsReturned, w).
Proof.
  intros name session riding election party sa sm w l1 l2 l3 p q
         Hctx Hposs Hp Hq.
  unfold get_by_name.
  pose proof (disambiguate_two_matches l1 l2 l3 p q None session riding party
                                       w Hp Hq) as Hloop.
  rewrite <- Hposs in Hloop.
  destruct (info_by_value "alternate_name" (normalizeName name) w)
    as [|p0 others] eqn:E.
  - destruct l1; discriminate.
  - rewrite Hctx, Hloop. reflexivity.
Qed.

(** X9.  A known name does not override the context: with a riding or a
    party given and no session, when no politician holding the name has a
    membership for that riding and that party, [get_by_name] raises
    [DoesNotExist] and writes nothing. *)
Theorem get_by_name_context_mismatch :
  forall (name : string) (riding election party : option Z)
         (saveAlternate strictMatch : bool) (w : World),
    (is_some riding || is_some party)%bool = true ->
    (forall pol, holds_alternate pol (normalizeName name) w ->
                 ~ has_passing_membership pol None riding party w) ->
    get_by_name normalizeName name None riding election party
                saveAlternate strictMatch w
    = (Raise Politician_DoesNotExist, w).
Proof.
  intros name riding election party sa sm w Hctx Hnone.
  unfold get_by_name.
  destruct (info_by_value "alternate_name" (normalizeName name) w)
    as [|p0 others] eqn:E; [reflexivity|].
  simpl is_some at 1. simpl orb. rewrite Hctx.
  rewrite disambiguate_no_survivor; [reflexivity|].
  intros p Hp. apply matching_members_none. apply Hnone.
  apply holds_alternate_row. exists p. rewrite E. split; [exact Hp|reflexivity].
Qed.

(** X10.  An election as the only context never selects anybody and writes
    nothing: when some politician holds the normalized name the call raises
    the plain [Exception] that says elections are not implemented, and when
    nobody holds it the call raises [DoesNotExist]. *)
Theorem get_by_name_election_only_fails :
  forall (name : string) (election : Z) (saveAlternate strictMatch : bool)
         (w : World),
    ((exists pol, holds_alternate pol (normalizeName name) w) ->
     get_by_name normalizeName name None None (Some election) None
                 saveAlternate strictMatch w
     = (Raise (Exception "Election not implemented yet in Politician get_by_name"),
        w))
    /\ ((forall pol, ~ holds_alternate pol (normalizeName name) w) ->
        get_by_name normalizeName name None None (Some election) None
                    saveAlternate strictMatch w
        = (Raise Politician_DoesNotExist, w)).
Proof.
  intros name election sa sm w. unfold get_by_name. split.
  - intros [pol Hpol]. apply holds_alternate_row in Hpol.
    destruct Hpol as [i [Hi _]].
    destruct (info_by_value "alternate_name" (normalizeName name) w);
      [contradiction | reflexivity].
  - intros Hnone.
    destruct (info_by_value "alternate_name" (normalizeName name) w)
      as [|p0 others] eqn:E; [reflexivity|].
    exfalso. apply (Hnone (PoliticianInfo.politician p0)).
    apply holds_alternate_row. exists p0. rewrite E.
    split; [left; reflexivity | reflexivity].
Qed.

(** X11.  [filter_by_name] lists exactly the politicians whose
    [alternate_names] contain the normalized name. *)
Theorem filter_by_name_alternate_names :
  forall (name : string) (pol : Z) (w : World),
    In pol (filter_by_name normalizeName name w)
    <-> In (normalizeName name) (alternate_names pol w).
Proof.
  intros name pol w. rewrite alternate_names_row. unfold filter_by_name.
  rewrite in_map_iff. split; intros [i [H1 H2]]; exists i; split; assumption.
Qed.

End MoreResolution.

(** ** Ridings *)

Lemma dict_get_In (d : list (string * string)) (k v : string) :
  dict_get d k = Some v -> In (k, v) d.
Proof.
  induction d as [|[k' v'] d IH]; simpl; [discriminate|].
  destruct (String.eqb_spec k' k) as [->|Hne].
  - intros H. inversion H. left. reflexivity.
  - intros H. right. apply IH. exact H.
Qed.

(** No corrected slug of [FIX_RIDING] is itself listed as a misspelling. *)
Lemma FIX_RIDING_values_canonical (k v : string) :
  dict_get FIX_RIDING k = Some v -> dict_get FIX_RIDING v = None.
Proof.
  intros H. apply dict_get_In in H. unfold FIX_RIDING in H. simpl in H.
  repeat (destruct H as [H|H]; [inversion H; reflexivity|]).
  contradiction.
Qed.

Lemma existsb_false_iff {A} (f : A -> bool) (l : list A) :
  existsb f l = false <-> forall x, In x l -> f x = false.
Proof.
  split.
  - intros H x Hx. destruct (f x) eqn:E; [|reflexivity].
    assert (existsb f l = true) by (apply existsb_exists; eauto). congruence.
  - intros H. induction l as [|a l IH]; [reflexivity|]. simpl.
    rewrite H by (left; reflexivity). apply IH.
    intros x Hx. apply H. right. exact Hx.
Qed.

Lemma upsert_filter_single (f : Riding.t -> bool) (k : Z) (x : Riding.t)
      (l : list Riding.t) :
  NoDup (map Riding.id l) ->
  existsb (fun r => Riding.id r =? k) l = true ->
  f x = true ->
  (forall r, In r l -> Riding.id r <> k -> f r = false) ->
  filter f (map (fun r => if Riding.id r =? k then x else r) l) = [x].
Proof.
  intros Hnd Hex Hx Hothers.
  induction l as [|a t IH]; [discriminate|].
  simpl in Hnd. inversion Hnd as [|i ids Hnot Hrest]; subst.
  simpl. destruct (Z.eqb_spec (Riding.id a) k) as [Hk|Hk].
  - rewrite Hx. f_equal.
    apply filter_nil_iff. intros r Hr. apply in_map_iff in Hr.
    destruct Hr as [r0 [Hr0 Hin]].
    destruct (Z.eqb_spec (Riding.id r0) k) as [Hk0|Hk0].
    + exfalso. apply Hnot. rewrite Hk, <- Hk0. apply in_map. exact Hin.
    + subst r. apply Hothers; [right; exact Hin | exact Hk0].
  - rewrite (Hothers a) by (try (left; reflexivity); exact Hk).
    apply IH.
    + exact Hrest.
    + simpl in Hex. destruct (Z.eqb_spec (Riding.id a) k); [contradiction|].
      exact Hex.
    + intros r Hr. apply Hothers. right. exact Hr.
Qed.

Section MoreRidings.

Variable slugify : string -> string.

(** X12.  A riding returned by [RidingManager.get_by_name] is a stored
    riding whose slug is the slug of the name or its correction, and that
    slug is never one of the misspellings of [FIX_RIDING]: a riding stored
    under a listed misspelling cannot be reached by name.  The store is not
    touched. *)
Theorem RidingManager_get_by_name_canonical :
  forall (name : string) (w w' : World) (r : Riding.t),
    RidingManager_get_by_name slugify name w = (Ok r, w') ->
    w' = w
    /\ In r (ridings w)
    /\ dict_get FIX_RIDING (Riding.slug r) = None
    /\ (Riding.slug r = slugify name
        \/ dict_get FIX_RIDING (slugify name) = Some (Riding.slug r)).
Proof.
  intros name w w' r. unfold RidingManager_get_by_name, Riding_get.
  set (slug := match dict_get FIX_RIDING (slugify name) with
               | Some fixed => fixed
               | None => slugify name
               end).
  destruct (filter (fun r0 => String.eqb (Riding.slug r0) slug) (ridings w))
    as [|r0 [|r1 rest]] eqn:E; try discriminate.
  intros H. inversion H; subst r0 w'; clear H.
  assert (Hin : In r (filter (fun r0 => String.eqb (Riding.slug r0) slug)
                             (ridings w)))
    by (rewrite E; left; reflexivity).
  apply filter_In in Hin. destruct Hin as [Hin Hslug].
  apply String.eqb_eq in Hslug.
  split; [reflexivity|]. split; [exact Hin|].
  rewrite Hslug. unfold slug.
  destruct (dict_get FIX_RIDING (slugify name)) as [fixed|] eqn:Efix.
  - split; [|right; reflexivity].
    apply (FIX_RIDING_values_canonical _ _ Efix).
  - split; [exact Efix | left; reflexivity].
Qed.

(** X13.  A riding saved with a blank slug gets the slug of its English
    name and is then found under that name, provided the slug is not a
    listed misspelling and no other riding has it.  This holds for a new
    instance and, on a table with distinct primary keys, for an instance
    that carries a key. *)
Theorem Riding_save_then_get_by_name :
  forall (w : World),
    (forall name_en name_fr province : string,
        dict_get FIX_RIDING (slugify name_en) = None ->
        (forall r, In r (ridings w) -> Riding.slug r <> slugify name_en) ->
        exists r w',
          Riding_save_new slugify name_en name_fr province "" w = (Ok r, w')
          /\ Riding.slug r = slugify name_en
          /\ RidingManager_get_by_name slugify name_en w' = (Ok r, w'))
    /\ (forall self : Riding.t,
           Riding.slug self = "" ->
           NoDup (map Riding.id (ridings w)) ->
           dict_get FIX_RIDING (slugify (Riding.name_en self)) = None ->
           (forall r, In r (ridings w) -> Riding.id r <> Riding.id self ->
                      Riding.slug r <> slugify (Riding.name_en self)) ->
           exists r w',
             Riding_save slugify self w = (Ok r, w')
             /\ Riding.slug r = slugify (Riding.name_en self)
             /\ Riding.id r = Riding.id self
             /\ RidingManager_get_by_name slugify (Riding.name_en self) w'
                = (Ok r, w')).
Proof.
  intros w. split.
  - intros name_en name_fr province Hfix Hfree.
    assert (Hnone : filter (fun r => String.eqb (Riding.slug r)
                                                (slugify name_en)) (ridings w)
                    = []).
    { apply filter_nil_iff. intros r Hr. apply String.eqb_neq.
      apply Hfree. exact Hr. }
    unfold Riding_save_new. simpl.
    rewrite (proj2 (existsb_false_iff _ _)) by (apply filter_nil_iff; exact Hnone).
    eexists. eexists.
    split; [reflexivity|]. split; [reflexivity|].
    unfold RidingManager_get_by_name, Riding_get. rewrite Hfix. simpl.
    rewrite filter_snoc, Hnone. simpl. rewrite String.eqb_refl. reflexivity.
  - intros self Hblank Hnd Hfix Hfree.
    unfold Riding_save. rewrite Hblank. simpl.
    set (saved := Riding.Build (Riding.id self) (Riding.name_en self)
                               (Riding.name_fr self) (Riding.province self)
                               (slugify (Riding.name_en self))).
    rewrite (proj2 (existsb_false_iff _ _)).
    2:{ intros r Hr.
        destruct (Z.eqb_spec (Riding.id r) (Riding.id self)) as [Hid|Hid];
          [reflexivity|].
        simpl. apply String.eqb_neq. apply Hfree; assumption. }
    destruct (existsb (fun r => Riding.id r =? Riding.id self) (ridings w))
      eqn:Eex.
    + eexists. eexists. split; [reflexivity|].
      split; [reflexivity|]. split; [reflexivity|].
      unfold RidingManager_get_by_name, Riding_get. rewrite Hfix. simpl.
      rewrite upsert_filter_single; try assumption.
      * reflexivity.
      * simpl. apply String.eqb_refl.
      * intros r Hr Hid. apply String.eqb_neq. apply Hfree; assumption.
    + eexists. eexists. split; [reflexivity|].
      split; [reflexivity|]. split; [reflexivity|].
      unfold RidingManager_get_by_name, Riding_get. rewrite Hfix. simpl.
      rewrite filter_snoc. simpl. rewrite String.eqb_refl.
      rewrite (proj2 (filter_nil_iff _ (ridings w))); [reflexivity|].
      intros r Hr. apply String.eqb_neq. apply Hfree; [exact Hr|].
      intros Hid.
      assert (Hc : existsb (fun r => Riding.id r =? Riding.id self) (ridings w)
                   = true).
      { apply existsb_exists. exists r. split; [exact Hr|].
        apply Z.eqb_eq. exact Hid. }
      congruence.
Qed.

End MoreRidings.

(** ** Parties *)

Lemma Party_add_alternate_name_rows (self : Z) (name key : string) (w : World) :
  exists extra,
    party_names_rows key (snd (Party_add_alternate_name self name w))
    = party_names_rows key w ++ extra.
Proof.
  unfold Party_add_alternate_name.
  destruct (party_names_rows (Py.lower (Py.strip name)) w) as [|x0 rest].
  - rewrite party_names_rows_create. eauto.
  - exists []. rewrite app_nil_r.
    destruct (negb (InternalXref.target_id x0 =? self)); reflexivity.
Qed.

Lemma Party_add_alternate_name_keeps_single (self : Z) (name key : string)
      (w : World) (x : InternalXref.t) :
  xref_unique w ->
  party_names_rows key w = [x] ->
  party_names_rows key (snd (Party_add_alternate_name self name w)) = [x].
Proof.
  intros Hw Hx.
  pose proof (Party_add_alternate_name_unique self name w Hw key) as Hlen.
  destruct (Party_add_alternate_name_rows self name key w) as [extra He].
  rewrite He, Hx in *. destruct extra; [reflexivity|]. simpl in Hlen. lia.
Qed.

(** X14.  After a [Party.save] that returns, on a table where every party
    name has one target at most.  The instance keeps its key, English name
    and slug; a blank French name has become the English name, a blank
    English short name the English name, a blank French short name the
    French name as filled in, and names that were not blank are kept.  The
    English and the French name are each registered in the cross-reference
    table by rows that all point to the party, and the table still has one
    target per name. *)
Theorem Party_save_registers_names :
  forall (self self' : Party.t) (w w' : World),
    xref_unique w ->
    Party_save self true w = (Ok self', w') ->
    (Party.id self' = Party.id self
     /\ Party.name_en self' = Party.name_en self
     /\ Party.slug self' = Party.slug self)
    /\ (Party.name_fr self = "" -> Party.name_fr self' = Party.name_en self)
    /\ (Party.name_fr self <> "" -> Party.name_fr self' = Party.name_fr self)
    /\ (Party.short_name_en self = "" ->
        Party.short_name_en self' = Party.name_en self)
    /\ (Party.short_name_en self <> "" ->
        Party.short_name_en self' = Party.short_name_en self)
    /\ (Party.short_name_fr self = "" ->
        Party.short_name_fr self' = Party.name_fr self')
    /\ (Party.short_name_fr self <> "" ->
        Party.short_name_fr self' = Party.short_name_fr self)
    /\ map InternalXref.target_id
           (party_names_rows (party_key (Party.name_en self')) w')
       = [Party.id self]
    /\ map InternalXref.target_id
           (party_names_rows (party_key (Party.name_fr self')) w')
       = [Party.id self]
    /\ xref_unique w'.
Proof.
  intros self self' w w' Hw. unfold Party_save, bind.
  destruct (Party_add_alternate_name (Party.id (Party_fill_names self))
              (Party.name_en (Party_fill_names self)) w)
    as [[[]|e] w1] eqn:E1; [|discriminate].
  destruct (Party_add_alternate_name (Party.id (Party_fill_names self))
              (Party.name_fr (Party_fill_names self)) w1)
    as [[[]|e] w2] eqn:E2; [|discriminate].
  unfold ret. intros H. inversion H; subst self' w'; clear H.
  assert (Hw1 : xref_unique w1).
  { pose proof (Party_add_alternate_name_unique
                  (Party.id (Party_fill_names self))
                  (Party.name_en (Party_fill_names self)) w Hw) as Hu.
    rewrite E1 in Hu. exact Hu. }
  assert (Hw2 : xref_unique w2).
  { pose proof (Party_add_alternate_name_unique
                  (Party.id (Party_fill_names self))
                  (Party.name_fr (Party_fill_names self)) w1 Hw1) as Hu.
    rewrite E2 in Hu. exact Hu. }
  destruct (Party_add_alternate_name_ok_rows _ _ _ _ Hw E1) as [x [Hx Htx]].
  destruct (Party_add_alternate_name_ok_rows _ _ _ _ Hw1 E2) as [y [Hy Hty]].
  pose proof (Party_add_alternate_name_keeps_single
                (Party.id (Party_fill_names self))
                (Party.name_fr (Party_fill_names self)) _ w1 x Hw1 Hx) as Hx2.
  rewrite E2 in Hx2. cbn [snd] in Hx2.
  assert (Hblank : forall s : string,
             (s = "" -> negb (Py.truthy s) = true)
             /\ (s <> "" -> negb (Py.truthy s) = false)).
  { intros s. unfold Py.truthy. rewrite negb_involutive.
    destruct (String.eqb_spec s ""); split; intros; congruence. }
  split; [repeat split|].
  split; [intros Hb; simpl; rewrite (proj1 (Hblank _) Hb); reflexivity|].
  split; [intros Hb; simpl; rewrite (proj2 (Hblank _) Hb); reflexivity|].
  split; [intros Hb; simpl; rewrite (proj1 (Hblank _) Hb); reflexivity|].
  split; [intros Hb; simpl; rewrite (proj2 (Hblank _) Hb); reflexivity|].
  split; [intros Hb; simpl; rewrite (proj1 (Hblank _) Hb); reflexivity|].
  split; [intros Hb; simpl; rewrite (proj2 (Hblank _) Hb); reflexivity|].
  split; [rewrite Hx2; simpl; rewrite Htx; reflexivity|].
  split; [rewrite Hy; simpl; rewrite Hty; reflexivity | exact Hw2].
Qed.

(** X15.  [Party.save] is not all-or-nothing.  When the English name is
    free but the French name already points to another party, the call
    raises, and the English name stays registered for the party. *)
Theorem Party_save_keeps_first_name_on_conflict :
  forall (self : Party.t) (w : World) (x : InternalXref.t)
         (rest : list InternalXref.t),
    party_names_rows (party_key (Party.name_en self)) w = [] ->
    party_names_rows (party_key (Party.name_fr (Party_fill_names self))) w
    = x :: rest ->
    InternalXref.target_id x <> Party.id self ->
    exists msg w',
      Party_save self true w = (Raise (Exception msg), w')
      /\ PartyManager_get_by_name (Party.name_en self) w'
         = (Ok (Party.id self), w').
Proof.
  intros self w x rest Hen Hfr Hx.
  unfold Party_save, bind, party_key in *.
  change (Party.name_en (Party_fill_names self)) with (Party.name_en self).
  change (Party.id (Party_fill_names self)) with (Party.id self).
  unfold Party_add_alternate_name at 1. rewrite Hen.
  set (w1 := snd (InternalXref_create "party_names" (Party.id self)
                    (Py.lower (Py.strip (Party.name_en self))) w)).
  change (InternalXref_create "party_names" (Party.id self)
            (Py.lower (Py.strip (Party.name_en self))) w)
    with (Ok tt, w1).
  cbv iota beta.
  assert (Hfr1 : exists rest', party_names_rows
                   (Py.lower (Py.strip (Party.name_fr (Party_fill_names self))))
                   w1 = x :: rest').
  { unfold w1. rewrite party_names_rows_create, Hfr. simpl. eauto. }
  destruct Hfr1 as [rest' Hfr1].
  unfold Party_add_alternate_name. rewrite Hfr1.
  destruct (Z.eqb_spec (InternalXref.target_id x) (Party.id self));
    [contradiction|].
  simpl. eexists. exists w1. split; [reflexivity|].
  unfold PartyManager_get_by_name, w1.
  rewrite party_names_rows_create, Hen, String.eqb_refl. reflexivity.
Qed.

Lemma party_names_rows_delete (self : Z) (key : string) (w : World) :
  party_names_rows key (snd (Party_delete_names self w))
  = filter (fun x => negb (InternalXref.target_id x =? self))
           (party_names_rows key w).
Proof.
  unfold party_names_rows, Party_delete_names. simpl.
  induction (xrefs w) as [|a l IH]; [reflexivity|]. simpl.
  destruct (String.eqb (InternalXref.schema a) "party_names") eqn:Es; simpl.
  - destruct (InternalXref.target_id a =? self) eqn:Et; simpl.
    + destruct (String.eqb (InternalXref.text_value a) key); simpl;
        rewrite ?Et; exact IH.
    + rewrite Es. simpl.
      destruct (String.eqb (InternalXref.text_value a) key); simpl;
        rewrite ?Et, IH; reflexivity.
  - rewrite Es. simpl. exact IH.
Qed.

(** X16.  Once [Party.delete] has purged the names of a party, no name is
    answered with that party any more, the names of the other parties are
    as before, and the table still has one target per name if it had. *)
Theorem Party_delete_names_forgets :
  forall (self : Z) (w : World),
    (forall name,
        fst (PartyManager_get_by_name name (snd (Party_delete_names self w)))
        <> Ok self)
    /\ (forall key,
           (forall x, In x (party_names_rows key w) ->
                      InternalXref.target_id x <> self) ->
           party_names_rows key (snd (Party_delete_names self w))
           = party_names_rows key w)
    /\ (xref_unique w -> xref_unique (snd (Party_delete_names self w))).
Proof.
  intros self w. split; [|split].
  - intros name. unfold PartyManager_get_by_name.
    rewrite party_names_rows_delete.
    destruct (filter _ (party_names_rows (Py.lower (Py.strip name)) w))
      as [|x [|y rest]] eqn:E; simpl; try discriminate.
    assert (Hin : In x (filter (fun x => negb (InternalXref.target_id x =? self))
                               (party_names_rows (Py.lower (Py.strip name)) w)))
      by (rewrite E; left; reflexivity).
    apply filter_In in Hin. destruct Hin as [_ Hx].
    intros H. inversion H as [Ht]. rewrite Ht, Z.eqb_refl in Hx. discriminate.
  - intros key Hother. rewrite party_names_rows_delete.
    induction (party_names_rows key w) as [|a l IH]; [reflexivity|]. simpl.
    destruct (Z.eqb_spec (InternalXref.target_id a) self) as [Heq|Hne].
    + exfalso. apply (Hother a); [left; reflexivity | exact Heq].
    + simpl. f_equal. apply IH. intros x Hx. apply Hother. right. exact Hx.
  - intros Hw key. rewrite party_names_rows_delete.
    specialize (Hw key).
    pose proof (filter_length_le
                  (fun x => negb (InternalXref.target_id x =? self))
                  (party_names_rows key w)).
    lia.
Qed.

(** ** Decimal writing and the lookup URL *)

Lemma digits_value (d : Decimal.uint) (acc : Z) :
  fold_left digit_step
            (list_ascii_of_string (NilEmpty.string_of_uint d)) acc
  = uint_value d acc.
Proof.
  revert acc. induction d; intros acc; cbn [NilEmpty.string_of_uint
    list_ascii_of_string fold_left uint_value]; try reflexivity;
    rewrite IHd; f_equal; unfold digit_step; vm_compute (Z.of_nat _ - 48); lia.
Qed.

Lemma uint_value_acc (d : Decimal.uint) (acc : positive) :
  uint_value d (Zpos acc) = Zpos (Pos.of_uint_acc d acc).
Proof.
  revert acc. induction d; intros acc;
    cbn [uint_value Pos.of_uint_acc]; try reflexivity;
    rewrite <- IHd; f_equal; lia.
Qed.

Lemma uint_value_0 (d : Decimal.uint) :
  uint_value d 0 = Z.of_N (Pos.of_uint d).
Proof.
  induction d; cbn [uint_value Pos.of_uint]; try reflexivity;
    try exact IHd; apply (uint_value_acc d).
Qed.

Lemma string_of_uint_digits (d : Decimal.uint) :
  forallb Py.isdigit (list_ascii_of_string (NilEmpty.string_of_uint d)) = true.
Proof. induction d; simpl; try reflexivity; exact IHd. Qed.

Lemma string_of_uint_nonempty (d : Decimal.uint) :
  d <> Decimal.Nil ->
  list_ascii_of_string (NilEmpty.string_of_uint d) <> [].
Proof. destruct d; simpl; congruence. Qed.

(** The digits of [unicode(n)] for a natural number [n]. *)
Lemma unicode_digits (n : Z) :
  0 <= n ->
  exists ds,
    list_ascii_of_string (Py.unicode n) = ds
    /\ ds <> []
    /\ forallb Py.isdigit ds = true
    /\ Re.int_of_digits ds = n.
Proof.
  intros Hn. unfold Py.unicode. destruct n as [|p|p]; [| |lia].
  - exists ["0"%char]. repeat split. discriminate.
  - simpl Z.to_int. unfold NilZero.string_of_int, NilZero.string_of_uint.
    pose proof (DecimalPos.Unsigned.to_uint_nonnil p) as Hnil.
    destruct (Pos.to_uint p) eqn:E; try contradiction; rewrite <- E;
      (eexists; split; [reflexivity|]; split;
       [apply string_of_uint_nonempty; rewrite E; discriminate|]; split;
       [apply string_of_uint_digits|];
       unfold Re.int_of_digits;
       change (fun acc c => 10 * acc + (Z.of_nat (nat_of_ascii c) - 48))
         with digit_step;
       rewrite digits_value, uint_value_0, DecimalPos.Unsigned.of_to;
       reflexivity).
Qed.

Lemma list_ascii_of_string_app (a b : string) :
  list_ascii_of_string (a ++ b)%string
  = list_ascii_of_string a ++ list_ascii_of_string b.
Proof. induction a as [|c a IH]; simpl; [reflexivity | rewrite IH; reflexivity]. Qed.

Lemma span_app_stop (f : ascii -> bool) (l : list ascii) (c : ascii)
      (rest : list ascii) :
  forallb f l = true -> f c = false ->
  Re.span f (l ++ c :: rest) = (l, c :: rest).
Proof.
  intros Hl Hc. induction l as [|a l IH]; simpl.
  - rewrite Hc. reflexivity.
  - simpl in Hl. apply andb_true_iff in Hl. destruct Hl as [Ha Hl].
    rewrite Ha, (IH Hl). reflexivity.
Qed.

Lemma span_forallb (f : ascii -> bool) (l a b : list ascii) :
  Re.span f l = (a, b) -> forallb f a = true.
Proof.
  revert a b. induction l as [|c l IH]; intros a b H; simpl in H.
  - inversion H. reflexivity.
  - destruct (f c) eqn:E.
    + destruct (Re.span f l) as [a' b'] eqn:Es.
      specialize (IH a' b' eq_refl). inversion H; subst.
      simpl. rewrite E. exact IH.
    + inversion H. reflexivity.
Qed.

Lemma person_id_here_other (c : ascii) (t : list ascii) :
  Ascii.eqb c "("%char = false -> Re.person_id_here (c :: t) = None.
Proof.
  destruct c as [[] [] [] [] [] [] [] []]; intros H;
    try reflexivity; discriminate.
Qed.

Lemma search_person_id_suffix (pre ds : list ascii) :
  forallb (fun c => negb (Ascii.eqb c "("%char)) pre = true ->
  ds <> [] ->
  forallb Py.isdigit ds = true ->
  Re.search Re.person_id_here (pre ++ "("%char :: ds ++ [")"%char]) = Some ds.
Proof.
  intros Hpre Hne Hds. induction pre as [|c pre IH].
  - simpl app. cbn [Re.search]. unfold Re.person_id_here.
    rewrite (span_app_stop Py.isdigit ds ")"%char [] Hds eq_refl).
    destruct ds; [contradiction | reflexivity].
  - simpl in Hpre. apply andb_true_iff in Hpre. destruct Hpre as [Hc Hpre].
    apply negb_true_iff in Hc.
    simpl app. cbn [Re.search]. rewrite (person_id_here_other _ _ Hc).
    apply IH. exact Hpre.
Qed.

(** X17.  The person-ID lookup URL, read back by the pattern that extracts
    the ID from the final URL, gives the ID it was built from: when the
    directory answers at the lookup URL itself, the ID found is the ID asked
    for. *)
Theorem person_lookup_url_round_trip :
  forall n : Z,
    0 <= n ->
    Re.search_person_id (POL_PERSON_ID_LOOKUP_URL n) = Some n.
Proof.
  intros n Hn. destruct (unicode_digits n Hn) as [ds [Hds [Hne [Hdig Hval]]]].
  unfold Re.search_person_id, POL_PERSON_ID_LOOKUP_URL.
  rewrite !list_ascii_of_string_app, Hds.
  change (list_ascii_of_string
            "https://www.ourcommons.ca/Members/en/openparliamentdotca-lookup(")
    with (list_ascii_of_string
            "https://www.ourcommons.ca/Members/en/openparliamentdotca-lookup"
          ++ ["("%char]).
  change (list_ascii_of_string ")") with [")"%char].
  rewrite <- app_assoc. simpl ([_] ++ _).
  rewrite search_person_id_suffix by (try reflexivity; assumption).
  simpl. rewrite Hval. reflexivity.
Qed.

(** X18.  [get_by_slug_or_id] applied to the decimal writing of a natural
    number looks the politician up by that number as primary key, never by
    slug. *)
Theorem get_by_slug_or_id_decimal :
  forall (n : Z) (w : World),
    0 <= n ->
    get_by_slug_or_id (Py.unicode n) w = Politician_get n w.
Proof.
  intros n w Hn. destruct (unicode_digits n Hn) as [ds [Hds [Hne [Hdig Hval]]]].
  unfold get_by_slug_or_id, PyStr.isdigit, PyStr.int. rewrite Hds.
  destruct ds as [|c ds]; [contradiction|]. rewrite Hdig, Hval. reflexivity.
Qed.

(** ** Session names *)

(** X19.  [get_from_string] reads a session key off a string made of two
    digits, a non-empty run of non-digits, one digit and a non-digit: the
    session looked up has the two digits, a hyphen and the single digit as
    key.  When the single digit is followed by another digit, as for a
    session number of two digits, the call raises [ValueError]. *)
Theorem get_from_string_format :
  forall (sessions : list Session.t) (a b c d : ascii)
         (gap tail : list ascii),
    Py.isdigit a = true -> Py.isdigit b = true -> Py.isdigit c = true ->
    gap <> [] ->
    forallb (fun x => negb (Py.isdigit x)) gap = true ->
    (Py.isdigit d = false ->
     get_from_string sessions
       (string_of_list_ascii (a :: b :: gap ++ c :: d :: tail))
     = Session_get sessions
         (String a (String b (String "-" (String c EmptyString)))))
    /\ (Py.isdigit d = true ->
        get_from_string sessions
          (string_of_list_ascii (a :: b :: gap ++ c :: d :: tail))
        = Raise ValueError).
Proof.
  intros sessions a b c d gap tail Ha Hb Hc Hne Hgap.
  assert (Hspan : Re.span (fun x => negb (Py.isdigit x))
                          (gap ++ c :: d :: tail) = (gap, c :: d :: tail)).
  { apply span_app_stop; [exact Hgap|]. rewrite Hc. reflexivity. }
  split; intros Hd; unfold get_from_string;
    rewrite list_ascii_of_string_of_list_ascii; unfold session_groups;
    rewrite Ha, Hb, Hspan, Hc, Hd; simpl;
    destruct gap; try contradiction; reflexivity.
Qed.

(** ** The family name read off a query *)

Lemma search_some (here : list ascii -> option (list ascii))
      (l g : list ascii) :
  Re.search here l = Some g -> exists suffix, here suffix = Some g.
Proof.
  induction l as [|c l IH]; simpl.
  - destruct (here []) eqn:E; [|discriminate].
    intros H. inversion H; subst. eauto.
  - destruct (here (c :: l)) eqn:E.
    + intros H. inversion H; subst. eauto.
    + exact IH.
Qed.

(** X20.  A family name extracted by the last stage starts with an ASCII
    capital and goes on with at least one more character, all of them ASCII
    letters, digits, underscores or hyphens: a last word with an apostrophe,
    a dot or an accented letter is never taken as family name. *)
Theorem search_lastname_shape :
  forall (s lastname : string),
    Re.search_lastname s = Some lastname ->
    exists c body,
      lastname = String c (string_of_list_ascii body)
      /\ Py.isupper c = true
      /\ body <> []
      /\ forallb Re.word_or_hyphen body = true.
Proof.
  intros s lastname. unfold Re.search_lastname.
  destruct (Re.search Re.lastname_here (list_ascii_of_string s)) as [g|] eqn:E;
    [|discriminate].
  simpl. intros H. inversion H; subst lastname; clear H.
  apply search_some in E. destruct E as [suffix E].
  unfold Re.lastname_here in E.
  destruct suffix as [|ws [|c t]]; try discriminate.
  destruct (Py.isspace ws && Py.isupper c)%bool eqn:Ec; [|discriminate].
  apply andb_true_iff in Ec. destruct Ec as [_ Hc].
  destruct (Re.span Re.word_or_hyphen t) as [body tail] eqn:Es.
  destruct body as [|b body]; [discriminate|].
  destruct (Re.at_end tail); [|discriminate].
  inversion E; subst g.
  exists c, (b :: body). split; [reflexivity|]. split; [exact Hc|].
  split; [discriminate|]. apply (span_forallb _ _ _ _ Es).
Qed.

(** ** Slugs of politicians *)

Lemma slugs_unique_upsert (l : list Politician.t) (x : Politician.t) :
  (forall p q, In p l -> In q l -> Politician.slug p = Politician.slug q ->
               Politician.slug p <> "" -> Politician.id p = Politician.id q) ->
  (forall p, In p l -> Politician.slug p <> Politician.slug x) ->
  forall p q,
    In p (map (fun r => if Politician.id r =? Politician.id x then x else r) l)
    \/ p = x ->
    In q (map (fun r => if Politician.id r =? Politician.id x then x else r) l)
    \/ q = x ->
    Politician.slug p = Politician.slug q ->
    Politician.slug p <> "" ->
    Politician.id p = Politician.id q.
Proof.
  intros Hl Hfree p q Hp Hq Hslug Hnb.
  assert (Hcase : forall r,
             In r (map (fun r => if Politician.id r =? Politician.id x
                                 then x else r) l) \/ r = x ->
             r = x \/ In r l).
  { intros r [Hr| ->]; [|left; reflexivity].
    apply in_map_iff in Hr. destruct Hr as [r0 [Hr0 Hin]].
    destruct (Politician.id r0 =? Politician.id x);
      [left; symmetry; exact Hr0 | right; subst r; exact Hin]. }
  destruct (Hcase p Hp) as [->|Hpl]; destruct (Hcase q Hq) as [->|Hql].
  - reflexivity.
  - exfalso. apply (Hfree q Hql). symmetry. exact Hslug.
  - exfalso. apply (Hfree p Hpl). exact Hslug.
  - apply Hl; assumption.
Qed.

Section MoreSlugs.

Variable normalizeName : string -> string.
Variable django_slugify : string -> string.

Lemma Politician_save_politicians (self : Politician.t) (w : World) :
  politicians (snd (Politician_save normalizeName self w))
  = politicians (snd (Model_save self w)).
Proof.
  unfold Politician_save, bind.
  destruct (Model_save self w) as [[pk|e] w0] eqn:E; [|reflexivity].
  destruct (add_alternate_name_stores normalizeName pk (Politician.name self) w0)
    as [w1 [Hrun [_ [_ [Hpols _]]]]].
  rewrite Hrun. simpl. exact Hpols.
Qed.

(** X21.  [add_slug] never gives two politicians the same slug, and never
    replaces a slug: if politicians with equal non-blank slugs have equal
    keys before the call, they have after it; and for an instance that has a
    slug the call returns [True] and writes nothing. *)
Theorem add_slug_keeps_slugs_unique :
  forall (self : Politician.t) (w : World),
    (slugs_unique w ->
     slugs_unique (snd (add_slug normalizeName django_slugify self w)))
    /\ (Politician.slug self <> "" ->
        add_slug normalizeName django_slugify self w = (Ok (Some true), w)).
Proof.
  intros self w. split.
  - intros Hw. unfold add_slug.
    destruct (Py.truthy (Politician.slug self)); [exact Hw|].
    destruct (existsb (fun p => String.eqb (Politician.slug p)
                                           (django_slugify (Politician.name self)))
                      (politicians w)) eqn:Etaken; [exact Hw|].
    set (saved := Politician.Build (Politician.id self) (Politician.name self)
                    (Politician.name_given self) (Politician.name_family self)
                    (django_slugify (Politician.name self))).
    assert (Hfree : forall p, In p (politicians w) ->
                              Politician.slug p <> Politician.slug saved).
    { intros p Hp. apply String.eqb_neq.
      apply (proj1 (existsb_false_iff _ _) Etaken p Hp). }
    assert (Hpols : politicians
                      (snd ((Politician_save normalizeName saved ;;; ret (@None bool)) w))
                    = politicians (snd (Model_save saved w))).
    { rewrite <- Politician_save_politicians. unfold bind.
      destruct (Politician_save normalizeName saved w) as [[pk|e] w1];
        reflexivity. }
    intros p q Hp Hq. rewrite Hpols in Hp, Hq. unfold Model_save in Hp, Hq.
    change (Politician.id saved) with (Politician.id self) in Hp, Hq.
    destruct (existsb (fun p => Politician.id p =? Politician.id self)
                      (politicians w)); simpl in Hp, Hq.
    + apply (slugs_unique_upsert (politicians w) saved Hw Hfree);
        left; assumption.
    + apply in_app_or in Hp. apply in_app_or in Hq.
      destruct Hp as [Hp|[<-|[]]]; destruct Hq as [Hq|[<-|[]]].
      * apply Hw; assumption.
      * intros Hslug _. exfalso. apply (Hfree p Hp). exact Hslug.
      * intros Hslug _. exfalso. apply (Hfree q Hq). symmetry. exact Hslug.
      * reflexivity.
  - intros Hslug. unfold add_slug, Py.truthy.
    destruct (String.eqb_spec (Politician.slug self) ""); [contradiction|].
    reflexivity.
Qed.

End MoreSlugs.

(** ** More on the lookups by external identifier *)

Lemma Politician_get_ok (pk p : Z) (w w' : World) :
  Politician_get pk w = (Ok p, w') -> p = pk /\ w' = w.
Proof.
  unfold Politician_get.
  destruct (filter (fun p => Politician.id p =? pk) (politicians w))
    as [|r [|r' rest]] eqn:E; try discriminate.
  assert (Hin : In r (filter (fun p => Politician.id p =? pk) (politicians w)))
    by (rewrite E; left; reflexivity).
  apply filter_In in Hin. destruct Hin as [_ Hid]. apply Z.eqb_eq in Hid.
  intros H. inversion H. split; [congruence | reflexivity].
Qed.

(** A guarded [set_info] that returns, for a value no row holds under the
    key, leaves exactly one row holding it, owned by the politician. *)
Lemma set_info_fresh_value (pol : Z) (key v : string) (w w' : World) :
  info_by_value key v w = [] ->
  set_info pol key v false w = (Ok tt, w') ->
  exists row,
    info_by_value key v w' = [row] /\ PoliticianInfo.politician row = pol.
Proof.
  intros Hfresh. unfold set_info.
  destruct (politicianinfo_set pol key w) as [|i [|j rest]]; simpl.
  - intros H. inversion H; subst w'. unfold info_by_value in *. simpl.
    rewrite filter_snoc, Hfresh. simpl. rewrite !String.eqb_refl. simpl.
    eauto.
  - discriminate.
  - unfold bind, del_info, PoliticianInfo_create. simpl.
    intros H. inversion H; subst w'. unfold info_by_value in *. simpl.
    rewrite filter_snoc, (filter_of_filter_nil _ _ _ Hfresh). simpl.
    rewrite !String.eqb_refl. simpl. eauto.
Qed.

(** A guarded [set_info] leaves the rows of every other key as they are. *)
Lemma set_info_other_key (pol : Z) (key key' v v' : string) (w : World) :
  key' <> key ->
  info_by_value key' v' (snd (set_info pol key v false w))
  = info_by_value key' v' w.
Proof.
  intros Hne. unfold set_info.
  assert (Hrow : forall k,
             (String.eqb (PoliticianInfo.schema (PoliticianInfo.Build k pol key v))
                         key'
              && String.eqb (PoliticianInfo.value (PoliticianInfo.Build k pol key v))
                            v')%bool = false).
  { intros k. simpl. destruct (String.eqb_spec key key'); [congruence|].
    reflexivity. }
  destruct (politicianinfo_set pol key w) as [|i [|j rest]]; simpl.
  - unfold info_by_value. simpl. rewrite filter_snoc, Hrow. apply app_nil_r.
  - reflexivity.
  - unfold info_by_value. simpl. rewrite filter_snoc, Hrow, app_nil_r.
    induction (infos w) as [|a l IH]; [reflexivity|]. simpl.
    destruct ((PoliticianInfo.politician a =? pol)
              && String.eqb (PoliticianInfo.schema a) key)%bool eqn:Eown; simpl.
    + apply andb_true_iff in Eown. destruct Eown as [_ Hs].
      apply String.eqb_eq in Hs. rewrite Hs.
      destruct (String.eqb_spec key key'); [congruence|]. simpl. exact IH.
    + rewrite IH. reflexivity.
Qed.

Lemma schema_parl_affil_id_not_alternate : "parl_affil_id" <> "alternate_name".
Proof. discriminate. Qed.

Lemma schema_parl_affil_id_not_mp_id : "parl_affil_id" <> "parl_mp_id".
Proof. discriminate. Qed.

Section MoreExternalIds.

Variable normalizeName : string -> string.
Variable slugify : string -> string.
Variable http_get : string -> option Response.t.

(** X22.  Once [get_by_parl_mp_id] has returned a politician for an
    identifier, calling it again for that identifier, with whatever session
    and riding name, returns the same politician straight from the table:
    the store, request log included, is left as it is. *)
Theorem get_by_parl_mp_id_then_fast_path :
  forall (parlid : Z) (session riding_name : option string)
         (w w' : World) (p : Z),
    get_by_parl_mp_id normalizeName slugify http_get
                      parlid session riding_name w = (Ok p, w') ->
    forall session' riding_name',
      get_by_parl_mp_id normalizeName slugify http_get
                        parlid session' riding_name' w' = (Ok p, w').
Proof.
  intros parlid session riding_name w w' p Hrun session' riding_name'.
  assert (Hrows : exists row,
             info_by_value "parl_mp_id" (Py.unicode parlid) w' = [row]
             /\ PoliticianInfo.politician row = p).
  { unfold get_by_parl_mp_id, PoliticianInfo_get in Hrun.
    destruct (info_by_value "parl_mp_id" (Py.unicode parlid) w)
      as [|i [|j rest]] eqn:Efast.
    - unfold bind at 1 in Hrun.
      pose proof (writes_get_pol_from_ourcommons_url normalizeName slugify
                    http_get (POL_PERSON_ID_LOOKUP_URL parlid)
                    session riding_name w) as Hgrow.
      destruct (_get_pol_from_ourcommons_url normalizeName slugify http_get
                  (POL_PERSON_ID_LOOKUP_URL parlid) session riding_name w)
        as [[[pol x]|e] w1]; [|discriminate].
      simpl in Hgrow.
      destruct (parlid =? x); simpl in Hrun; [|discriminate].
      unfold bind in Hrun.
      destruct (set_info pol "parl_mp_id" (Py.unicode parlid) false w1)
        as [[[]|e] w2] eqn:Eset; [|discriminate].
      destruct (Politician_get_ok _ _ _ _ Hrun) as [-> ->].
      apply (set_info_fresh_value pol _ _ w1); [|exact Eset].
      rewrite (only_alternates_added_by_value w w1 _ _ Hgrow
                 schema_parl_mp_id_not_alternate).
      exact Efast.
    - inversion Hrun; subst. exists i. split; [exact Efast | reflexivity].
    - discriminate. }
  destruct Hrows as [row [Hrow Hpol]].
  unfold get_by_parl_mp_id, PoliticianInfo_get. rewrite Hrow, Hpol.
  reflexivity.
Qed.

(** X23.  The affiliation lookup checks the person ID it finds.  On the
    slow path, when the directory leads to politician [pol] and person ID
    [mp_id], and [mp_id] is already the person ID of another politician,
    [get_by_parl_affil_id] raises and writes nothing after the resolution:
    no affiliation row, no person-ID row. *)
Theorem get_by_parl_affil_id_conflict :
  forall (parlid : Z) (session riding_name : option string)
         (w w1 : World) (pol mp_id : Z) (info : PoliticianInfo.t),
    info_by_value "parl_affil_id" (Py.unicode parlid) w = [] ->
    _get_pol_from_ourcommons_url normalizeName slugify http_get
      (POL_AFFIL_ID_LOOKUP_URL parlid) session riding_name w
    = (Ok (pol, mp_id), w1) ->
    info_by_value "parl_mp_id" (Py.unicode mp_id) w1 = [info] ->
    PoliticianInfo.politician info <> pol ->
    exists msg,
      get_by_parl_affil_id normalizeName slugify http_get
                           parlid session riding_name w
      = (Raise (Exception msg), w1).
Proof.
  intros parlid session riding_name w w1 pol mp_id info Hmiss Hrun Hbound Hne.
  unfold get_by_parl_affil_id, PoliticianInfo_get. rewrite Hmiss.
  unfold bind at 1. rewrite Hrun. unfold bind at 1. rewrite Hbound.
  destruct (Z.eqb_spec (PoliticianInfo.politician info) pol); [contradiction|].
  simpl. eauto.
Qed.

(** X24.  Once [get_by_parl_affil_id] has returned a politician for an
    affiliation ID, calling it again for that ID returns the same politician
    straight from the table and leaves the store, request log included, as
    it is. *)
Theorem get_by_parl_affil_id_then_fast_path :
  forall (parlid : Z) (session riding_name : option string)
         (w w' : World) (p : Z),
    get_by_parl_affil_id normalizeName slugify http_get
                         parlid session riding_name w = (Ok p, w') ->
    forall session' riding_name',
      get_by_parl_affil_id normalizeName slugify http_get
                           parlid session' riding_name' w' = (Ok p, w').
Proof.
  intros parlid session riding_name w w' p Hrun session' riding_name'.
  assert (Hrows : exists row,
             info_by_value "parl_affil_id" (Py.unicode parlid) w' = [row]
             /\ PoliticianInfo.politician row = p).
  { unfold get_by_parl_affil_id, PoliticianInfo_get in Hrun.
    destruct (info_by_value "parl_affil_id" (Py.unicode parlid) w)
      as [|i [|j rest]] eqn:Efast.
    - unfold bind at 1 in Hrun.
      pose proof (writes_get_pol_from_ourcommons_url normalizeName slugify
                    http_get (POL_AFFIL_ID_LOOKUP_URL parlid)
                    session riding_name w) as Hgrow.
      destruct (_get_pol_from_ourcommons_url normalizeName slugify http_get
                  (POL_AFFIL_ID_LOOKUP_URL parlid) session riding_name w)
        as [[[pol x]|e] w1]; [|discriminate].
      simpl in Hgrow.
      assert (Hw1 : info_by_value "parl_affil_id" (Py.unicode parlid) w1 = []).
      { rewrite (only_alternates_added_by_value w w1 _ _ Hgrow
                   schema_parl_affil_id_not_alternate).
        exact Efast. }
      assert (Htail : forall w2,
                 info_by_value "parl_affil_id" (Py.unicode parlid) w2 = [] ->
                 (set_info_multivalued pol "parl_affil_id" (Py.unicode parlid) ;;;
                  Politician_get pol) w2 = (Ok p, w') ->
                 exists row,
                   info_by_value "parl_affil_id" (Py.unicode parlid) w' = [row]
                   /\ PoliticianInfo.politician row = p).
      { intros w2 Hw2 Htl. unfold bind, set_info_multivalued in Htl.
        rewrite Hw2 in Htl. simpl in Htl.
        destruct (Politician_get_ok _ _ _ _ Htl) as [-> ->].
        unfold info_by_value in *. simpl.
        rewrite filter_snoc, Hw2. simpl. rewrite String.eqb_refl. simpl.
        eauto. }
      unfold bind at 1 in Hrun. unfold PoliticianInfo_get in Hrun.
      destruct (info_by_value "parl_mp_id" (Py.unicode x) w1)
        as [|m [|m' ms]] eqn:Emp.
      + destruct (set_info pol "parl_mp_id" (Py.unicode x) false w1)
          as [[[]|e] w2] eqn:Eset; [|discriminate].
        apply (Htail w2); [|exact Hrun].
        pose proof (set_info_other_key pol "parl_mp_id" "parl_affil_id"
                      (Py.unicode x) (Py.unicode parlid) w1
                      schema_parl_affil_id_not_mp_id) as Hk.
        rewrite Eset in Hk. simpl in Hk. rewrite Hk. exact Hw1.
      + destruct (negb (PoliticianInfo.politician m =? pol));
          [discriminate|].
        apply (Htail w1); [exact Hw1 | exact Hrun].
      + discriminate.
    - inversion Hrun; subst. exists i. split; [exact Efast | reflexivity].
    - discriminate. }
  destruct Hrows as [row [Hrow Hpol]].
  unfold get_by_parl_affil_id, PoliticianInfo_get. rewrite Hrow, Hpol.
  reflexivity.
Qed.

End MoreExternalIds.

(** ** Requests issued by a lookup *)

Lemma keeps_log_ret {A} (a : A) : keeps_log (ret a).
Proof. intros w. reflexivity. Qed.

Lemma keeps_log_raise {A} (e : exn) : keeps_log (@raise A e).
Proof. intros w. reflexivity. Qed.

Lemma keeps_log_bind {A B} (m : M A) (k : A -> M B) :
  keeps_log m -> (forall a, keeps_log (k a)) -> keeps_log (bind m k).
Proof.
  intros Hm Hk w. unfold bind. specialize (Hm w).
  destruct (m w) as [[a|e] w1]; simpl in *; [|exact Hm].
  rewrite Hk. exact Hm.
Qed.

Lemma keeps_log_reraise {A} (is_exc : exn -> bool) (e : exn) (m : M A) :
  keeps_log m -> keeps_log (reraise is_exc e m).
Proof.
  intros Hm w. unfold reraise. specialize (Hm w).
  destruct (m w) as [[a|e'] w1]; simpl in *; [exact Hm|].
  destruct (is_exc e'); exact Hm.
Qed.

Lemma keeps_log_raise_for_status (resp : Response.t) :
  keeps_log (raise_for_status resp).
Proof.
  unfold raise_for_status.
  destruct ((400 <=? Response.status_code resp)
            && (Response.status_code resp <? 600))%bool;
    [apply keeps_log_raise | apply keeps_log_ret].
Qed.

Section Requests.

Variable normalizeName : string -> string.
Variable slugify : string -> string.
Variable http_get : string -> option Response.t.

Lemma keeps_log_RidingManager_get_by_name (name : string) :
  keeps_log (RidingManager_get_by_name slugify name).
Proof.
  intros w. unfold RidingManager_get_by_name, Riding_get.
  destruct (filter _ (ridings w)) as [|r [|r' rest]]; reflexivity.
Qed.

Lemma keeps_log_get_by_name (name : string) (session : option string)
      (riding election party : option Z) (sa sm : bool) :
  keeps_log (get_by_name normalizeName name session riding election party
                         sa sm).
Proof.
  intros w.
  destruct (get_by_name_store normalizeName name session riding election party
                              sa sm w)
    as [[H _]|[s [lastname [p [_ [_ [_ [_ [_ [_ H]]]]]]]]]]; rewrite H;
    [reflexivity|].
  destruct (add_alternate_name_stores normalizeName (Politician.id p) name w)
    as [w1 [Hrun [_ [_ [_ [_ Hlog]]]]]].
  simpl. rewrite Hrun. exact Hlog.
Qed.

Lemma requests_get_run (url : string) (w : World) :
  requests_get http_get url w
  = match http_get url with
    | Some resp => (Ok resp, log_request w url)
    | None => (Raise ConnectionError, log_request w url)
    end.
Proof. reflexivity. Qed.

Lemma first_request_run (url : string) (w : World) :
  reraise is_HTTPError Politician_DoesNotExist
          (resp <- requests_get http_get url ;;
           raise_for_status resp ;;;
           ret resp) w
  = match http_get url with
    | Some resp =>
        if ((400 <=? Response.status_code resp)
            && (Response.status_code resp <? 600))%bool
        then (Raise Politician_DoesNotExist, log_request w url)
        else (Ok resp, log_request w url)
    | None => (Raise ConnectionError, log_request w url)
    end.
Proof.
  unfold reraise, bind, requests_get.
  destruct (http_get url) as [resp|]; [|reflexivity].
  unfold raise_for_status.
  destruct ((400 <=? Response.status_code resp)
            && (Response.status_code resp <? 600))%bool; reflexivity.
Qed.

(** X25.  [_get_pol_from_ourcommons_url] talks to the directory once or
    twice and never more: its first request is for the URL it is given, and
    the second one, if any, is for the URL reached by the first with [/xml]
    appended.  In the store it adds alternate names at most. *)
Theorem get_pol_from_ourcommons_url_requests :
  forall (url : string) (session riding_name : option string) (w : World),
    only_alternates_added
      w (snd (_get_pol_from_ourcommons_url normalizeName slugify http_get
                                           url session riding_name w))
    /\ (requested (snd (_get_pol_from_ourcommons_url normalizeName slugify
                          http_get url session riding_name w))
        = requested w ++ [url]
        \/ exists resp,
            http_get url = Some resp
            /\ requested (snd (_get_pol_from_ourcommons_url normalizeName
                                 slugify http_get url session riding_name w))
               = requested w ++ [url; (Response.url resp ++ "/xml")%string]).
Proof.
  intros url session riding_name w.
  split; [apply writes_get_pol_from_ourcommons_url|].
  remember (_get_pol_from_ourcommons_url normalizeName slugify http_get
              url session riding_name w) as out eqn:Eout.
  unfold _get_pol_from_ourcommons_url in Eout.
  unfold bind at 1 in Eout. rewrite first_request_run in Eout.
  destruct (http_get url) as [resp|] eqn:E1; [|subst out; left; reflexivity].
  destruct ((400 <=? Response.status_code resp)
            && (Response.status_code resp <? 600))%bool;
    [subst out; left; reflexivity|].
  destruct (Re.search_person_id (Response.url resp)) as [parl_mp_id|].
  2:{ subst out. left. destruct (Py.endswith _ _); reflexivity. }
  right. exists resp. split; [reflexivity|].
  cbv zeta in Eout. unfold bind at 1 in Eout.
  rewrite requests_get_run in Eout.
  destruct (http_get (Response.url resp ++ "/xml")%string) as [xml_resp|].
  2:{ subst out. simpl. rewrite <- app_assoc. reflexivity. }
  subst out.
  match goal with
  | |- requested (snd (?m ?w2)) = _ =>
      assert (Hkeep : keeps_log m); [|rewrite (Hkeep w2)]
  end.
  2:{ simpl. rewrite <- app_assoc. reflexivity. }
  apply keeps_log_bind; [apply keeps_log_raise_for_status|]. intros _.
  destruct (Response.content xml_resp) as [xml_doc|]; [|apply keeps_log_raise].
  destruct (findtext xml_doc _) as [first|]; [|apply keeps_log_raise].
  destruct (findtext xml_doc _) as [last|]; [|apply keeps_log_raise].
  destruct (findtext xml_doc _) as [polriding|]; [|apply keeps_log_raise].
  apply keeps_log_bind.
  { apply keeps_log_reraise. apply keeps_log_RidingManager_get_by_name. }
  intros riding. apply keeps_log_bind.
  { destruct riding_name as [rn|]; [|apply keeps_log_ret].
    destruct (Py.truthy rn); [|apply keeps_log_ret].
    apply keeps_log_bind; [apply keeps_log_RidingManager_get_by_name|].
    intros expected.
    destruct (negb _); [apply keeps_log_raise | apply keeps_log_ret]. }
  intros _. apply keeps_log_bind; [apply keeps_log_get_by_name|].
  intros pol. apply keeps_log_ret.
Qed.

End Requests.

(** ** The further theorems at work *)

Lemma smiths_one_id_ids_unique : info_ids_unique Scenario.smiths_one_id.
Proof.
  unfold info_ids_unique. simpl.
  repeat (constructor; [simpl; intuition discriminate|]). constructor.
Qed.

Lemma set_info_single_valued_witness :
  info_multivalued 1 "parl_mp_id"
    (snd (set_info 1 "parl_mp_id" "7" true Scenario.smiths_one_id)) = ["7"]
  /\ (forall pol' key',
         pol' <> 1 \/ key' <> "parl_mp_id" ->
         politicianinfo_set pol' key'
           (snd (set_info 1 "parl_mp_id" "7" true Scenario.smiths_one_id))
         = politicianinfo_set pol' key' Scenario.smiths_one_id)
  /\ info_ids_unique
       (snd (set_info 1 "parl_mp_id" "7" true Scenario.smiths_one_id)).
Proof.
  apply (set_info_single_valued 1 "parl_mp_id" "7" true
           Scenario.smiths_one_id).
  - exact smiths_one_id_ids_unique.
  - reflexivity.
Defined.

Lemma set_info_multivalued_get_or_create_witness :
  exists w',
    set_info_multivalued 1 "parl_affil_id" "55" Scenario.smiths = (Ok tt, w')
    /\ length (value_rows 1 "parl_affil_id" "55" w') = 1%nat
    /\ (length (value_rows 1 "parl_affil_id" "55" Scenario.smiths) = 1%nat ->
        w' = Scenario.smiths)
    /\ set_info_multivalued 1 "parl_affil_id" "55" w' = (Ok tt, w').
Proof.
  destruct (set_info_multivalued_get_or_create 1 "parl_affil_id" "55"
              Scenario.smiths) as [Hfew _].
  apply Hfew. simpl. lia.
Defined.

Lemma smiths_alternates_unique : alternates_unique Scenario.smiths.
Proof.
  intros pol v. unfold alternate_rows, info_by_value.
  cbn -[String.eqb Z.eqb]. rewrite !String.eqb_refl. cbn -[String.eqb Z.eqb].
  destruct (String.eqb "john smith" v); destruct (String.eqb "jane smith" v);
    cbn -[Z.eqb];
    destruct (Z.eqb_spec 1 pol); destruct (Z.eqb_spec 2 pol);
    destruct (Z.eqb_spec 3 pol); cbn; lia.
Qed.

Lemma alternates_unique_preserved_witness :
  (forall self name,
      alternates_unique
        (snd (add_alternate_name Parsetools.normalizeName self name
                                 Scenario.smiths)))
  /\ (forall self,
         alternates_unique
           (snd (Politician_save Parsetools.normalizeName self Scenario.smiths)))
  /\ (forall name session riding election party sa sm,
         alternates_unique
           (snd (get_by_name Parsetools.normalizeName name session riding
                             election party sa sm Scenario.smiths))).
Proof.
  apply alternates_unique_preserved. exact smiths_alternates_unique.
Defined.

Lemma get_by_name_sound_witness :
  (holds_alternate 2 (Parsetools.normalizeName "Tom Smith") Scenario.smiths
   /\ Scenario.smiths = Scenario.smiths
   /\ ((is_some (Some "41-1") || is_some (Some 20) || is_some (@None Z))%bool
       = true ->
       has_passing_membership 2 (Some "41-1") (Some 20) None Scenario.smiths))
  \/ exists s lastname p,
      Some "41-1" = Some s /\ false = false
      /\ Re.search_lastname (Py.strip "Tom Smith") = Some lastname
      /\ Politician.id p = 2
      /\ family_match p lastname s (Some 20) Scenario.smiths
      /\ (forall q, family_match q lastname s (Some 20) Scenario.smiths ->
                    q = p).
Proof.
  apply (get_by_name_sound Parsetools.normalizeName "Tom Smith" (Some "41-1")
           (Some 20) None None false false Scenario.smiths Scenario.smiths 2).
  reflexivity.
Defined.

Lemma get_by_name_store_unchanged_witness :
  snd (get_by_name Parsetools.normalizeName "Tom Smith" (Some "41-1") (Some 20)
                   None None false false Scenario.smiths)
  = Scenario.smiths.
Proof.
  apply get_by_name_store_unchanged. left. reflexivity.
Defined.

Lemma get_by_name_self_healing_witness :
  exists w',
    get_by_name Parsetools.normalizeName "Tom Smith" (Some "41-1") (Some 20)
                None None true false Scenario.smiths = (Ok 2, w')
    /\ In (Parsetools.normalizeName "Tom Smith") (alternate_names 2 w')
    /\ forall sa sm,
        get_by_name Parsetools.normalizeName "Tom Smith" None None None None
                    sa sm w' = (Ok 2, w').
Proof.
  apply (get_by_name_self_healing Parsetools.normalizeName "Tom Smith" "41-1"
           (Some 20) None None Scenario.smiths "Smith"
           (Politician.Build 2 "John Smith" "John" "Smith" "")).
  - reflexivity.
  - reflexivity.
  - reflexivity.
Defined.

Lemma get_by_name_context_ambiguous_witness :
  get_by_name Parsetools.normalizeName "John Smith" (Some "41-1") None
              None None true false Scenario.smiths
  = (Raise Politician_MultipleObjectsReturned, Scenario.smiths).
Proof.
  apply (get_by_name_context_ambiguous Parsetools.normalizeName "John Smith"
           (Some "41-1") None None None true false Scenario.smiths
           [] [] []
           (PoliticianInfo.Build 1 1 "alternate_name" "john smith")
           (PoliticianInfo.Build 2 2 "alternate_name" "john smith")).
  - reflexivity.
  - reflexivity.
  - vm_compute. discriminate.
  - vm_compute. discriminate.
Defined.

Lemma get_by_name_context_mismatch_witness :
  get_by_name Parsetools.normalizeName "John Smith" None (Some 10)
              None (Some 8) true false Scenario.smiths
  = (Raise Politician_DoesNotExist, Scenario.smiths).
Proof.
  apply get_by_name_context_mismatch.
  - reflexivity.
  - intros pol [i [Hi [Hpol [_ Hv]]]] [m [Hm [Hmp [Hr [_ Hp]]]]].
    specialize (Hr 10 eq_refl). specialize (Hp 8 eq_refl).
    simpl in Hm. destruct Hm as [Hm|[Hm|[Hm|[]]]]; subst m;
      simpl in Hr, Hp, Hmp; try discriminate.
    rewrite <- Hmp in Hpol. clear Hmp. simpl in Hi.
    destruct Hi as [Hi|[Hi|[Hi|[]]]]; subst i; simpl in Hpol;
      try discriminate.
Defined.

Lemma get_by_name_election_only_fails_witness :
  get_by_name Parsetools.normalizeName "John Smith" None None (Some 3) None
              true false Scenario.smiths
  = (Raise (Exception "Election not implemented yet in Politician get_by_name"),
     Scenario.smiths)
  /\ get_by_name Parsetools.normalizeName "Tom Smith" None None (Some 3) None
                 true false Scenario.smiths
     = (Raise Politician_DoesNotExist, Scenario.smiths).
Proof.
  split.
  - apply (proj1 (get_by_name_election_only_fails Parsetools.normalizeName
                    "John Smith" 3 true false Scenario.smiths)).
    exists 1, (PoliticianInfo.Build 1 1 "alternate_name" "john smith").
    simpl. auto.
  - apply (proj2 (get_by_name_election_only_fails Parsetools.normalizeName
                    "Tom Smith" 3 true false Scenario.smiths)).
    intros pol [i [Hi [_ [_ Hv]]]]. simpl in Hi.
    destruct Hi as [Hi|[Hi|[Hi|[]]]]; subst i; vm_compute in Hv;
      discriminate.
Defined.

Lemma filter_by_name_alternate_names_witness :
  In (Parsetools.normalizeName "John  Smith") (alternate_names 2 Scenario.smiths).
Proof.
  apply (proj1 (filter_by_name_alternate_names Parsetools.normalizeName
                  "John  Smith" 2 Scenario.smiths)).
  vm_compute. right. left. reflexivity.
Defined.

Lemma RidingManager_get_by_name_canonical_witness :
  Scenario.smiths = Scenario.smiths
  /\ In (Riding.Build 10 "Richmond—Arthabaska" "Richmond—Arthabaska" "QC"
                      "richmond-arthabaska")
        (ridings Scenario.smiths)
  /\ dict_get FIX_RIDING "richmond-arthabaska" = None
  /\ ("richmond-arthabaska" = Parsetools.slugify "Richmond-Arthabasca"
      \/ dict_get FIX_RIDING (Parsetools.slugify "Richmond-Arthabasca")
         = Some "richmond-arthabaska").
Proof.
  apply (RidingManager_get_by_name_canonical Parsetools.slugify
           "Richmond-Arthabasca" Scenario.smiths Scenario.smiths
           (Riding.Build 10 "Richmond—Arthabaska" "Richmond—Arthabaska" "QC"
                         "richmond-arthabaska")).
  reflexivity.
Defined.

Lemma Riding_save_then_get_by_name_witness :
  (exists r w',
      Riding_save_new Parsetools.slugify "Calgary West" "Calgary-Ouest" "AB" ""
                      Scenario.smiths = (Ok r, w')
      /\ Riding.slug r = Parsetools.slugify "Calgary West"
      /\ RidingManager_get_by_name Parsetools.slugify "Calgary West" w'
         = (Ok r, w'))
  /\ (exists r w',
         Riding_save Parsetools.slugify
                     (Riding.Build 20 "Medicine Hat" "Medicine Hat" "AB" "")
                     Scenario.smiths = (Ok r, w')
         /\ Riding.slug r = Parsetools.slugify "Medicine Hat"
         /\ Riding.id r = 20
         /\ RidingManager_get_by_name Parsetools.slugify "Medicine Hat" w'
            = (Ok r, w')).
Proof.
  destruct (Riding_save_then_get_by_name Parsetools.slugify Scenario.smiths)
    as [Hnew Hkey].
  split.
  - apply Hnew; [reflexivity|].
    intros r Hr. simpl in Hr.
    destruct Hr as [<-|[<-|[]]]; vm_compute; discriminate.
  - apply (Hkey (Riding.Build 20 "Medicine Hat" "Medicine Hat" "AB" "")).
    + reflexivity.
    + simpl. repeat (constructor; [simpl; intuition discriminate|]).
      constructor.
    + reflexivity.
    + intros r Hr Hid. simpl in Hr.
      destruct Hr as [<-|[<-|[]]]; [vm_compute; discriminate|].
      exfalso. apply Hid. reflexivity.
Defined.

Lemma Party_save_registers_names_witness :
  exists self' w',
    Party_save Scenario2.grits true Scenario.empty = (Ok self', w')
    /\ Party.name_fr self' = " Liberal "
    /\ Party.short_name_en self' = " Liberal "
    /\ Party.short_name_fr self' = " Liberal "
    /\ map InternalXref.target_id
           (party_names_rows (party_key " Liberal ") w') = [1]
    /\ xref_unique w'.
Proof.
  destruct (Party_save_registers_names Scenario2.grits
              (Party.Build 1 " Liberal " " Liberal " " Liberal " " Liberal "
                           "lib")
              Scenario.empty
              (snd (Party_save Scenario2.grits true Scenario.empty))
              xref_unique_empty eq_refl)
    as [_ [Hfr [_ [Hsen [_ [Hsfr [_ [Hen [_ Hu]]]]]]]]].
  eexists. eexists. split; [reflexivity|].
  split; [apply Hfr; reflexivity|].
  split; [apply Hsen; reflexivity|].
  split; [apply Hsfr; reflexivity|].
  split; [exact Hen | exact Hu].
Defined.

Lemma Party_save_keeps_first_name_on_conflict_witness :
  exists msg w',
    Party_save Scenario2.rivals true Scenario.liberal
    = (Raise (Exception msg), w')
    /\ PartyManager_get_by_name "Grit" w' = (Ok 2, w').
Proof.
  apply (Party_save_keeps_first_name_on_conflict Scenario2.rivals
           Scenario.liberal
           (InternalXref.Build 1 "liberal" None 1 "party_names") []).
  - reflexivity.
  - reflexivity.
  - simpl. lia.
Defined.

Lemma Party_delete_names_forgets_witness :
  fst (PartyManager_get_by_name "Liberal"
         (snd (Party_delete_names 1 Scenario.liberal))) <> Ok 1
  /\ party_names_rows "liberal" (snd (Party_delete_names 2 Scenario.liberal))
     = party_names_rows "liberal" Scenario.liberal
  /\ xref_unique (snd (Party_delete_names 1 Scenario.liberal)).
Proof.
  split; [|split].
  - destruct (Party_delete_names_forgets 1 Scenario.liberal) as [H _].
    apply H.
  - destruct (Party_delete_names_forgets 2 Scenario.liberal) as [_ [H _]].
    apply H. intros x Hx. vm_compute in Hx. destruct Hx as [<-|[]].
    simpl. lia.
  - destruct (Party_delete_names_forgets 1 Scenario.liberal) as [_ [_ H]].
    apply H.
    apply (Party_add_alternate_name_unique 1 " Liberal " Scenario.empty).
    exact xref_unique_empty.
Defined.

Lemma person_lookup_url_round_trip_witness :
  Re.search_person_id (POL_PERSON_ID_LOOKUP_URL 1234) = Some 1234.
Proof. apply person_lookup_url_round_trip. lia. Defined.

Lemma get_by_slug_or_id_decimal_witness :
  get_by_slug_or_id (Py.unicode 2) Scenario.smiths
  = Politician_get 2 Scenario.smiths.
Proof. apply get_by_slug_or_id_decimal. lia. Defined.

Lemma get_from_string_format_witness :
  get_from_string Scenario2.sessions "41st Parliament, 1st Session"
  = Session_get Scenario2.sessions "41-1"
  /\ get_from_string Scenario2.sessions "41st Parliament, 10th Session"
     = Raise ValueError.
Proof.
  split.
  - apply (proj1 (get_from_string_format Scenario2.sessions
                    "4"%char "1"%char "1"%char "s"%char
                    (list_ascii_of_string "st Parliament, ")
                    (list_ascii_of_string "t Session")
                    eq_refl eq_refl eq_refl
                    ltac:(discriminate) eq_refl)).
    reflexivity.
  - apply (proj2 (get_from_string_format Scenario2.sessions
                    "4"%char "1"%char "1"%char "0"%char
                    (list_ascii_of_string "st Parliament, ")
                    (list_ascii_of_string "th Session")
                    eq_refl eq_refl eq_refl
                    ltac:(discriminate) eq_refl)).
    reflexivity.
Defined.

Lemma search_lastname_shape_witness :
  exists c body,
    "Mulcair" = String c (string_of_list_ascii body)
    /\ Py.isupper c = true
    /\ body <> []
    /\ forallb Re.word_or_hyphen body = true.
Proof.
  apply (search_lastname_shape "Tom Mulcair" "Mulcair"). reflexivity.
Defined.

Lemma smiths_slugs_unique : slugs_unique Scenario.smiths.
Proof.
  intros p q Hp Hq Hslug Hnb. simpl in Hp, Hq.
  destruct Hp as [<-|[<-|[<-|[]]]]; destruct Hq as [<-|[<-|[<-|[]]]];
    simpl in *; try reflexivity; try discriminate; contradiction.
Qed.

Lemma add_slug_keeps_slugs_unique_witness :
  slugs_unique
    (snd (add_slug Parsetools.normalizeName Parsetools.slugify
                   (Politician.Build 2 "John Smith" "John" "Smith" "")
                   Scenario.smiths))
  /\ add_slug Parsetools.normalizeName Parsetools.slugify
              (Politician.Build 1 "John Smith" "John" "Smith" "john-smith")
              Scenario.smiths
     = (Ok (Some true), Scenario.smiths).
Proof.
  split.
  - destruct (add_slug_keeps_slugs_unique Parsetools.normalizeName
                Parsetools.slugify
                (Politician.Build 2 "John Smith" "John" "Smith" "")
                Scenario.smiths) as [H _].
    apply H. exact smiths_slugs_unique.
  - destruct (add_slug_keeps_slugs_unique Parsetools.normalizeName
                Parsetools.slugify
                (Politician.Build 1 "John Smith" "John" "Smith" "john-smith")
                Scenario.smiths) as [_ H].
    apply H. simpl. discriminate.
Defined.

Lemma get_by_parl_mp_id_then_fast_path_witness :
  get_by_parl_mp_id Parsetools.normalizeName Parsetools.slugify
    Scenario.directory 7 (Some "41-1") None
    (snd (get_by_parl_mp_id Parsetools.normalizeName Parsetools.slugify
            Scenario.directory 7 None None Scenario.smiths))
  = (Ok 1,
     snd (get_by_parl_mp_id Parsetools.normalizeName Parsetools.slugify
            Scenario.directory 7 None None Scenario.smiths)).
Proof.
  apply (get_by_parl_mp_id_then_fast_path Parsetools.normalizeName
           Parsetools.slugify Scenario.directory 7 None None Scenario.smiths).
  vm_compute. reflexivity.
Defined.

Lemma get_by_parl_affil_id_conflict_witness :
  exists msg,
    get_by_parl_affil_id Parsetools.normalizeName Parsetools.slugify
      Scenario2.directory_affil 55 None None Scenario2.smiths_id_elsewhere
    = (Raise (Exception msg),
       snd (_get_pol_from_ourcommons_url Parsetools.normalizeName
              Parsetools.slugify Scenario2.directory_affil
              (POL_AFFIL_ID_LOOKUP_URL 55) None None
              Scenario2.smiths_id_elsewhere)).
Proof.
  apply (get_by_parl_affil_id_conflict Parsetools.normalizeName
           Parsetools.slugify Scenario2.directory_affil 55 None None
           Scenario2.smiths_id_elsewhere _ 1 7
           (PoliticianInfo.Build 4 3 "parl_mp_id" "7")).
  - reflexivity.
  - vm_compute. reflexivity.
  - vm_compute. reflexivity.
  - simpl. lia.
Defined.

Lemma get_by_parl_affil_id_then_fast_path_witness :
  get_by_parl_affil_id Parsetools.normalizeName Parsetools.slugify
    Scenario2.directory_affil 55 None None
    (snd (get_by_parl_affil_id Parsetools.normalizeName Parsetools.slugify
            Scenario2.directory_affil 55 None None Scenario.smiths))
  = (Ok 1,
     snd (get_by_parl_affil_id Parsetools.normalizeName Parsetools.slugify
            Scenario2.directory_affil 55 None None Scenario.smiths)).
Proof.
  apply (get_by_parl_affil_id_then_fast_path Parsetools.normalizeName
           Parsetools.slugify Scenario2.directory_affil 55 None None
           Scenario.smiths).
  vm_compute. reflexivity.
Defined.

(** ** The theorems on the context and on the person ID at work *)




Lemma three_johns_alternates_unique : alternates_unique Scenario2.three_johns.
Proof.
  intros pol v. unfold alternate_rows, info_by_value.
  cbn -[String.eqb Z.eqb]. rewrite !String.eqb_refl. cbn -[String.eqb Z.eqb].
  destruct (String.eqb "john smith" v); cbn -[Z.eqb];
    destruct (Z.eqb_spec 1 pol); destruct (Z.eqb_spec 2 pol);
    destruct (Z.eqb_spec 4 pol); cbn; lia.
Qed.




Lemma person_ids_single_empty : person_ids_single Scenario.empty.
Proof. intros pol. simpl. lia. Qed.





(** The hypothesis of [get_by_parl_mp_id_never_rebinds] cannot be dropped.
    On a store where politician 1 has two person-ID rows, which no lookup
    produces, [set_info] takes the branch that deletes and rewrites: the
    lookup of the unknown identifier 7 leaves it as the only person ID of
    politician 1. *)
Lemma get_by_parl_mp_id_doubled_rows :
  ~ person_ids_single Scenario.smiths_two_ids
  /\ info_multivalued 1 "parl_mp_id" Scenario.smiths_two_ids = ["5"; "6"]
  /\ info_multivalued 1 "parl_mp_id"
       (snd (get_by_parl_mp_id Parsetools.normalizeName Parsetools.slugify
                               Scenario.directory 7 None None
                               Scenario.smiths_two_ids)) = ["7"].
Proof.
  split; [|split; reflexivity].
  intros H. specialize (H 1). vm_compute in H. lia.
Qed.
